(** * deep-potential: scripts/fit_all.py

    A shallow embedding of the numerical pipeline of [scripts/fit_all.py]:
    the robust ensemble mean [clipped_vector_mean], the batched gradient
    evaluation [batch_calc_df_deta], the ensemble sampler
    [sample_from_flows], the two training drivers [train_flows] and
    [train_potential], and the functions that load flows and save and load
    the sampled gradients.

    Numbers.  NumPy arrays hold binary floating-point numbers of one dtype.
    The array code is written once over an interface [Numeric] of the
    arithmetic of a dtype (addition, subtraction, multiplication, division,
    square root, the two comparisons, the tests for NaN and for finite
    numbers, and the conversions of a count and of a Python number), so that
    structural facts are proved without any law of arithmetic.  The numbers
    are those of binary64, of which the numbers of binary32 are a part:
    [Numeric_float] is the arithmetic of float64 and [Numeric_single] that
    of float32, each operation of float64 followed by the rounding to
    single precision.  Where NumPy promotes a float32 operand, as
    [numpy.ma]'s mean does when it divides a sum by an array of counts, the
    code computes in float64 whatever the dtype of its input: the interface
    [Promotion] gives that arithmetic beside the one of the dtype.
    Reductions add from the left, starting from zero.

    Arrays.  An array carries its shape, as in NumPy, and its elements as
    nested lists; every operation builds its result from the shape, reading
    the operands by index.

    Exceptions.  Code that can raise returns a [result]; an exception raised
    by a driver leaves the objects and files it made before.

    Libraries.  TensorFlow, [flow_ffjord_tf] and [potential_tf] are not part
    of the script: the sampler and the density gradient of a flow are
    parameters ([FlowOps]), model objects live in a heap and record how they
    were built and trained, and file-system calls are events.  [str.format]
    and [os.path.split] are parameters too ([OsOps]); the first can raise. *)

From Stdlib Require Import Lia ZArith List Bool Ascii String Permutation Sorted.
From Stdlib Require Floats DecimalString.
From stdpp Require Import base strings gmap list.
Import ListNotations.

Set Default Proof Using "Type".

(** ** Arithmetic interface *)

Class Numeric (F : Type) := {
  zero : F;
  add : F -> F -> F;
  sub : F -> F -> F;
  mul : F -> F -> F;
  div : F -> F -> F;
  fsqrt : F -> F;
  of_nat : nat -> F;
  (** [ltb x y] is the truth value of [x < y], [leb x y] that of [x <= y]. *)
  ltb : F -> F -> bool;
  leb : F -> F -> bool;
  (** [np.nan], [np.isnan], [np.isfinite] and [np.absolute]. *)
  nan : F;
  is_nan : F -> bool;
  is_finite : F -> bool;
  fabs : F -> F;
  (** A Python number as an operand of an array of the dtype. *)
  of_scalar : F -> F
}.

(** The arithmetic of float64 on the same numbers, in which NumPy divides an
    array of floats by an array of integers, and [np.finfo(float).tiny]. *)
Class Promotion (F : Type) := {
  float64 : Numeric F;
  tiny : F
}.

(** ** binary64 and binary32 *)

Definition float_of_nat (n : nat) : PrimFloat.float :=
  Nat.iter n (fun x => PrimFloat.add x PrimFloat.one) PrimFloat.zero.

(** [2 ** e]. *)
Definition pow2 (e : Z) : PrimFloat.float := FloatOps.Z.ldexp PrimFloat.one e.

(** The integer nearest to [y], ties to even, for [0 <= y < 2 ** 52]: the
    sum with [2 ** 52] is rounded to an integer. *)
Definition rint (y : PrimFloat.float) : PrimFloat.float :=
  PrimFloat.sub (PrimFloat.add y (pow2 52)) (pow2 52).

(** [np.float32(x)] as a number of binary64: the nearest number with 24
    significant bits, or with a multiple of [2 ** -149] below the normal
    range, ties to even; an infinity from [2 ** 128] on. *)
Definition single (x : PrimFloat.float) : PrimFloat.float :=
  if PrimFloat.is_nan x || PrimFloat.is_infinity x || PrimFloat.is_zero x then x
  else
    let a := PrimFloat.abs x in
    let e := snd (FloatOps.Z.frexp a) in
    let q := Z.max (e - 24) (-149) in
    let r := FloatOps.Z.ldexp (rint (FloatOps.Z.ldexp a (- q))) q in
    let r := if PrimFloat.leb (pow2 128) r then PrimFloat.infinity else r in
    if PrimFloat.ltb x PrimFloat.zero then PrimFloat.opp r else r.

(** The arithmetic of float64. *)
Definition Numeric_float : Numeric PrimFloat.float := {|
  zero := PrimFloat.zero;
  add := PrimFloat.add;
  sub := PrimFloat.sub;
  mul := PrimFloat.mul;
  div := PrimFloat.div;
  fsqrt := PrimFloat.sqrt;
  of_nat := float_of_nat;
  ltb := PrimFloat.ltb;
  leb := PrimFloat.leb;
  nan := PrimFloat.nan;
  is_nan := PrimFloat.is_nan;
  is_finite := PrimFloat.is_finite;
  fabs := PrimFloat.abs;
  of_scalar := fun x => x
|}.

(** The arithmetic of float32: the operations of float64, rounded.  For
    these operations the second rounding does not change the result. *)
Definition Numeric_single : Numeric PrimFloat.float := {|
  zero := PrimFloat.zero;
  add := fun x y => single (PrimFloat.add x y);
  sub := fun x y => single (PrimFloat.sub x y);
  mul := fun x y => single (PrimFloat.mul x y);
  div := fun x y => single (PrimFloat.div x y);
  fsqrt := fun x => single (PrimFloat.sqrt x);
  of_nat := fun n => single (float_of_nat n);
  ltb := PrimFloat.ltb;
  leb := PrimFloat.leb;
  nan := PrimFloat.nan;
  is_nan := PrimFloat.is_nan;
  is_finite := PrimFloat.is_finite;
  fabs := PrimFloat.abs;
  of_scalar := single
|}.

Definition Promotion_float : Promotion PrimFloat.float := {|
  float64 := Numeric_float;
  tiny := pow2 (-1022)
|}.

(** ** Python helpers *)

(** [range(n)] for a Python integer [n]: empty when [n <= 0]. *)
Definition py_range (n : Z) : list nat := seq 0 (Z.to_nat n).

(** The list [f 0; ...; f (n-1)]. *)
Definition tab {A} (n : nat) (f : nat -> A) : list A := map f (seq 0 n).

Module Np.
Section Arrays.
Context {F : Type} `{Numeric F}.

(** *** Arrays with their shapes *)

Record ndarray2 := NdArray2 {
  shape2 : nat * nat;
  data2 : list (list F)
}.

Record ndarray3 := NdArray3 {
  shape3 : nat * nat * nat;
  data3 : list (list (list F))
}.

(** A [numpy.ma] masked array of two axes: the data and, entry by entry,
    whether it is masked.  A plain array is one with nothing masked. *)
Record marray2 := MArray2 {
  ma_data : ndarray2;
  ma_mask : list (list bool)
}.

Definition at2 (a : ndarray2) (i j : nat) : F :=
  nth j (nth i (data2 a) []) zero.

Definition at3 (a : ndarray3) (i j k : nat) : F :=
  nth k (nth j (nth i (data3 a) []) []) zero.

Definition bat2 (m : list (list bool)) (i j : nat) : bool :=
  nth j (nth i m []) false.

Definition bat3 (m : list (list (list bool))) (i j k : nat) : bool :=
  nth k (nth j (nth i m []) []) false.

Definition tab2 {A} (n0 n1 : nat) (f : nat -> nat -> A) : list (list A) :=
  tab n0 (fun i => tab n1 (f i)).

Definition tab3 {A} (n0 n1 n2 : nat) (f : nat -> nat -> nat -> A)
  : list (list (list A)) :=
  tab n0 (fun i => tab2 n1 n2 (f i)).

(** An array seen as a masked array: nothing is masked. *)
Definition plain (a : ndarray2) : marray2 :=
  let '(n0, n1) := shape2 a in
  MArray2 a (tab2 n0 n1 (fun _ _ => false)).

Definition masked_at (m : marray2) (i j : nat) : bool := bat2 (ma_mask m) i j.

(** *** Reductions of a list of numbers *)

(** [add.reduce] along an axis: the running sum from zero, the ufunc's
    identity, the first number first. *)
Definition np_sum (l : list F) : F := fold_left add l zero.

(** [np.mean] of the numbers of [l]: the sum over the count. *)
Definition np_mean (l : list F) : F := div (np_sum l) (of_nat (length l)).

(** Sorting by insertion, for the order statistics of [np.median]. *)
Fixpoint insert_sorted (x : F) (l : list F) : list F :=
  match l with
  | [] => [x]
  | y :: l' => if leb x y then x :: l else y :: insert_sorted x l'
  end.

Definition sort (l : list F) : list F := fold_right insert_sorted [] l.

(** [np.median]: NaN when one of the numbers is; otherwise [np.mean] of
    the middle of the sorted numbers: of the one in the middle, or of the
    two when their count is even (of no number at all when there is
    none). *)
Definition np_median (l : list F) : F :=
  if existsb is_nan l then nan
  else
    let s := sort l in
    let n := length l in
    if Nat.eqb n 0 then np_mean []
    else if Nat.odd n then np_mean [nth (n / 2) s zero]
    else np_mean [nth (n / 2 - 1) s zero; nth (n / 2) s zero].

(** The Euclidean norm: [sqrt(add.reduce(x * x))]. *)
Definition np_norm (l : list F) : F := fsqrt (np_sum (map (fun x => mul x x) l)).

(** *** Arrays of three axes *)

(** [numpy.ma.masked_array(data, mask=mask)] for three axes. *)
Record marray3 := MArray3 {
  ma3_data : ndarray3;
  ma3_mask : list (list (list bool))
}.

(** [np.mean(a, axis=0)]. *)
Definition np_mean_axis0 (a : ndarray3) : ndarray2 :=
  let '(n0, n1, n2) := shape3 a in
  NdArray2 (n1, n2)
    (tab2 n1 n2 (fun j k => np_mean (tab n0 (fun i => at3 a i j k)))).

(** [np.median(a, axis=0)]. *)
Definition np_median_axis0 (a : ndarray3) : ndarray2 :=
  let '(n0, n1, n2) := shape3 a in
  NdArray2 (n1, n2)
    (tab2 n1 n2 (fun j k => np_median (tab n0 (fun i => at3 a i j k)))).

(** [np.linalg.norm(a, axis=2)]: the norm reads the data of its argument
    ([asarray]), so a mask on it plays no part. *)
Definition np_linalg_norm_axis2 (a : ndarray3) : ndarray2 :=
  let '(n0, n1, n2) := shape3 a in
  NdArray2 (n0, n1)
    (tab2 n0 n1 (fun i j => np_norm (tab n2 (fun k => at3 a i j k)))).

(** [a - m[None]], the data of the difference: [m], of shape
    [(n1, n2)], is subtracted from every [a[i]].  Where [m] is masked,
    [numpy.ma] leaves the entry of the first operand in the data. *)
Definition sub_bcast (a : ndarray3) (m : marray2) : ndarray3 :=
  let '(n0, n1, n2) := shape3 a in
  NdArray3 (n0, n1, n2)
    (tab3 n0 n1 n2 (fun i j k =>
       if masked_at m j k then at3 a i j k
       else sub (at3 a i j k) (at2 (ma_data m) j k))).

(** *** Arrays of two axes *)

(** [np.median(a, axis=0)] for two axes: one number per column. *)
Definition np_median2_axis0 (a : ndarray2) : list F :=
  let '(n0, n1) := shape2 a in
  tab n1 (fun j => np_median (tab n0 (fun i => at2 a i j))).

(** [np.mean(a, axis=0)] for two axes. *)
Definition np_mean2_axis0 (a : ndarray2) : list F :=
  let '(n0, n1) := shape2 a in
  tab n1 (fun j => np_mean (tab n0 (fun i => at2 a i j))).

(** [np.std(a, axis=0)] for two axes: the root of the mean of the squared
    deviations from the mean. *)
Definition np_std (l : list F) : F :=
  let mu := np_mean l in
  fsqrt (np_mean (map (fun x => mul (sub x mu) (sub x mu)) l)).

Definition np_std2_axis0 (a : ndarray2) : list F :=
  let '(n0, n1) := shape2 a in
  tab n1 (fun j => np_std (tab n0 (fun i => at2 a i j))).

(** [a > t[None]]: each row of [a] against the vector [t]. *)
Definition gt_bcast (a : ndarray2) (t : list F) : list (list bool) :=
  let '(n0, n1) := shape2 a in
  tab2 n0 n1 (fun i j => ltb (nth j t zero) (at2 a i j)).

(** [np.reshape(m, m.shape + (1,))]. *)
Definition np_reshape_add_axis (m : list (list bool)) : list (list (list bool)) :=
  map (map (fun b => [b])) m.

(** [np.repeat(m, n, axis=2)]: every entry along the last axis [n] times. *)
Definition np_repeat_axis2 (m : list (list (list bool))) (n : nat)
  : list (list (list bool)) :=
  map (map (flat_map (fun b => repeat b n))) m.

(** *** The body of the loop of [clipped_vector_mean]

    With the names of the source, in the arithmetic of the section: the
    one of the dtype that NumPy gives to [v_samp - v_mean[None]]. *)
Definition dv_samp_of (v_samp : ndarray3) (v_mean : marray2) : ndarray2 :=
  np_linalg_norm_axis2 (sub_bcast v_samp v_mean).

Definition idx_of (clip_threshold : F) (dv_samp : ndarray2) : list (list bool) :=
  gt_bcast dv_samp (map (mul (of_scalar clip_threshold)) (np_median2_axis0 dv_samp)).

Definition mask_bad_of (v_samp : ndarray3) (clip_threshold : F) (v_mean : marray2)
  : list (list (list bool)) :=
  let '(n_samp, n_point, n_dim) := shape3 v_samp in
  let dv_samp := dv_samp_of v_samp v_mean in
  let idx := idx_of clip_threshold dv_samp in
  np_repeat_axis2 (np_reshape_add_axis idx) n_dim.

End Arrays.

Arguments ndarray2 : clear implicits.
Arguments ndarray3 : clear implicits.
Arguments marray2 : clear implicits.
Arguments marray3 : clear implicits.

(** ** [clipped_vector_mean] *)

Section Clip.
Context {F : Type} {N : Numeric F} {P : Promotion F}.

(** [self.filled(0)] along one axis: zero where the mask is set. *)
Definition filled (l : list F) (m : list bool) : list F :=
  map (fun xm : F * bool => if snd xm then zero else fst xm) (combine l m).

(** [self.count(axis)]: how many entries are not masked. *)
Definition ma_count (m : list bool) : nat := length (List.filter negb m).

(** [np.ma.mean] of the numbers [l] under the mask [m], a mask being
    there: [dsum * 1. / cnt].  The sum of the filled numbers is taken in
    the dtype of the array; the division by the counts, an array of
    integers, is one of float64.  [numpy.ma] divides within a domain: the
    quotient is masked where it is not finite, where
    [abs(dsum) * tiny >= cnt], and where every entry was masked; under the
    mask the data is what the division leaves there, the sum added to
    zero. *)
Definition ma_mean (l : list F) (m : list bool) : F * bool :=
  let dsum := np_sum (filled l m) in
  let cnt := @of_nat F float64 (ma_count m) in
  let result := @div F float64 dsum cnt in
  let mask :=
    negb (@is_finite F float64 result)
    || @leb F float64 cnt (@mul F float64 (@fabs F float64 dsum) tiny)
    || forallb (fun b => b) m in
  (if mask then @add F float64 (@zero F float64) dsum else result, mask).

(** [np.ma.mean(a, axis=0)]. *)
Definition np_ma_mean_axis0 (a : marray3 F) : marray2 F :=
  let '(n0, n1, n2) := shape3 (ma3_data a) in
  let cell j k :=
    ma_mean (tab n0 (fun i => at3 (ma3_data a) i j k))
            (tab n0 (fun i => bat3 (ma3_mask a) i j k)) in
  MArray2 (NdArray2 (n1, n2) (tab2 n1 n2 (fun j k => fst (cell j k))))
          (tab2 n1 n2 (fun j k => snd (cell j k))).

(** One pass of the loop, [ops] being the arithmetic of the dtype of
    [v_mean].  The distances, their median and the threshold are computed
    in it; the masked mean has its sum in the dtype of [v_samp]. *)
Definition clip_round (ops : Numeric F) (v_samp : ndarray3 F) (clip_threshold : F)
    (v_mean : marray2 F) : marray2 F :=
  let mask_bad := @mask_bad_of F ops v_samp clip_threshold v_mean in
  let v_samp_ma := MArray3 v_samp mask_bad in
  np_ma_mean_axis0 v_samp_ma.

(** The loop carries [v_mean] with the arithmetic of its dtype: that of
    [v_samp] for [np.mean(v_samp, axis=0)], float64 for every masked
    mean. *)
Definition clipped_vector_mean (v_samp : ndarray3 F) (clip_threshold : F) (rounds : Z)
  : marray2 F :=
  let v_mean := plain (np_mean_axis0 v_samp) in
  snd (fold_left (fun (st : Numeric F * marray2 F) (_ : nat) =>
                    (float64, clip_round (fst st) v_samp clip_threshold (snd st)))
                 (py_range rounds) (N, v_mean)).

(** The defaults of the signature: [clip_threshold=5, rounds=5]. *)
Definition default_clip_threshold : F := of_nat 5.
Definition default_rounds : Z := 5.

End Clip.
End Np.

(** ** Exceptions *)

(** The exceptions the code of the script raises by itself: an integer
    division by zero, [np.concatenate] of no array (or of arrays that do not
    fit), an attribute of [None], and a local variable read before it is
    bound ([UnboundLocalError], a [NameError]); and those [str.format] adds
    on a pattern that does not fit its one argument: a positional field
    beyond the first, a named field, a field that subscripts the number. *)
Inductive exn :=
| ZeroDivisionError
| ValueError
| AttributeError
| UnboundLocalError
| IndexError
| KeyError
| TypeError.

Inductive result (A : Type) :=
| Ok (a : A)
| Raise (e : exn).
Arguments Ok {A} a.
Arguments Raise {A} e.

#[export] Instance result_ret : MRet result := fun _ a => Ok a.
#[export] Instance result_bind : MBind result := fun _ _ f m =>
  match m with
  | Ok a => f a
  | Raise e => Raise e
  end.

(** [a // b] on counts. *)
Definition py_floordiv (a b : nat) : result nat :=
  if Nat.eqb b 0 then Raise ZeroDivisionError else Ok (a / b).

(** A loop whose body can raise: the first exception ends it. *)
Fixpoint for_each {A S} (body : S -> A -> result S) (l : list A) (s : S) : result S :=
  match l with
  | [] => Ok s
  | a :: l' => s' ← body s a; for_each body l' s'
  end.

(** [enumerate(l)]. *)
Definition enumerate {A} (l : list A) : list (nat * A) := combine (seq 0 (length l)) l.

Module Flows.
Import Np.

(** What the script takes from TensorFlow and from [flow_ffjord_tf]: the
    flows, the state of the random generator their sampler draws from, the
    sampler [flow.sample([n])] and the gradient of [flow.prob(batch)] with
    respect to [batch] that the tape of [calc_grads] returns. *)
Class FlowOps (F : Type) := {
  Flow : Type;
  Rng : Type;
  flow_sample : Flow -> nat -> Rng -> ndarray2 F * Rng;
  prob_gradient : Flow -> list (list F) -> list (list F)
}.

Section Sampling.
Context {F : Type} `{Numeric F} `{Promotion F} `{FlowOps F}.

(** *** [batch_calc_df_deta] *)

(** [progressbar.ProgressBar(max_value=...)] and its [update]. *)
Record ProgressBar := { max_value : nat; value : nat }.

(** [bar.update(v)] where [bar] may be [None]. *)
Definition bar_update (bar : option ProgressBar) (v : nat) : result (option ProgressBar) :=
  match bar with
  | None => Raise AttributeError
  | Some b => Ok (Some {| max_value := max_value b; value := v |})
  end.

(** [tf.data.Dataset.from_tensor_slices(eta).batch(batch_size)]: the rows
    in order, [batch_size] at a time, the last batch possibly shorter.  The
    recursion is on a bound of the number of batches. *)
Fixpoint batch_rows {A} (fuel n : nat) (rows : list A) : list (list A) :=
  match fuel with
  | O => []
  | S fuel' =>
      match rows with
      | [] => []
      | _ => take n rows :: batch_rows fuel' n (drop n rows)
      end
  end.

Definition dataset_batch {A} (batch_size : positive) (rows : list A) : list (list A) :=
  batch_rows (length rows) (Pos.to_nat batch_size) rows.

(** [np.concatenate(arrays)] along the first axis. *)
Definition np_concatenate (arrays : list (ndarray2 F)) : result (ndarray2 F) :=
  match arrays with
  | [] => Raise ValueError
  | a :: rest =>
      if forallb (fun b => Nat.eqb (snd (shape2 b)) (snd (shape2 a))) rest
      then Ok (NdArray2 (sum_list (map (fun b => fst (shape2 b)) arrays), snd (shape2 a))
                        (concat (map data2 arrays)))
      else Raise ValueError
  end.

(** The traced function [calc_grads] on one batch: the gradient has the
    number of columns of the batch. *)
Definition calc_grads (flow : Flow) (n_col : nat) (batch : list (list F)) : ndarray2 F :=
  let g := prob_gradient flow batch in
  NdArray2 (length g, n_col) g.

(** The state of the loop: [df_deta], [bar] and [n_generated]. *)
Definition grad_loop_body (flow : Flow) (n_data n_col : nat)
    (st : list (ndarray2 F) * option ProgressBar * nat) (kb : nat * list (list F))
  : result (list (ndarray2 F) * option ProgressBar * nat) :=
  let '(df_deta, bar, n_generated) := st in
  let '(k, b) := kb in
  bar ← (if negb (Nat.eqb k 0) then
           let bar := match bar with
                      | None => Some {| max_value := n_data; value := 0 |}
                      | Some _ => bar
                      end in
           bar_update bar n_generated
         else Ok bar);
  Ok (df_deta ++ [calc_grads flow n_col b], bar, n_generated + length b).

Definition batch_calc_df_deta (flow : Flow) (eta : ndarray2 F) (batch_size : positive)
  : result (ndarray2 F) :=
  let n_data := fst (shape2 eta) in
  let eta_dataset := dataset_batch batch_size (data2 eta) in
  '(df_deta, bar, n_generated) ←
    for_each (grad_loop_body flow n_data (snd (shape2 eta)))
             (enumerate eta_dataset) ([], None, 0);
  _ ← bar_update bar n_data;
  np_concatenate df_deta.

(** *** [sample_from_flows] *)

(** The returned dictionary: ['eta'], ['df_deta'] and, when asked for,
    ['df_deta_indiv']. *)
Record flow_samples := {
  eta : ndarray2 F;
  df_deta : marray2 F;
  df_deta_indiv : option (ndarray3 F)
}.

(** The inner loop: [n_batches] calls of [sample_batch], each appended to
    [eta].  The progress bar of this loop is bound before the loop and only
    displays. *)
Definition sample_loop_body (flow : Flow) (sample_batch_size : nat)
    (st : list (ndarray2 F) * Rng) (k : nat) : list (ndarray2 F) * Rng :=
  let '(eta, g) := st in
  let '(b, g') := flow_sample flow sample_batch_size g in
  (eta ++ [b], g').

Definition sample_flow (n_batches sample_batch_size : nat)
    (st : list (ndarray2 F) * Rng) (flow : Flow) : list (ndarray2 F) * Rng :=
  fold_left (sample_loop_body flow sample_batch_size) (seq 0 n_batches) st.

(** [np.zeros((n_flows,) + eta.shape)]. *)
Definition np_zeros3 (n0 n1 n2 : nat) : ndarray3 F :=
  NdArray3 (n0, n1, n2) (tab3 n0 n1 n2 (fun _ _ _ => zero)).

(** [a[i] = b]: the shapes must agree. *)
Definition store_axis0 (a : ndarray3 F) (i : nat) (b : ndarray2 F) : result (ndarray3 F) :=
  let '(n0, n1, n2) := shape3 a in
  if decide (shape2 b = (n1, n2)) then Ok (NdArray3 (n0, n1, n2) (<[i := data2 b]> (data3 a)))
  else Raise ValueError.

(** The body of the gradient loop.  The right-hand side is evaluated
    first; the store then needs [df_deta_indiv] bound. *)
Definition indiv_loop_body (eta : ndarray2 F) (grad_batch_size : positive)
    (df_deta_indiv : option (ndarray3 F)) (iflow : nat * Flow)
  : result (option (ndarray3 F)) :=
  let '(i, flow) := iflow in
  g ← batch_calc_df_deta flow eta grad_batch_size;
  match df_deta_indiv with
  | None => Raise UnboundLocalError
  | Some a => a' ← store_axis0 a i g; Ok (Some a')
  end.

Definition sample_from_flows (flow_list : list Flow) (n_samples : nat)
    (return_indiv : bool) (grad_batch_size : positive) (sample_batch_size : nat)
    (f_reduce : ndarray3 F -> marray2 F) (rng : Rng)
  : result (flow_samples * Rng) :=
  let n_flows := length flow_list in
  n_batches ← py_floordiv n_samples (n_flows * sample_batch_size);
  let '(eta, rng) :=
    fold_left (sample_flow n_batches sample_batch_size) flow_list ([], rng) in
  eta ← np_concatenate eta;
  let df_deta_indiv :=
    if return_indiv
    then Some (np_zeros3 n_flows (fst (shape2 eta)) (snd (shape2 eta)))
    else None in
  df_deta_indiv ← for_each (indiv_loop_body eta grad_batch_size)
                           (enumerate flow_list) df_deta_indiv;
  match df_deta_indiv with
  | None => Raise UnboundLocalError
  | Some a =>
      Ok ({| eta := eta;
             df_deta := f_reduce a;
             df_deta_indiv := if return_indiv then Some a else None |}, rng)
  end.

(** The choice of [f_reduce] in [main]:
    [np.median if args.flow_median else clipped_vector_mean]; the script
    calls it as [f_reduce(df_deta_indiv, axis=0)], and
    [clipped_vector_mean] takes [axis] among its unused keywords.  The array
    it is applied to was made by [np.zeros(..., dtype='f4')]: the arithmetic
    of the section is then the one of float32. *)
Definition main_f_reduce (flow_median : bool) : ndarray3 F -> marray2 F :=
  if flow_median then (fun a => plain (np_median_axis0 a))
  else (fun a => clipped_vector_mean a default_clip_threshold default_rounds).

(** The sampling stage of [main]. *)
Definition main_sample (flows : list Flow) (flow_median : bool)
    (n_samples : nat) (grad_batch_size : positive) (sample_batch_size : nat) (rng : Rng)
  : result (flow_samples * Rng) :=
  sample_from_flows flows n_samples true grad_batch_size sample_batch_size
                    (main_f_reduce flow_median) rng.

End Sampling.

Arguments flow_samples : clear implicits.
End Flows.

Module Train.
Import Np Flows.

(** The values of the keyword dictionaries ([reg], [lr], [frameshift]). *)
Inductive pyval (F : Type) :=
| PStr (s : string)
| PInt (z : Z)
| PNum (x : F).
Arguments PStr {F} s.
Arguments PInt {F} z.
Arguments PNum {F} x.

(** [pattern.format(i)], which raises on a pattern that does not fit its
    one argument, and [os.path.split]. *)
Class OsOps := {
  str_format : string -> nat -> result string;
  path_split : string -> string * string
}.

(** Whether [pattern.format(i)] returns, and the string it returns. *)
Definition formats `{OsOps} (pattern : string) (i : nat) : bool :=
  match str_format pattern i with
  | Ok _ => true
  | Raise _ => false
  end.

Definition formatted `{OsOps} (pattern : string) (i : nat) : string :=
  match str_format pattern i with
  | Ok s => s
  | Raise _ => EmptyString
  end.

Section Training.
Context {F : Type} `{Numeric F} `{FlowOps F} `{OsOps}.

Definition ref := nat.
Definition kwargs := list (string * pyval F).

(** *** The objects of [flow_ffjord_tf] and [potential_tf]

    Modelled from the spec: the classes [flow_ffjord_tf.FFJORDFlow],
    [potential_tf.PhiNN] and [potential_tf.FrameShift] are not in the
    script.  A model object is its constructor's arguments and the list of
    the training calls it went through: training changes the object in
    place, and every holder of the reference sees it. *)

Record flow_train_call := {
  ft_data : ndarray2 F;
  ft_n_epochs : Z;
  ft_batch_size : Z;
  ft_validation_frac : F;
  ft_optimizer : string;
  ft_warmup_proportion : F;
  ft_checkpoint_every : option Z;
  ft_max_checkpoints : option Z;
  ft_checkpoint_dir : string;
  ft_checkpoint_name : string;
  ft_lr_kw : kwargs
}.

Record flow_obj := {
  flow_n_dim : nat;
  flow_n_hidden : Z;
  flow_hidden_size : Z;
  flow_n_bij : Z;
  flow_reg_kw : kwargs;
  flow_base_mean : list F;
  flow_base_std : list F;
  flow_trained : list flow_train_call
}.

Record potential_train_call := {
  pt_df_data : flow_samples F;
  pt_frameshift_model : option ref;
  pt_n_epochs : Z;
  pt_batch_size : Z;
  pt_xi : F;
  pt_lam : F;
  pt_l2 : F;
  pt_validation_frac : F;
  pt_optimizer : string;
  pt_warmup_proportion : F;
  pt_checkpoint_every : option Z;
  pt_max_checkpoints : option Z;
  pt_checkpoint_dir : string;
  pt_checkpoint_name : string;
  pt_lr_kw : kwargs
}.

Record phi_obj := {
  phi_n_dim : nat;
  phi_n_hidden : Z;
  phi_hidden_size : Z;
  phi_scale : list F;
  phi_trained : list potential_train_call
}.

Record frameshift_obj := {
  fs_n_dim : nat;
  fs_kw : kwargs;
  fs_trained : list potential_train_call
}.

Inductive obj :=
| OFlow (f : flow_obj)
| OPhi (p : phi_obj)
| OFrameShift (s : frameshift_obj).

(** What the drivers do outside the interpreter, in order. *)
Inductive event :=
| EvMkdir (dir : string)
| EvSaveSpecs (r : ref) (fname : string)
| EvTrainFlow (r : ref)
| EvTrainPotential (phi : ref) (frameshift : option ref)
| EvSaveLossHistory (fname : string)
| EvSaveFig (fname : string).

Record world := {
  heap : gmap ref obj;
  events : list event
}.

(** Computations over the world that can raise: an exception leaves the
    world as it was when it was raised. *)
Definition M (A : Type) : Type := world -> result A * world.

#[export] Instance M_ret : MRet M := fun _ a w => (Ok a, w).
#[export] Instance M_bind : MBind M := fun _ _ f m w =>
  match m w with
  | (Ok a, w') => f a w'
  | (Raise e, w') => (Raise e, w')
  end.

Definition lift {A} (r : result A) : M A := fun w => (r, w).

(** A constructor call: a new object at a reference not in use. *)
Definition alloc (o : obj) : M ref := fun w =>
  let r := fresh (dom (heap w)) in
  (Ok r, {| heap := <[r := o]> (heap w); events := events w |}).

Definition emit (e : event) : M unit := fun w =>
  (Ok tt, {| heap := heap w; events := events w ++ [e] |}).

(** Modelled from the spec: [flow_ffjord_tf.train_flow(flow_model, data,
    ...)] is not in the script; it trains the flow it is given, which is
    recorded on the object and as an event. *)
Definition flow_add_call (c : flow_train_call) (o : obj) : obj :=
  match o with
  | OFlow f =>
      OFlow {| flow_n_dim := flow_n_dim f; flow_n_hidden := flow_n_hidden f;
               flow_hidden_size := flow_hidden_size f; flow_n_bij := flow_n_bij f;
               flow_reg_kw := flow_reg_kw f; flow_base_mean := flow_base_mean f;
               flow_base_std := flow_base_std f;
               flow_trained := flow_trained f ++ [c] |}
  | _ => o
  end.

Definition train_flow (flow_model : ref) (c : flow_train_call) : M unit := fun w =>
  (Ok tt, {| heap := alter (flow_add_call c) flow_model (heap w);
             events := events w ++ [EvTrainFlow flow_model] |}).

(** Modelled from the spec: [potential_tf.train_potential(df_data,
    phi_model, frameshift_model=..., ...)] is not in the script; it trains
    the potential and, when there is one, the frame shift, which is recorded
    on the objects and as an event. *)
Definition potential_add_call (c : potential_train_call) (o : obj) : obj :=
  match o with
  | OPhi p =>
      OPhi {| phi_n_dim := phi_n_dim p; phi_n_hidden := phi_n_hidden p;
              phi_hidden_size := phi_hidden_size p; phi_scale := phi_scale p;
              phi_trained := phi_trained p ++ [c] |}
  | OFrameShift s =>
      OFrameShift {| fs_n_dim := fs_n_dim s; fs_kw := fs_kw s;
                     fs_trained := fs_trained s ++ [c] |}
  | _ => o
  end.

Definition potential_tf_train_potential (phi_model : ref) (c : potential_train_call)
  : M unit := fun w =>
  let h := alter (potential_add_call c) phi_model (heap w) in
  let h := match pt_frameshift_model c with
           | Some fs => alter (potential_add_call c) fs h
           | None => h
           end in
  (Ok tt, {| heap := h;
             events := events w ++ [EvTrainPotential phi_model (pt_frameshift_model c)] |}).

Fixpoint for_eachM {A S} (body : S -> A -> M S) (l : list A) (s : S) : M S :=
  match l with
  | [] => mret s
  | a :: l' => s' ← body s a; for_eachM body l' s'
  end.

(** [a // b] on Python integers. *)
Definition py_floordiv_Z (a b : Z) : result Z :=
  if Z.eqb b 0 then Raise ZeroDivisionError else Ok (a / b)%Z.

(** [{f'lr_{k}': lr[k] for k in lr}]. *)
Definition lr_kw_of (lr : kwargs) : kwargs :=
  map (fun kv => (String.append "lr_" (fst kv), snd kv)) lr.

(** *** [train_flows] *)

(** The keyword arguments of [train_flows] ([params['df']] in [main]). *)
Record flow_params := {
  n_flows : Z;
  n_hidden : Z;
  hidden_size : Z;
  n_bij : Z;
  n_epochs : Z;
  batch_size : Z;
  validation_frac : F;
  reg : kwargs;
  lr : kwargs;
  optimizer : string;
  warmup_proportion : F;
  checkpoint_every : option Z;
  max_checkpoints : option Z
}.

Definition train_flows_body (data : ndarray2 F)
    (fname_pattern plot_fname_pattern : string) (p : flow_params)
    (data_mean data_std : list F) (flow_list : list ref) (i : nat) : M (list ref) :=
  flow_model ← alloc (OFlow {|
    flow_n_dim := 6; flow_n_hidden := n_hidden p; flow_hidden_size := hidden_size p;
    flow_n_bij := n_bij p; flow_reg_kw := reg p;
    flow_base_mean := data_mean; flow_base_std := data_std;
    flow_trained := [] |});
  let flow_list := flow_list ++ [flow_model] in
  flow_fname ← lift (str_format fname_pattern i);
  let '(checkpoint_dir, checkpoint_name) := path_split flow_fname in
  _ ← emit (EvMkdir checkpoint_dir);
  _ ← emit (EvSaveSpecs flow_model flow_fname);
  let lr_kw := lr_kw_of (lr p) in
  _ ← train_flow flow_model {|
    ft_data := data; ft_n_epochs := n_epochs p; ft_batch_size := batch_size p;
    ft_validation_frac := validation_frac p; ft_optimizer := optimizer p;
    ft_warmup_proportion := warmup_proportion p;
    ft_checkpoint_every := checkpoint_every p;
    ft_max_checkpoints := max_checkpoints p;
    ft_checkpoint_dir := checkpoint_dir; ft_checkpoint_name := checkpoint_name;
    ft_lr_kw := lr_kw |};
  _ ← emit (EvSaveLossHistory (String.append flow_fname "_loss.txt"));
  plot_fname ← lift (str_format plot_fname_pattern i);
  _ ← emit (EvSaveFig plot_fname);
  mret flow_list.

Definition train_flows (data : ndarray2 F)
    (fname_pattern plot_fname_pattern loss_fname : string) (p : flow_params)
  : M (list ref) :=
  let n_samples := fst (shape2 data) in
  n_steps ← lift (py_floordiv_Z (Z.of_nat n_samples * n_epochs p) (batch_size p));
  let data_mean := np_mean2_axis0 data in
  let data_std := np_std2_axis0 data in
  for_eachM (train_flows_body data fname_pattern plot_fname_pattern p data_mean data_std)
            (py_range (n_flows p)) [].

(** *** [train_potential] *)

(** The keyword arguments of [train_potential] ([params['Phi']] in [main],
    with [include_frameshift] from the command line). *)
Record potential_params := {
  phi_p_n_hidden : Z;
  phi_p_hidden_size : Z;
  xi : F;
  lam : F;
  l2 : F;
  phi_p_n_epochs : Z;
  phi_p_batch_size : Z;
  phi_p_validation_frac : F;
  phi_p_lr : kwargs;
  phi_p_optimizer : string;
  phi_p_warmup_proportion : F;
  phi_p_checkpoint_every : option Z;
  phi_p_max_checkpoints : option Z;
  include_frameshift : bool;
  frameshift : kwargs
}.

(** What [train_potential] returns: the model, or the pair
    [phi_model, frameshift_model]. *)
Inductive potential_models :=
| PhiModel (phi_model : ref)
| PhiAndFrameShift (phi_model : ref) (frameshift_model : option ref).

(** [a[:, :3]]. *)
Definition first_columns (n : nat) (a : ndarray2 F) : ndarray2 F :=
  let '(n0, n1) := shape2 a in
  NdArray2 (n0, Nat.min n n1) (map (take n) (data2 a)).

Definition train_potential (df_data : flow_samples F)
    (fname plot_fname loss_fname : string) (p : potential_params)
  : M potential_models :=
  let q_scale := np_std2_axis0 (first_columns 3 (eta df_data)) in
  phi_model ← alloc (OPhi {|
    phi_n_dim := 3; phi_n_hidden := phi_p_n_hidden p;
    phi_hidden_size := phi_p_hidden_size p; phi_scale := q_scale;
    phi_trained := [] |});
  let '(checkpoint_dir, checkpoint_name) := path_split fname in
  _ ← emit (EvMkdir checkpoint_dir);
  _ ← emit (EvSaveSpecs phi_model fname);
  frameshift_model ←
    (if include_frameshift p then
       fs ← alloc (OFrameShift {| fs_n_dim := 3; fs_kw := frameshift p;
                                  fs_trained := [] |});
       _ ← emit (EvSaveSpecs fs fname);
       mret (Some fs)
     else mret None);
  let lr_kw := lr_kw_of (phi_p_lr p) in
  _ ← potential_tf_train_potential phi_model {|
    pt_df_data := df_data; pt_frameshift_model := frameshift_model;
    pt_n_epochs := phi_p_n_epochs p; pt_batch_size := phi_p_batch_size p;
    pt_xi := xi p; pt_lam := lam p; pt_l2 := l2 p;
    pt_validation_frac := phi_p_validation_frac p;
    pt_optimizer := phi_p_optimizer p;
    pt_warmup_proportion := phi_p_warmup_proportion p;
    pt_checkpoint_every := phi_p_checkpoint_every p;
    pt_max_checkpoints := phi_p_max_checkpoints p;
    pt_checkpoint_dir := checkpoint_dir; pt_checkpoint_name := checkpoint_name;
    pt_lr_kw := lr_kw |};
  _ ← emit (EvSaveLossHistory (String.append fname "_loss.txt"));
  _ ← emit (EvSaveFig plot_fname);
  if include_frameshift p then mret (PhiAndFrameShift phi_model frameshift_model)
  else mret (PhiModel phi_model).

(** The flows trained by a run of events, in order. *)
Definition trained_flows (evs : list event) : list ref :=
  flat_map (fun e => match e with EvTrainFlow r => [r] | _ => [] end) evs.

(** The flow object that iteration [i] of [train_flows] leaves behind:
    built over six dimensions with the given base mean and deviation, and
    trained once, with [call]. *)
Definition flow_after_training (p : flow_params) (data_mean data_std : list F)
    (call : flow_train_call) : obj :=
  OFlow {| flow_n_dim := 6; flow_n_hidden := n_hidden p;
           flow_hidden_size := hidden_size p; flow_n_bij := n_bij p;
           flow_reg_kw := reg p;
           flow_base_mean := data_mean; flow_base_std := data_std;
           flow_trained := [call] |}.

(** The flow object as the constructor leaves it. *)
Definition flow_untrained (p : flow_params) (data_mean data_std : list F) : obj :=
  OFlow {| flow_n_dim := 6; flow_n_hidden := n_hidden p;
           flow_hidden_size := hidden_size p; flow_n_bij := n_bij p;
           flow_reg_kw := reg p;
           flow_base_mean := data_mean; flow_base_std := data_std;
           flow_trained := [] |}.

Definition empty_world : world := {| heap := ∅; events := [] |}.

End Training.

Arguments world : clear implicits.
Arguments obj : clear implicits.
Arguments event : clear implicits.
Arguments flow_params : clear implicits.
Arguments potential_params : clear implicits.
Arguments flow_train_call : clear implicits.
Arguments potential_train_call : clear implicits.
End Train.

(** ** The refinement step, point by point

    One round of [clipped_vector_mean] in words, with the arithmetic
    written out: at a point [p], the distance of each sample to the current
    mean, the median of these distances, the samples beyond
    [clip_threshold] times the median, and the mean of the others.  The
    round computes in the arithmetic [ops] of the dtype of the current
    mean; the sum of the samples that are kept is taken in the dtype of
    [v_samp], whose arithmetic is [N], and divided in float64. *)
Module ClipSpec.
Import Np.

Section Sums.
Context {F : Type}.

(** The sum of the numbers of [l] in the arithmetic [ar], the first number
    first, onto [acc]. *)
Fixpoint total_from (ar : Numeric F) (acc : F) (l : list F) : F :=
  match l with
  | [] => acc
  | x :: l' => total_from ar (@add F ar acc x) l'
  end.

Definition total (ar : Numeric F) (l : list F) : F := total_from ar (@zero F ar) l.

Definition n_samp (v_samp : ndarray3 F) : nat := fst (fst (shape3 v_samp)).
Definition n_point (v_samp : ndarray3 F) : nat := snd (fst (shape3 v_samp)).
Definition n_dim (v_samp : ndarray3 F) : nat := snd (shape3 v_samp).

End Sums.

Section PointWise.
Context {F : Type} (N : Numeric F) (P : Promotion F) (ops : Numeric F).
Variable v_samp : ndarray3 F.
Variable clip_threshold : F.

(** Component [d] of sample [s] at point [p], measured from the mean [m];
    where the mean is masked, the component itself. *)
Definition offset (m : marray2 F) (s p d : nat) : F :=
  if masked_at m p d then @at3 F ops v_samp s p d
  else @sub F ops (@at3 F ops v_samp s p d) (@at2 F ops (ma_data m) p d).

(** The Euclidean distance of sample [s] at point [p] to the mean [m]: the
    root of the sum of the squared offsets. *)
Definition distance (m : marray2 F) (s p : nat) : F :=
  @fsqrt F ops
    (total ops (tab (n_dim v_samp)
                    (fun d => @mul F ops (offset m s p d) (offset m s p d)))).

Definition distances (m : marray2 F) (p : nat) : list F :=
  tab (n_samp v_samp) (fun s => distance m s p).

Definition median_distance (m : marray2 F) (p : nat) : F :=
  @np_median F ops (distances m p).

(** [clip_threshold] times the median distance. *)
Definition threshold (m : marray2 F) (p : nat) : F :=
  @mul F ops (@of_scalar F ops clip_threshold) (median_distance m p).

(** Sample [s] is an outlier at [p]: its distance strictly exceeds the
    threshold. *)
Definition outlier (m : marray2 F) (s p : nat) : bool :=
  @ltb F ops (threshold m p) (distance m s p).

(** The samples that are not outliers at [p], in order. *)
Definition unclipped (m : marray2 F) (p : nat) : list nat :=
  List.filter (fun s => negb (outlier m s p)) (seq 0 (n_samp v_samp)).

(** How many samples are outliers at [p]. *)
Definition n_clipped (m : marray2 F) (p : nat) : nat :=
  length (List.filter (fun s => outlier m s p) (seq 0 (n_samp v_samp))).

(** The sum over the samples in which an outlier counts as zero, in the
    arithmetic of the dtype of [v_samp]. *)
Definition kept_sum (m : marray2 F) (p d : nat) : F :=
  total N (tab (n_samp v_samp)
               (fun s => if outlier m s p then @zero F N else @at3 F N v_samp s p d)).

(** The sum over the number of samples kept, in float64. *)
Definition quotient (m : marray2 F) (p d : nat) : F :=
  @div F (@float64 F P) (kept_sum m p d)
       (@of_nat F (@float64 F P) (length (unclipped m p))).

(** [abs(sum) * tiny] reaches the count. *)
Definition outside_domain (m : marray2 F) (p d : nat) : bool :=
  @leb F (@float64 F P)
    (@of_nat F (@float64 F P) (length (unclipped m p)))
    (@mul F (@float64 F P) (@fabs F (@float64 F P) (kept_sum m p d)) (@tiny F P)).

(** The quotient is masked: it is not finite, or outside the domain, or no
    sample is kept. *)
Definition refined_masked (m : marray2 F) (p d : nat) : bool :=
  negb (@is_finite F (@float64 F P) (quotient m p d))
  || outside_domain m p d
  || Nat.eqb (length (unclipped m p)) 0.

(** The new mean with its mask; under the mask the data is the sum. *)
Definition refined_mean (m : marray2 F) (p d : nat) : F * bool :=
  (if refined_masked m p d
   then @add F (@float64 F P) (@zero F (@float64 F P)) (kept_sum m p d)
   else quotient m p d,
   refined_masked m p d).

(** No entry is clipped in the round that starts from [m]. *)
Definition nothing_clipped (m : marray2 F) : Prop :=
  forall s p, s < n_samp v_samp -> p < n_point v_samp -> outlier m s p = false.

(** *** The round as the description has it

    Every sample is measured from the current mean, and the new mean is the
    mean of the samples that are not outliers, undefined when there is
    none; all in the one arithmetic [ops]. *)
Definition described_distance (m : marray2 F) (s p : nat) : F :=
  @fsqrt F ops
    (total ops (tab (n_dim v_samp) (fun d =>
       @mul F ops
         (@sub F ops (@at3 F ops v_samp s p d) (@at2 F ops (ma_data m) p d))
         (@sub F ops (@at3 F ops v_samp s p d) (@at2 F ops (ma_data m) p d))))).

Definition described_outlier (m : marray2 F) (s p : nat) : bool :=
  @ltb F ops
    (@mul F ops (@of_scalar F ops clip_threshold)
       (@np_median F ops (tab (n_samp v_samp) (fun s' => described_distance m s' p))))
    (described_distance m s p).

Definition described_kept (m : marray2 F) (p : nat) : list nat :=
  List.filter (fun s => negb (described_outlier m s p)) (seq 0 (n_samp v_samp)).

Definition described_round (m : marray2 F) : marray2 F :=
  MArray2
    (NdArray2 (n_point v_samp, n_dim v_samp)
       (tab2 (n_point v_samp) (n_dim v_samp) (fun p d =>
          @div F ops
            (total ops (map (fun s => @at3 F ops v_samp s p d) (described_kept m p)))
            (@of_nat F ops (length (described_kept m p))))))
    (tab2 (n_point v_samp) (n_dim v_samp)
          (fun p d => Nat.eqb (length (described_kept m p)) 0)).

End PointWise.

Section Whole.
Context {F : Type} (N : Numeric F) (P : Promotion F).

(** The arithmetic of round [k], counted from zero: the dtype of [v_samp]
    first, float64 from then on. *)
Definition arithmetic (k : nat) : Numeric F :=
  match k with
  | 0 => N
  | S _ => @float64 F P
  end.

(** The description, [rounds] times from the plain mean. *)
Definition described_mean (v_samp : ndarray3 F) (clip_threshold : F) (rounds : nat)
  : marray2 F :=
  Nat.iter rounds (described_round N v_samp clip_threshold)
           (plain (@np_mean_axis0 F N v_samp)).

(** The sum of the samples at a point and component. *)
Definition sample_sum (v_samp : ndarray3 F) (p d : nat) : F :=
  total N (tab (n_samp v_samp) (fun s => @at3 F N v_samp s p d)).

(** The plain mean, written out. *)
Definition plain_mean (v_samp : ndarray3 F) (p d : nat) : F :=
  @div F N (sample_sum v_samp p d) (@of_nat F N (n_samp v_samp)).

(** The same sum over the count in float64. *)
Definition promoted_mean (v_samp : ndarray3 F) (p d : nat) : F :=
  @div F (@float64 F P) (sample_sum v_samp p d)
       (@of_nat F (@float64 F P) (n_samp v_samp)).

(** The promoted mean is within the domain of [numpy.ma]'s division: it is
    finite and [abs(sum) * tiny] is below the count. *)
Definition within_domain (v_samp : ndarray3 F) (p d : nat) : bool :=
  @is_finite F (@float64 F P) (promoted_mean v_samp p d)
  && negb (@leb F (@float64 F P) (@of_nat F (@float64 F P) (n_samp v_samp))
             (@mul F (@float64 F P)
                (@fabs F (@float64 F P) (sample_sum v_samp p d)) (@tiny F P))).

End Whole.

Section Median.
Context {F : Type} (ar : Numeric F).

(** [s] holds the numbers of [l] in ascending order. *)
Definition ascending (l s : list F) : Prop :=
  Permutation s l /\ StronglySorted (fun x y => @leb F ar x y = true) s.

(** The mean of the middle number of [s], or of the two middle ones: their
    sum from zero over their count. *)
Definition middle (s : list F) : F :=
  let n := length s in
  if Nat.eqb n 0 then @div F ar (@zero F ar) (@of_nat F ar 0)
  else if Nat.odd n
  then @div F ar (@add F ar (@zero F ar) (nth (n / 2) s (@zero F ar))) (@of_nat F ar 1)
  else @div F ar
         (@add F ar (@add F ar (@zero F ar) (nth (n / 2 - 1) s (@zero F ar)))
                    (nth (n / 2) s (@zero F ar)))
         (@of_nat F ar 2).

(** [x] is the median of [l]: NaN when a number of [l] is, and otherwise
    the middle of the numbers in ascending order. *)
Definition is_median (l : list F) (x : F) : Prop :=
  if existsb (@is_nan F ar) l then x = @nan F ar
  else exists s, ascending l s /\ x = middle s.

(** The lower of the two middle numbers of [l] in ascending order (the
    middle one when their count is odd). *)
Definition lower_median (l : list F) : F :=
  nth ((length l - 1) / 2) (@sort F ar l) (@zero F ar).

(** The laws of the order on the numbers that are not NaN. *)
Record OrderLaws : Prop := {
  leb_total : forall x y, @is_nan F ar x = false -> @is_nan F ar y = false ->
                @leb F ar x y = true \/ @leb F ar y x = true;
  leb_trans : forall x y z, @leb F ar x y = true -> @leb F ar y z = true ->
                @leb F ar x z = true;
  ltb_not_leb : forall x y, @ltb F ar x y = true -> @leb F ar y x = false
}.

End Median.
End ClipSpec.

(** ** Concrete arrays *)

Module Samples.
Import Np.

Definition num (k : nat) : PrimFloat.float := float_of_nat k.

(** Three samples of one point in the plane, the third far from the others. *)
Definition three_samples : ndarray3 PrimFloat.float :=
  NdArray3 (3, 1, 2) [ [[num 1; num 2]]; [[num 1; num 3]]; [[num 7; num 2]] ].

(** Two equal samples of two points. *)
Definition twin_samples : ndarray3 PrimFloat.float :=
  NdArray3 (2, 2, 1) [ [[num 1]; [num 4]]; [[num 1]; [num 4]] ].

(** An ensemble with no sample at all: shape [(0, 1, 1)]. *)
Definition no_samples : ndarray3 PrimFloat.float := NdArray3 (0, 1, 1) [].

(** Five samples of one number, the first of them infinite. *)
Definition infinite_sample : ndarray3 PrimFloat.float :=
  NdArray3 (5, 1, 1) [ [[PrimFloat.infinity]]; [[num 1]]; [[num 2]]; [[num 3]]; [[num 4]] ].

(** Two samples of the finite number [2 ** 1023], whose sum is beyond the
    range of float64. *)
Definition huge_samples : ndarray3 PrimFloat.float :=
  NdArray3 (2, 1, 1) [ [[pow2 1023]]; [[pow2 1023]] ].

(** Three samples of [np.float32(0.1)]. *)
Definition tenth : PrimFloat.float := single (PrimFloat.div (num 1) (num 10)).

Definition tenth_samples : ndarray3 PrimFloat.float :=
  NdArray3 (3, 1, 1) [ [[tenth]]; [[tenth]]; [[tenth]] ].

End Samples.

(** ** Assumptions on the library, and a toy instance *)

Module Contracts.
Import Np Flows.
Section Contracts.
Context {F : Type} `{Numeric F} `{FlowOps F}.

(** [flow.sample([n])] returns [n] rows. *)
Definition sample_contract : Prop :=
  forall (flow : Flow) (n : nat) (g : Rng),
    fst (shape2 (fst (flow_sample flow n g))) = n
    /\ length (data2 (fst (flow_sample flow n g))) = n.

(** The density of a flow is evaluated row by row, so the gradient of
    [flow.prob(batch)] with respect to [batch] holds, in each row, the
    gradient of the density at that row. *)
Definition gradient_by_row (flow : Flow) (grad : list F -> list F) : Prop :=
  forall batch : list (list F), prob_gradient flow batch = map grad batch.

(** The rows of a list of arrays, by their shapes. *)
Definition rows_of (bs : list (ndarray2 F)) : nat :=
  sum_list (map (fun b => fst (shape2 b)) bs).

(** A batch of [n] rows. *)
Definition batch_ok (n : nat) (b : ndarray2 F) : Prop :=
  fst (shape2 b) = n /\ length (data2 b) = n.

(** [new] is what the inner loop of [sample_from_flows] appends for
    [flow]: [n_batches] batches of [sample_batch_size] rows drawn from
    that flow. *)
Definition block_of (n_batches sample_batch_size : nat) (flow : Flow)
    (new : list (ndarray2 F)) : Prop :=
  (exists acc g,
     fst (sample_flow n_batches sample_batch_size (acc, g) flow) = acc ++ new)
  /\ length new = n_batches /\ Forall (batch_ok sample_batch_size) new.

End Contracts.
End Contracts.

Module Toy.
Import Np Flows.

(** A stand-in for the library: a flow is a number, its samples count up
    from the state of the generator, and the gradient of its density at a
    row is the row scaled by the number. *)
Definition toy_flows (F : Type) `{Numeric F} : FlowOps F := {|
  Flow := nat;
  Rng := nat;
  flow_sample := fun flow n g =>
    (NdArray2 (n, 6) (tab n (fun i => tab 6 (fun j => of_nat (flow + g + i + j)))), g + n);
  prob_gradient := fun flow batch => map (map (mul (of_nat flow))) batch
|}.

Definition float_flows : FlowOps PrimFloat.float := @toy_flows _ Numeric_float.

(** A stand-in for [str.format] with one argument, for patterns whose
    fields are all [{}]: text is returned as it is, [{{] and [}}] as one
    brace; the first [{}] becomes the argument in decimal; a second [{}]
    raises [IndexError], there being no second argument; a brace alone
    raises [ValueError].  Fields with a name, an index or a format are
    outside the stand-in, which answers them by [ValueError] too. *)
Fixpoint format_from (used : bool) (arg : string) (pattern : string) : result string :=
  match pattern with
  | EmptyString => Ok EmptyString
  | String c rest =>
      if Ascii.eqb c "{"%char then
        match rest with
        | String c' rest' =>
            if Ascii.eqb c' "}"%char then
              if used then Raise IndexError
              else r ← format_from true arg rest'; Ok (String.append arg r)
            else if Ascii.eqb c' "{"%char then
              r ← format_from used arg rest'; Ok (String c r)
            else Raise ValueError
        | EmptyString => Raise ValueError
        end
      else if Ascii.eqb c "}"%char then
        match rest with
        | String c' rest' =>
            if Ascii.eqb c' "}"%char then
              r ← format_from used arg rest'; Ok (String c r)
            else Raise ValueError
        | EmptyString => Raise ValueError
        end
      else r ← format_from used arg rest; Ok (String c r)
  end.

Definition py_format (pattern : string) (i : nat) : result string :=
  format_from false (DecimalString.NilZero.string_of_uint (Nat.to_uint i)) pattern.

(** [os.path.split] of [posixpath]: the path is cut after its last slash;
    the head loses its trailing slashes unless it is made of slashes only. *)
Fixpoint has_slash (s : string) : bool :=
  match s with
  | EmptyString => false
  | String c rest => Ascii.eqb c "/"%char || has_slash rest
  end.

Fixpoint cut_after_last_slash (s : string) : string * string :=
  match s with
  | EmptyString => (EmptyString, EmptyString)
  | String c rest =>
      if has_slash rest then
        let '(head, tail) := cut_after_last_slash rest in (String c head, tail)
      else if Ascii.eqb c "/"%char then (String c EmptyString, rest)
      else (EmptyString, s)
  end.

Fixpoint rstrip_slash (s : string) : string :=
  match s with
  | EmptyString => EmptyString
  | String c rest =>
      let r := rstrip_slash rest in
      if Ascii.eqb c "/"%char && String.eqb r EmptyString then EmptyString else String c r
  end.

Definition posix_split (path : string) : string * string :=
  let '(head, tail) := cut_after_last_slash path in
  (if String.eqb (rstrip_slash head) EmptyString then head else rstrip_slash head, tail).

Definition toy_os : Train.OsOps := {|
  Train.str_format := py_format;
  Train.path_split := posix_split
|}.

(** Two rows of six numbers, in binary64. *)
Definition two_rows : @ndarray2 PrimFloat.float :=
  let n := @of_nat _ Numeric_float in
  NdArray2 (2, 6) [ [n 1; n 2; n 3; n 4; n 5; n 6]; [n 2; n 3; n 4; n 5; n 6; n 7] ].

(** Keyword arguments for [train_flows], with the defaults of the signature
    but for the number of flows, the batch size and the learning rate. *)
Definition toy_flow_params (n_flows batch_size : Z) : Train.flow_params PrimFloat.float := {|
  Train.n_flows := n_flows;
  Train.n_hidden := 4;
  Train.hidden_size := 32;
  Train.n_bij := 1;
  Train.n_epochs := 128;
  Train.batch_size := batch_size;
  Train.validation_frac := PrimFloat.div PrimFloat.one (@of_nat _ Numeric_float 4);
  Train.reg := [];
  Train.lr := [("type"%string, Train.PStr "step"); ("patience"%string, Train.PInt 32)];
  Train.optimizer := "RAdam";
  Train.warmup_proportion := PrimFloat.div PrimFloat.one (@of_nat _ Numeric_float 10);
  Train.checkpoint_every := None;
  Train.max_checkpoints := None
|}.

End Toy.

(** ** [load_flows] *)

Module Checkpoints.
Import Np Flows Train.

(** Modelled from the spec: [flow_ffjord_tf.FFJORDFlow.load_latest] is not
    in the script; it is taken as the flow a checkpoint directory holds. *)
Class CheckpointOps (F : Type) `{FlowOps F} := {
  load_latest : string -> Flow
}.

(** [Path(d).mkdir(parents=True, exist_ok=True)] on the directories that
    exist, the file system being what [os.path.isdir] answers. *)
Class DirOps := {
  mkdir_p : string -> (string -> bool) -> string -> bool
}.

Section Loading.
Context {F : Type} `{FlowOps F} `{OsOps} `{!CheckpointOps F}.

Definition n_max : Z := 9999.

(** [os.path.split(fname_patterns.format(i))[0]], for a pattern that
    formats. *)
Definition flow_dir_of (fname_patterns : string) (i : nat) : string :=
  fst (path_split (formatted fname_patterns i)).

(** The pattern formats at every index [load_flows] goes through. *)
Definition formats_all (fname_patterns : string) : Prop :=
  forall i, (Z.of_nat i < n_max)%Z -> formats fname_patterns i = true.

Definition load_flows (isdir : string -> bool) (fname_patterns : string)
  : result (list Flow) :=
  checkpoint_dirs ←
    for_each (fun checkpoint_dirs i =>
                flow_fname ← str_format fname_patterns i;
                let flow_dir := fst (path_split flow_fname) in
                Ok (if isdir flow_dir then checkpoint_dirs ++ [flow_dir]
                    else checkpoint_dirs))
             (py_range n_max) [];
  Ok (fold_left (fun flow_list (ic : nat * string) =>
                   let '(i, checkpoint_dir) := ic in
                   flow_list ++ [load_latest checkpoint_dir])
                (enumerate checkpoint_dirs) []).

End Loading.

Section Directories.
Context `{DirOps}.

(** The directories after a run of events of the training drivers. *)
Definition dirs_after (evs : list event) (isdir : string -> bool) : string -> bool :=
  fold_left (fun fs e => match e with
                         | EvMkdir d => mkdir_p d fs
                         | _ => fs
                         end) evs isdir.

(** After [mkdir] the directory is there, unless its name is empty
    ([os.path.isdir('')] is false), and what was there still is. *)
Definition mkdir_contract : Prop :=
  forall (d : string) (fs : string -> bool),
    (d <> EmptyString -> mkdir_p d fs d = true)
    /\ (forall x, fs x = true -> mkdir_p d fs x = true).

End Directories.
End Checkpoints.

(** ** [save_df_data] and [load_df_data] *)

Module DfData.
Import Np Flows Checkpoints.

(** [astype('f4')] on one number. *)
Class CastOps (F : Type) := {
  astype_f4 : F -> F
}.

(** What the two functions can raise besides the exceptions of the
    script: a key that is not there, and a file that cannot be opened. *)
Inductive io_exn :=
| KeyError (key : string)
| OSError (path : string)
| Script (e : exn).

Inductive io_result (A : Type) :=
| Done (a : A)
| Failed (e : io_exn).
Arguments Done {A} a.
Arguments Failed {A} e.

#[export] Instance io_result_ret : MRet io_result := fun _ a => Done a.
#[export] Instance io_result_bind : MBind io_result := fun _ _ f m =>
  match m with
  | Done a => f a
  | Failed e => Failed e
  end.

(** The arithmetic of the section is the one of float32, the dtype of
    what [load_df_data] has read. *)
Section Files.
Context {F : Type} `{Numeric F} `{Promotion F} `{CastOps F} `{Train.OsOps} `{DirOps}.

(** A dataset of an HDF5 file: a plain array, here of two or of three axes,
    which is what [save_df_data] writes for the result of
    [sample_from_flows]. *)
Inductive h5data :=
| Data2 (a : ndarray2 F)
| Data3 (a : ndarray3 F).

(** The directories and the HDF5 files, by path. *)
Record store := {
  is_dir : string -> bool;
  h5_files : gmap string (gmap string h5data)
}.

(** The values of the dictionary [load_df_data] returns. *)
Inductive value :=
| V1 (a : list F)
| V2 (a : ndarray2 F)
| V3 (a : ndarray3 F)
| VM2 (a : marray2 F).

(** [a.astype('f4')]. *)
Definition cast2 (a : ndarray2 F) : ndarray2 F :=
  NdArray2 (shape2 a) (map (map astype_f4) (data2 a)).

Definition cast3 (a : ndarray3 F) : ndarray3 F :=
  NdArray3 (shape3 a) (map (map (map astype_f4)) (data3 a)).

Definition cast (x : h5data) : h5data :=
  match x with
  | Data2 a => Data2 (cast2 a)
  | Data3 a => Data3 (cast3 a)
  end.

Definition value_of (x : h5data) : value :=
  match x with
  | Data2 a => V2 a
  | Data3 a => V3 a
  end.

(** The datasets [create_dataset(key, data=df_data[key])] makes, key by
    key; of a masked array the file takes the data. *)
Definition datasets_of (df_data : flow_samples F) : gmap string h5data :=
  let f := <["eta" := Data2 (eta df_data)]> (∅ : gmap string h5data) in
  let f := <["df_deta" := Data2 (ma_data (df_deta df_data))]> f in
  match df_deta_indiv df_data with
  | Some a => <["df_deta_indiv" := Data3 a]> f
  | None => f
  end.

Definition save_df_data (df_data : flow_samples F) (fname : string) (st : store) : store :=
  {| is_dir := mkdir_p (fst (Train.path_split fname)) (is_dir st);
     h5_files := <[fname := datasets_of df_data]> (h5_files st) |}.

(** [d[key]]. *)
Definition getitem (d : gmap string h5data) (key : string) : io_result h5data :=
  match d !! key with
  | Some x => Done x
  | None => Failed (KeyError key)
  end.

Definition load_df_data (fname : string) (recalc_avg : option string) (st : store)
  : io_result (gmap string value) :=
  match h5_files st !! fname with
  | None => Failed (OSError fname)
  | Some f =>
      let d := cast <$> f in
      if bool_decide (recalc_avg = Some "mean"%string) then
        x ← getitem d "df_deta_indiv";
        match x with
        | Data3 v_samp =>
            Done (<["df_deta" :=
                      VM2 (clipped_vector_mean v_samp default_clip_threshold default_rounds)]>
                    (value_of <$> d))
        | Data2 _ => Failed (Script ValueError)
        end
      else if bool_decide (recalc_avg = Some "median"%string) then
        x ← getitem d "df_deta_indiv";
        match x with
        | Data3 a => Done (<["df_deta" := V2 (np_median_axis0 a)]> (value_of <$> d))
        | Data2 a => Done (<["df_deta" := V1 (np_median2_axis0 a)]> (value_of <$> d))
        end
      else Done (value_of <$> d)
  end.

(** The dictionary of the datasets of [df_data], each cast as
    [load_df_data] casts what it reads. *)
Definition read_back (df_data : flow_samples F) : gmap string value :=
  value_of <$> (cast <$> datasets_of df_data).

End Files.

Arguments h5data : clear implicits.
Arguments value : clear implicits.
Arguments store : clear implicits.
End DfData.
(** ** Further assumptions on the library, and toy instances *)

Module MoreContracts.
Import Np Flows.
Section MoreContracts.
Context {F : Type} `{FlowOps F}.

(** Every flow samples arrays of [n_col] columns. *)
Definition columns_contract (n_col : nat) : Prop :=
  forall (flow : Flow) (n : nat) (g : Rng),
    snd (shape2 (fst (flow_sample flow n g))) = n_col.

(** The gradient with respect to a batch has a row for each row of the
    batch. *)
Definition gradient_rows_contract : Prop :=
  forall (flow : Flow) (batch : list (list F)),
    length (prob_gradient flow batch) = length batch.

End MoreContracts.
End MoreContracts.

Module ToyFiles.
Import Np Flows Toy Checkpoints DfData.

(** A checkpoint directory holds the flow numbered by the length of its
    name. *)
Definition toy_checkpoints : @CheckpointOps PrimFloat.float float_flows := {|
  load_latest := fun d => (String.length d : @Flow _ float_flows)
|}.

(** Directories without their parents. *)
Definition toy_dirs : DirOps := {|
  mkdir_p := fun d fs x => (negb (String.eqb d EmptyString) && String.eqb x d) || fs x
|}.

(** The cast to single precision. *)
Definition single_cast : CastOps PrimFloat.float := {|
  astype_f4 := single
|}.

(** No directory and no file. *)
Definition empty_store : store PrimFloat.float := {|
  is_dir := fun _ => false;
  h5_files := ∅
|}.

(** A sample of two rows with its gradients, two flows. *)
Definition toy_df_data : flow_samples PrimFloat.float := {|
  eta := two_rows;
  df_deta := plain two_rows;
  df_deta_indiv := Some (NdArray3 (2, 2, 6) [data2 two_rows; data2 two_rows])
|}.

End ToyFiles.

(** ** What an iteration of [train_flows] leaves behind *)

Module TrainTrace.
Import Np Train.
Section Trace.
Context {F : Type} `{Numeric F} `{OsOps}.

(** The keyword arguments of the call of [train_flow] for the flow saved
    under [flow_fname]: the checkpoint directory and name are the two parts
    of the file name, and every entry of [lr] is passed under its key
    prefixed by [lr_]. *)
Definition flow_call (data : ndarray2 F) (p : flow_params F) (flow_fname : string)
  : flow_train_call F :=
  {| ft_data := data; ft_n_epochs := n_epochs p; ft_batch_size := batch_size p;
     ft_validation_frac := validation_frac p; ft_optimizer := optimizer p;
     ft_warmup_proportion := warmup_proportion p;
     ft_checkpoint_every := checkpoint_every p;
     ft_max_checkpoints := max_checkpoints p;
     ft_checkpoint_dir := fst (path_split flow_fname);
     ft_checkpoint_name := snd (path_split flow_fname);
     ft_lr_kw := map (fun kv : string * pyval F =>
                        (String.append "lr_" (fst kv), snd kv)) (lr p) |}.

(** The events of an iteration up to the loss history, for the flow at
    reference [r] saved under [flow_fname]. *)
Definition flow_events_trained (flow_fname : string) (r : ref) : list event :=
  [ EvMkdir (fst (path_split flow_fname));
    EvSaveSpecs r flow_fname;
    EvTrainFlow r;
    EvSaveLossHistory (String.append flow_fname "_loss.txt") ].

(** The events of a whole iteration: the figure comes last. *)
Definition flow_events (flow_fname plot_fname : string) (r : ref) : list event :=
  flow_events_trained flow_fname r ++ [EvSaveFig plot_fname].

(** The events of the iterations at the indices [idxs], for the flows
    [flows]. *)
Definition loop_events (fname_pattern plot_fname_pattern : string) (idxs : list nat)
    (flows : list ref) : list event :=
  concat (zip_with (fun i r => flow_events (formatted fname_pattern i)
                                           (formatted plot_fname_pattern i) r)
                   idxs flows).

(** The events of the iterations [0 .. ], one per flow of [flows]. *)
Definition flows_events (fname_pattern plot_fname_pattern : string) (flows : list ref)
  : list event :=
  loop_events fname_pattern plot_fname_pattern (seq 0 (length flows)) flows.

(** Both patterns format for every index below [n]. *)
Definition format_below (fname_pattern plot_fname_pattern : string) (n : nat) : Prop :=
  forall i, i < n ->
    formats fname_pattern i = true /\ formats plot_fname_pattern i = true.

(** The references [train_potential] returns. *)
Definition models_of (ret : potential_models) : list ref :=
  match ret with
  | PhiModel phi_model => [phi_model]
  | PhiAndFrameShift phi_model (Some frameshift_model) => [phi_model; frameshift_model]
  | PhiAndFrameShift phi_model None => [phi_model]
  end.

End Trace.
End TrainTrace.

(** ** The statistics of a column, written out *)

Module ColumnSpec.
Import Np ClipSpec.
Section Columns.
Context {F : Type} (ar : Numeric F).

(** Column [j] of [a], over the rows its shape counts. *)
Definition column (a : ndarray2 F) (j : nat) : list F :=
  tab (fst (shape2 a)) (fun i => @at2 F ar a i j).

(** The mean of the numbers of [l]: their sum over their count. *)
Definition average (l : list F) : F :=
  @div F ar (total ar l) (@of_nat F ar (length l)).

(** Their standard deviation: the root of the mean of the squares of their
    differences from their mean. *)
Definition deviation (l : list F) : F :=
  @fsqrt F ar
    (average (map (fun x => @mul F ar (@sub F ar x (average l)) (@sub F ar x (average l)))
                  l)).

End Columns.
End ColumnSpec.

(** ** The comparison of floating-point numbers, taken apart *)

Module FloatCompare.

(** The comparison says "below or equal". *)
Definition le_cmp (c : option comparison) : bool :=
  match c with
  | Some Lt | Some Eq => true
  | _ => false
  end.

(** The order of the finite numbers of one sign: by exponent, then by
    mantissa. *)
Definition lex (e1 : Z) (m1 : positive) (e2 : Z) (m2 : positive) : comparison :=
  match (e1 ?= e2)%Z with
  | Lt => Lt
  | Gt => Gt
  | Eq => Pos.compare_cont Eq m1 m2
  end.

End FloatCompare.

(** * Properties *)

(** ** Tabulated lists *)

Lemma length_tab {A} n (f : nat -> A) : length (tab n f) = n.
Proof. unfold tab. rewrite length_map, length_seq. reflexivity. Qed.

Lemma nth_tab {A} n (f : nat -> A) i d : i < n -> nth i (tab n f) d = f i.
Proof.
  intros Hi. unfold tab.
  rewrite (nth_indep _ d (f 0)) by (rewrite length_map, length_seq; exact Hi).
  rewrite map_nth, seq_nth by exact Hi. reflexivity.
Qed.

Lemma tab_ext {A} n (f g : nat -> A) :
  (forall i, i < n -> f i = g i) -> tab n f = tab n g.
Proof.
  intros Hfg. unfold tab. apply map_ext_in.
  intros i Hi. apply in_seq in Hi. apply Hfg. lia.
Qed.

Lemma fold_left_const {A B} (f : A -> A) (l : list B) (a : A) :
  fold_left (fun x _ => f x) l a = Nat.iter (length l) f a.
Proof.
  revert a. induction l as [|b l IH]; intros a; simpl.
  - reflexivity.
  - rewrite IH. symmetry. apply Nat.iter_succ_r.
Qed.

Lemma length_py_range n : length (py_range n) = Z.to_nat n.
Proof. unfold py_range. apply length_seq. Qed.

Module NpFacts.
Import Np.
Section Generic.
Context {F : Type} `{Numeric F}.

Lemma bat2_tab2 n0 n1 (f : nat -> nat -> bool) i j :
  i < n0 -> j < n1 -> bat2 (tab2 n0 n1 f) i j = f i j.
Proof.
  intros Hi Hj. unfold bat2, tab2.
  rewrite nth_tab by exact Hi. apply nth_tab. exact Hj.
Qed.

Lemma at2_tab2 sh n0 n1 (f : nat -> nat -> F) i j :
  i < n0 -> j < n1 -> at2 (NdArray2 sh (tab2 n0 n1 f)) i j = f i j.
Proof.
  intros Hi Hj. unfold at2, tab2. simpl.
  rewrite nth_tab by exact Hi. apply nth_tab. exact Hj.
Qed.

Lemma at3_tab3 sh n0 n1 n2 (f : nat -> nat -> nat -> F) i j k :
  i < n0 -> j < n1 -> k < n2 -> at3 (NdArray3 sh (tab3 n0 n1 n2 f)) i j k = f i j k.
Proof.
  intros Hi Hj Hk. unfold at3, tab3, tab2. simpl.
  rewrite nth_tab by exact Hi. rewrite nth_tab by exact Hj. apply nth_tab. exact Hk.
Qed.

(** The joint mask: [idx] repeated along the last axis. *)
Lemma bat3_repeat (idx : list (list bool)) n i j k :
  k < n -> bat3 (np_repeat_axis2 (np_reshape_add_axis idx) n) i j k = bat2 idx i j.
Proof.
  intros Hk. unfold bat3, bat2, np_repeat_axis2, np_reshape_add_axis.
  rewrite map_map.
  destruct (Nat.lt_ge_cases i (length idx)) as [Hi|Hi].
  - rewrite (nth_indep _ [] (map (flat_map (fun b => repeat b n))
                               (map (fun b => [b]) []))) by (rewrite length_map; exact Hi).
    rewrite (map_nth (fun x => map (flat_map (fun b => repeat b n))
                                 (map (fun b => [b]) x)) idx [] i).
    rewrite map_map. simpl.
    set (row := nth i idx []).
    destruct (Nat.lt_ge_cases j (length row)) as [Hj|Hj].
    + rewrite (nth_indep _ [] ((fun x => repeat x n ++ []) false))
        by (rewrite length_map; exact Hj).
      rewrite (map_nth (fun x => repeat x n ++ []) row false j).
      rewrite app_nil_r. rewrite nth_repeat_lt by exact Hk. reflexivity.
    + rewrite (nth_overflow (map _ row)) by (rewrite length_map; exact Hj).
      rewrite (nth_overflow row) by exact Hj. destruct k; reflexivity.
  - rewrite (nth_overflow (map _ idx)) by (rewrite length_map; exact Hi).
    rewrite (nth_overflow idx) by exact Hi.
    destruct j, k; reflexivity.
Qed.

End Generic.
End NpFacts.

(** ** Runs on concrete inputs *)

Module Runs.
Import Np Flows Toy Samples.

Example py_range_3 : py_range 3 = [0; 1; 2].
Proof. reflexivity. Qed.

Example py_range_negative : py_range (-2) = [].
Proof. reflexivity. Qed.

Example dataset_batch_5_by_2 :
  dataset_batch 2 [1; 2; 3; 4; 5] = [[1; 2]; [3; 4]; [5]].
Proof. reflexivity. Qed.

(** The rounding to single precision: [0.1], a tie between two neighbours,
    the largest number, the overflow and the smallest number. *)
Example single_values :
  single (PrimFloat.div (num 1) (num 10))
  = FloatOps.Z.ldexp (PrimFloat.of_uint63 (Uint63.of_Z 13421773)) (-27)
  /\ single (PrimFloat.add (pow2 24) (num 1)) = pow2 24
  /\ single (PrimFloat.add (pow2 24) (num 3)) = PrimFloat.add (pow2 24) (num 4)
  /\ single (PrimFloat.mul (PrimFloat.sub (pow2 24) (num 1)) (pow2 104))
     = PrimFloat.mul (PrimFloat.sub (pow2 24) (num 1)) (pow2 104)
  /\ single (PrimFloat.mul (PrimFloat.sub (pow2 24) (pow2 (-1))) (pow2 104))
     = PrimFloat.infinity
  /\ single (pow2 (-149)) = pow2 (-149)
  /\ single (pow2 (-150)) = PrimFloat.zero
  /\ single (PrimFloat.opp (pow2 (-150))) = PrimFloat.neg_zero.
Proof. vm_compute. repeat split. Qed.

(** Three samples of two points in the plane, in float64; the third sample
    is far off at the first point, the second one at the second point.
    With a threshold of one, one round masks both. *)
Example clipped_vector_mean_outlier :
  let n := @of_nat _ Numeric_float in
  let v := NdArray3 (3, 2, 2)
             [ [[n 1; n 2]; [n 3; n 4]];
               [[n 1; n 3]; [n 3; n 5]];
               [[n 100; n 2]; [n 3; n 4]] ] in
  @clipped_vector_mean _ Numeric_float Promotion_float v (n 1) 2
  = MArray2 (NdArray2 (2, 2) [[n 1; PrimFloat.div (n 5) (n 2)]; [n 3; n 4]])
            [[false; false]; [false; false]].
Proof. vm_compute. reflexivity. Qed.

(** With a threshold of zero every sample off the mean is masked, and a
    point where all are is masked in the result. *)
Example clipped_vector_mean_all_masked :
  let n := @of_nat _ Numeric_float in
  let v := NdArray3 (2, 1, 1) [ [[n 1]]; [[n 3]] ] in
  ma_mask (@clipped_vector_mean _ Numeric_float Promotion_float v (n 0) 1) = [[true]].
Proof. vm_compute. reflexivity. Qed.

(** A NaN among the samples: the mean is NaN, and masked. *)
Example clipped_vector_mean_nan_sample :
  let v := NdArray3 (3, 1, 1) [ [[PrimFloat.nan]]; [[num 1]]; [[num 2]] ] in
  @clipped_vector_mean _ Numeric_float Promotion_float v (num 5) 1
  = MArray2 (NdArray2 (1, 1) [[PrimFloat.nan]]) [[true]].
Proof. vm_compute. reflexivity. Qed.

(** An infinite sample: the first round leaves an infinite mean, masked;
    the second one measures the samples from nothing, clips the infinite
    one and returns the mean of the others. *)
Example clipped_vector_mean_infinite_sample :
  @clipped_vector_mean _ Numeric_float Promotion_float infinite_sample (num 5) 1
  = MArray2 (NdArray2 (1, 1) [[PrimFloat.infinity]]) [[true]]
  /\ @clipped_vector_mean _ Numeric_float Promotion_float infinite_sample (num 5) 2
     = MArray2 (NdArray2 (1, 1) [[PrimFloat.div (num 5) (num 2)]]) [[false]].
Proof. vm_compute. split; reflexivity. Qed.

(** A sum that reaches [cnt / tiny]: the mean is finite, and masked; the
    data under the mask is the sum. *)
Example clipped_vector_mean_outside_domain :
  let v := NdArray3 (2, 1, 1) [ [[pow2 1022]]; [[pow2 1022]] ] in
  @np_mean_axis0 _ Numeric_float v = NdArray2 (1, 1) [[pow2 1022]]
  /\ @clipped_vector_mean _ Numeric_float Promotion_float v (num 5) 1
     = MArray2 (NdArray2 (1, 1) [[pow2 1023]]) [[true]].
Proof. vm_compute. split; reflexivity. Qed.

Example batch_calc_df_deta_two_batches :
  let n := @of_nat _ Numeric_float in
  @batch_calc_df_deta _ float_flows 3 two_rows 1
  = Ok (NdArray2 (2, 6) [ [n 3; n 6; n 9; n 12; n 15; n 18];
                          [n 6; n 9; n 12; n 15; n 18; n 21] ]).
Proof. vm_compute. reflexivity. Qed.

Example py_format_patterns :
  py_format "flow{}" 12 = Ok "flow12"%string
  /\ py_format "flow" 3 = Ok "flow"%string
  /\ py_format "f{}{}" 0 = Raise IndexError
  /\ py_format "f{" 0 = Raise ValueError
  /\ py_format "a{{}}{}" 7 = Ok "a{}7"%string.
Proof. vm_compute. repeat split. Qed.

Example posix_split_paths :
  posix_split "models/df/flow_00/flow" = ("models/df/flow_00", "flow")%string
  /\ posix_split "flow" = (EmptyString, "flow"%string)
  /\ posix_split "/flow" = ("/", "flow")%string
  /\ posix_split "a//b" = ("a", "b")%string.
Proof. vm_compute. repeat split. Qed.

End Runs.

(** ** [clipped_vector_mean]: the rounds *)

Module ClipFacts.
Import Np NpFacts ClipSpec.

Lemma map_tab {A B} (g : A -> B) n (f : nat -> A) :
  map g (tab n f) = tab n (fun i => g (f i)).
Proof. unfold tab. rewrite map_map. reflexivity. Qed.

Lemma combine_tab {A B} n (f : nat -> A) (g : nat -> B) :
  combine (tab n f) (tab n g) = tab n (fun i => (f i, g i)).
Proof.
  unfold tab. induction (seq 0 n) as [|i l IH]; cbn; [reflexivity|].
  rewrite IH. reflexivity.
Qed.

Lemma filter_ext_seq n (f g : nat -> bool) :
  (forall i, i < n -> f i = g i) -> List.filter f (seq 0 n) = List.filter g (seq 0 n).
Proof.
  intros Hfg. apply List.filter_ext_in. intros i Hi.
  apply in_seq in Hi. apply Hfg. lia.
Qed.

Lemma tab2_ext {A} n0 n1 (f g : nat -> nat -> A) :
  (forall i j, i < n0 -> j < n1 -> f i j = g i j) -> tab2 n0 n1 f = tab2 n0 n1 g.
Proof.
  intros Hfg. unfold tab2. apply tab_ext. intros i Hi.
  apply tab_ext. intros j Hj. apply Hfg; assumption.
Qed.

Section Sums.
Context {F : Type}.

Lemma total_from_fold (ar : Numeric F) (l : list F) :
  forall acc, total_from ar acc l = fold_left (@add F ar) l acc.
Proof. induction l as [|x l IH]; intros acc; cbn; [reflexivity|apply IH]. Qed.

Lemma total_sum (ar : Numeric F) (l : list F) : total ar l = @np_sum F ar l.
Proof. apply total_from_fold. Qed.

Lemma shape3_eq (v : ndarray3 F) : shape3 v = (n_samp v, n_point v, n_dim v).
Proof. unfold n_samp, n_point, n_dim. destruct (shape3 v) as [[a b] d]. reflexivity. Qed.

Lemma ma_count_tab n (g : nat -> bool) :
  ma_count (tab n g) = length (List.filter (fun i => negb (g i)) (seq 0 n)).
Proof.
  unfold ma_count, tab. induction (seq 0 n) as [|i l IH]; cbn; [reflexivity|].
  destruct (g i); cbn; rewrite IH; reflexivity.
Qed.

Lemma forallb_tab n (g : nat -> bool) :
  forallb (fun b => b) (tab n g)
  = Nat.eqb (length (List.filter (fun i => negb (g i)) (seq 0 n))) 0.
Proof.
  unfold tab. induction (seq 0 n) as [|i l IH]; cbn; [reflexivity|].
  destruct (g i); cbn; [exact IH|reflexivity].
Qed.

End Sums.

Section Generic.
Context {F : Type} {N : Numeric F} {P : Promotion F}.
Variable ops : Numeric F.
Variable v : ndarray3 F.
Variable c : F.

Lemma shape_dv_samp m : shape2 (@dv_samp_of F ops v m) = (n_samp v, n_point v).
Proof.
  unfold dv_samp_of, np_linalg_norm_axis2, sub_bcast.
  rewrite (shape3_eq v). reflexivity.
Qed.

Lemma dv_samp_at m s p :
  s < n_samp v -> p < n_point v ->
  @at2 F ops (@dv_samp_of F ops v m) s p = distance ops v m s p.
Proof.
  intros Hs Hp. unfold dv_samp_of, np_linalg_norm_axis2, sub_bcast, distance.
  rewrite (shape3_eq v). cbn [shape3].
  rewrite at2_tab2 by assumption. unfold np_norm.
  rewrite total_sum, map_tab. f_equal. f_equal.
  apply tab_ext. intros d Hd. unfold offset.
  rewrite at3_tab3 by assumption. reflexivity.
Qed.

Lemma median_dv_samp m p :
  p < n_point v ->
  nth p (@np_median2_axis0 F ops (@dv_samp_of F ops v m)) (@zero F ops)
  = median_distance ops v m p.
Proof.
  intros Hp. unfold np_median2_axis0. rewrite shape_dv_samp.
  rewrite nth_tab by exact Hp. unfold median_distance, distances. f_equal.
  apply tab_ext. intros s Hs. apply dv_samp_at; assumption.
Qed.

Lemma idx_at m s p :
  s < n_samp v -> p < n_point v ->
  bat2 (@idx_of F ops c (@dv_samp_of F ops v m)) s p = outlier ops v c m s p.
Proof.
  intros Hs Hp. unfold idx_of, gt_bcast. rewrite shape_dv_samp.
  rewrite bat2_tab2 by assumption. unfold outlier, threshold.
  rewrite dv_samp_at by assumption. f_equal.
  assert (Hlen : p < length (@np_median2_axis0 F ops (@dv_samp_of F ops v m))).
  { unfold np_median2_axis0. rewrite shape_dv_samp, length_tab. exact Hp. }
  rewrite (nth_indep _ (@zero F ops)
             (@mul F ops (@of_scalar F ops c) (@zero F ops)))
    by (rewrite length_map; exact Hlen).
  rewrite (map_nth (@mul F ops (@of_scalar F ops c))). f_equal.
  apply median_dv_samp. exact Hp.
Qed.

Lemma mask_bad_at m s p d :
  s < n_samp v -> p < n_point v -> d < n_dim v ->
  bat3 (@mask_bad_of F ops v c m) s p d = outlier ops v c m s p.
Proof.
  intros Hs Hp Hd. unfold mask_bad_of. rewrite (shape3_eq v).
  rewrite bat3_repeat by exact Hd. apply idx_at; assumption.
Qed.

Lemma clip_round_cell m p d :
  p < n_point v -> d < n_dim v ->
  @ma_mean F N P (tab (n_samp v) (fun i => @at3 F N v i p d))
          (tab (n_samp v) (fun i => bat3 (@mask_bad_of F ops v c m) i p d))
  = refined_mean N P ops v c m p d.
Proof.
  intros Hp Hd.
  assert (Hkeep : List.filter (fun i => negb (bat3 (@mask_bad_of F ops v c m) i p d))
                              (seq 0 (n_samp v))
                  = unclipped ops v c m p).
  { unfold unclipped. apply filter_ext_seq. intros i Hi.
    rewrite mask_bad_at by assumption. reflexivity. }
  assert (Hsum : @np_sum F N
                   (@filled F N (tab (n_samp v) (fun i => @at3 F N v i p d))
                           (tab (n_samp v)
                                (fun i => bat3 (@mask_bad_of F ops v c m) i p d)))
                 = kept_sum N ops v c m p d).
  { unfold filled, kept_sum. rewrite combine_tab, map_tab, total_sum. f_equal.
    apply tab_ext. intros i Hi. cbn [fst snd].
    rewrite mask_bad_at by assumption. reflexivity. }
  unfold ma_mean, refined_mean, refined_masked, outside_domain, quotient.
  rewrite Hsum, ma_count_tab, forallb_tab, Hkeep. reflexivity.
Qed.

Lemma shape_clip_round m :
  shape2 (ma_data (@clip_round F N P ops v c m)) = (n_point v, n_dim v).
Proof. unfold clip_round, np_ma_mean_axis0. cbn [ma3_data]. rewrite (shape3_eq v). reflexivity. Qed.

Lemma clip_round_at m p d :
  p < n_point v -> d < n_dim v ->
  (@at2 F N (ma_data (@clip_round F N P ops v c m)) p d, masked_at (@clip_round F N P ops v c m) p d)
  = refined_mean N P ops v c m p d.
Proof.
  intros Hp Hd. unfold clip_round, np_ma_mean_axis0, masked_at.
  cbn [ma3_data ma3_mask]. rewrite (shape3_eq v). cbn [ma_data ma_mask].
  rewrite at2_tab2, bat2_tab2 by assumption.
  rewrite clip_round_cell by assumption.
  destruct (refined_mean N P ops v c m p d). reflexivity.
Qed.

(** A round is decided by its entries. *)
Lemma clip_round_eq m :
  @clip_round F N P ops v c m
  = MArray2 (NdArray2 (n_point v, n_dim v)
               (tab2 (n_point v) (n_dim v)
                     (fun p d => fst (refined_mean N P ops v c m p d))))
            (tab2 (n_point v) (n_dim v)
                  (fun p d => snd (refined_mean N P ops v c m p d))).
Proof.
  unfold clip_round, np_ma_mean_axis0. cbn [ma3_data ma3_mask].
  rewrite (shape3_eq v). f_equal; [f_equal|]; apply tab2_ext; intros p d Hp Hd;
    rewrite clip_round_cell by assumption; reflexivity.
Qed.

End Generic.

Section Rounds.
Context {F : Type} {N : Numeric F} {P : Promotion F}.
Variable v : ndarray3 F.
Variable c : F.

Lemma clipped_vector_mean_state (k : nat) :
  Nat.iter k (fun st : Numeric F * marray2 F =>
                (@float64 F P, clip_round (fst st) v c (snd st)))
           (N, plain (@np_mean_axis0 F N v))
  = (arithmetic N P k, clipped_vector_mean v c (Z.of_nat k)).
Proof.
  unfold clipped_vector_mean. cbv zeta.
  rewrite (fold_left_const
             (fun st : Numeric F * marray2 F =>
                (@float64 F P, clip_round (fst st) v c (snd st)))).
  rewrite length_py_range, Nat2Z.id.
  destruct k as [|k]; [reflexivity|]. cbn [Nat.iter arithmetic snd]. reflexivity.
Qed.

Lemma clipped_vector_mean_nonpos (rounds : Z) :
  (rounds <= 0)%Z -> clipped_vector_mean v c rounds = plain (@np_mean_axis0 F N v).
Proof.
  intros Hr. unfold clipped_vector_mean, py_range.
  replace (Z.to_nat rounds) with 0 by lia. reflexivity.
Qed.

Lemma clipped_vector_mean_succ (k : nat) :
  clipped_vector_mean v c (Z.of_nat (S k))
  = clip_round (arithmetic N P k) v c (clipped_vector_mean v c (Z.of_nat k)).
Proof.
  pose proof (clipped_vector_mean_state (S k)) as HS.
  rewrite Nat.iter_succ, (clipped_vector_mean_state k) in HS.
  apply (f_equal snd) in HS. cbn [fst snd] in HS. symmetry. exact HS.
Qed.

Lemma shape_plain_mean :
  shape2 (@np_mean_axis0 F N v) = (n_point v, n_dim v).
Proof. unfold np_mean_axis0. rewrite (shape3_eq v). reflexivity. Qed.

Lemma plain_mean_at p d :
  p < n_point v -> d < n_dim v ->
  @at2 F N (@np_mean_axis0 F N v) p d = plain_mean N v p d.
Proof.
  intros Hp Hd. unfold np_mean_axis0. rewrite (shape3_eq v).
  rewrite at2_tab2 by assumption. unfold np_mean, plain_mean, sample_sum.
  rewrite length_tab, total_sum. reflexivity.
Qed.

Lemma shape_clipped_vector_mean (rounds : Z) :
  shape2 (ma_data (clipped_vector_mean v c rounds)) = (n_point v, n_dim v).
Proof.
  destruct (Z.le_gt_cases rounds 0) as [Hr|Hr].
  - rewrite clipped_vector_mean_nonpos by exact Hr.
    unfold plain. rewrite shape_plain_mean. cbn [ma_data]. apply shape_plain_mean.
  - replace rounds with (Z.of_nat (S (Z.to_nat (rounds - 1)))) by lia.
    rewrite clipped_vector_mean_succ. apply shape_clip_round.
Qed.

End Rounds.
End ClipFacts.

(** ** The order of the floating-point numbers *)

Module FloatOrder.
Import Corelib.Floats.SpecFloat FloatCompare.

Lemma SFcompare_some (x y : spec_float) :
  x <> S754_nan -> y <> S754_nan -> exists c, SFcompare x y = Some c.
Proof.
  intros Hx Hy. destruct x, y; try congruence; cbn; eauto.
Qed.

Lemma SFcompare_opp (x y : spec_float) (c : comparison) :
  SFcompare x y = Some c -> SFcompare y x = Some (CompOpp c).
Proof.
  destruct x as [sx|sx| |sx mx ex], y as [sy|sy| |sy my ey]; cbn;
    try discriminate; try (intros [= <-]; destruct sx; try destruct sy; reflexivity).
  intros [= <-]. f_equal.
  fold (Pos.compare mx my). fold (Pos.compare my mx).
  rewrite (Z.compare_antisym ey ex), (Pos.compare_antisym my mx).
  destruct sx, sy; try reflexivity;
    destruct (ey ?= ex)%Z; cbn; try reflexivity;
    destruct (my ?= mx)%positive; reflexivity.
Qed.

Lemma SFleb_total (x y : spec_float) :
  x <> S754_nan -> y <> S754_nan -> SFleb x y = true \/ SFleb y x = true.
Proof.
  intros Hx Hy. destruct (SFcompare_some x y Hx Hy) as [c Hc].
  unfold SFleb. rewrite (SFcompare_opp x y c Hc), Hc.
  destruct c; cbn; auto.
Qed.

Lemma SFltb_not_leb (x y : spec_float) : SFltb x y = true -> SFleb y x = false.
Proof.
  unfold SFltb, SFleb. destruct (SFcompare x y) as [c|] eqn:Hc; [|discriminate].
  rewrite (SFcompare_opp x y c Hc). destruct c; cbn; congruence.
Qed.

Lemma lex_le_iff e1 m1 e2 m2 :
  lex e1 m1 e2 m2 <> Gt <-> (e1 < e2)%Z \/ (e1 = e2 /\ (m1 <= m2)%positive).
Proof.
  unfold lex. fold (Pos.compare m1 m2).
  destruct (Z.compare_spec e1 e2) as [E|E|E].
  - destruct (Pos.compare_spec m1 m2) as [M|M|M]; split; intros Hc; try congruence;
      try (right; split; [exact E|lia]); destruct Hc as [Hc|[_ Hc]]; lia.
  - split; [intros _; left; exact E|congruence].
  - split; [congruence|intros [Hc|[Hc _]]; lia].
Qed.

Lemma lex_ge_iff e1 m1 e2 m2 :
  lex e1 m1 e2 m2 <> Lt <-> (e2 < e1)%Z \/ (e1 = e2 /\ (m2 <= m1)%positive).
Proof.
  unfold lex. fold (Pos.compare m1 m2).
  destruct (Z.compare_spec e1 e2) as [E|E|E].
  - destruct (Pos.compare_spec m1 m2) as [M|M|M]; split; intros Hc; try congruence;
      try (right; split; [exact E|lia]); destruct Hc as [Hc|[_ Hc]]; lia.
  - split; [congruence|intros [Hc|[Hc _]]; lia].
  - split; [intros _; left; lia|congruence].
Qed.

Lemma le_cmp_lex e1 m1 e2 m2 :
  le_cmp (Some (lex e1 m1 e2 m2)) = true <-> lex e1 m1 e2 m2 <> Gt.
Proof. destruct (lex e1 m1 e2 m2); cbn; split; congruence. Qed.

Lemma le_cmp_lex_opp e1 m1 e2 m2 :
  le_cmp (Some (match (e1 ?= e2)%Z with
                | Lt => Gt
                | Gt => Lt
                | Eq => CompOpp (Pos.compare_cont Eq m1 m2)
                end)) = true
  <-> lex e1 m1 e2 m2 <> Lt.
Proof.
  unfold lex. destruct (e1 ?= e2)%Z; cbn; try (split; congruence).
  destruct (Pos.compare_cont Eq m1 m2); cbn; split; congruence.
Qed.

Lemma SFleb_trans (x y z : spec_float) :
  SFleb x y = true -> SFleb y z = true -> SFleb x z = true.
Proof.
  unfold SFleb.
  change (le_cmp (SFcompare x y) = true -> le_cmp (SFcompare y z) = true ->
          le_cmp (SFcompare x z) = true).
  destruct x as [sx|sx| |sx mx ex], y as [sy|sy| |sy my ey], z as [sz|sz| |sz mz ez];
    cbn [SFcompare]; try (cbn; congruence);
    try (destruct sx; try destruct sy; try destruct sz; cbn; congruence).
  destruct sx, sy, sz; try (cbn; congruence);
    fold (lex ex mx ey my); fold (lex ey my ez mz); fold (lex ex mx ez mz).
  - rewrite !le_cmp_lex_opp, !lex_ge_iff. intros; lia.
  - rewrite !le_cmp_lex, !lex_le_iff. intros; lia.
Qed.

Lemma is_nan_false (x : PrimFloat.float) :
  PrimFloat.is_nan x = false -> FloatOps.Prim2SF x <> S754_nan.
Proof.
  unfold PrimFloat.is_nan. rewrite FloatAxioms.eqb_spec.
  intros Hx E. rewrite E in Hx. discriminate Hx.
Qed.

Lemma leb_total (x y : PrimFloat.float) :
  PrimFloat.is_nan x = false -> PrimFloat.is_nan y = false ->
  PrimFloat.leb x y = true \/ PrimFloat.leb y x = true.
Proof.
  intros Hx Hy. rewrite !FloatAxioms.leb_spec.
  apply SFleb_total; apply is_nan_false; assumption.
Qed.

Lemma leb_trans (x y z : PrimFloat.float) :
  PrimFloat.leb x y = true -> PrimFloat.leb y z = true -> PrimFloat.leb x z = true.
Proof. rewrite !FloatAxioms.leb_spec. apply SFleb_trans. Qed.

Lemma ltb_not_leb (x y : PrimFloat.float) :
  PrimFloat.ltb x y = true -> PrimFloat.leb y x = false.
Proof. rewrite FloatAxioms.ltb_spec, FloatAxioms.leb_spec. apply SFltb_not_leb. Qed.

End FloatOrder.

Lemma float_order_laws : ClipSpec.OrderLaws Numeric_float.
Proof.
  split.
  - exact FloatOrder.leb_total.
  - exact FloatOrder.leb_trans.
  - exact FloatOrder.ltb_not_leb.
Qed.

Lemma single_order_laws : ClipSpec.OrderLaws Numeric_single.
Proof.
  split.
  - exact FloatOrder.leb_total.
  - exact FloatOrder.leb_trans.
  - exact FloatOrder.ltb_not_leb.
Qed.

(** ** Sorting and the median under the laws of the order *)

Module SortFacts.
Import Np ClipSpec.

Lemma half_cases (n : nat) :
  (Nat.odd n = true /\ n = 2 * (n / 2) + 1)
  \/ (Nat.odd n = false /\ n = 2 * (n / 2)).
Proof.
  pose proof (Nat.div_mod_eq n 2) as Hdm.
  pose proof (Nat.mod_upper_bound n 2 ltac:(lia)) as Hlt.
  destruct (Nat.odd n) eqn:E.
  - left. split; [reflexivity|].
    apply Nat.odd_spec in E. destruct E as [m Hm]. lia.
  - right. split; [reflexivity|].
    assert (Hev : Nat.even n = true).
    { rewrite <- Nat.negb_odd, E. reflexivity. }
    apply Nat.even_spec in Hev. destruct Hev as [m Hm]. lia.
Qed.

Lemma lower_position (n : nat) :
  1 <= n -> (n - 1) / 2 < n /\ n - S ((n - 1) / 2) <= n / 2.
Proof.
  intros Hn.
  pose proof (Nat.div_mod_eq (n - 1) 2) as H1.
  pose proof (Nat.mod_upper_bound (n - 1) 2 ltac:(lia)) as H2.
  pose proof (Nat.div_mod_eq n 2) as H3.
  pose proof (Nat.mod_upper_bound n 2 ltac:(lia)) as H4.
  lia.
Qed.

Lemma filter_length_perm {A} (f : A -> bool) (l l' : list A) :
  Permutation l l' -> length (List.filter f l) = length (List.filter f l').
Proof.
  induction 1 as [|x l l' Hp IH|x y l|l l' l'' Hp1 IH1 Hp2 IH2]; simpl.
  - reflexivity.
  - destruct (f x); simpl; rewrite IH; reflexivity.
  - destruct (f x), (f y); reflexivity.
  - rewrite IH1. exact IH2.
Qed.

Section Generic.
Context {F : Type} (ar : Numeric F).

Lemma insert_sorted_perm (x : F) (l : list F) :
  Permutation (@insert_sorted F ar x l) (x :: l).
Proof.
  induction l as [|y l IH]; cbn [insert_sorted]; [reflexivity|].
  destruct (@leb F ar x y); [reflexivity|].
  rewrite IH. apply perm_swap.
Qed.

Lemma sort_perm (l : list F) : Permutation (@sort F ar l) l.
Proof.
  induction l as [|x l IH]; cbn [sort fold_right]; [reflexivity|].
  fold (@sort F ar l). rewrite insert_sorted_perm. apply perm_skip. exact IH.
Qed.

Lemma length_sort (l : list F) : length (@sort F ar l) = length l.
Proof. apply Permutation_length, sort_perm. Qed.

Lemma no_nan_Forall (l : list F) :
  existsb (@is_nan F ar) l = false -> Forall (fun x => @is_nan F ar x = false) l.
Proof.
  induction l as [|x l IH]; cbn [existsb]; intros Hl; [constructor|].
  apply orb_false_iff in Hl. destruct Hl as [Hx Hl]. constructor; auto.
Qed.

Hypothesis laws : OrderLaws ar.

Lemma insert_sorted_sorted (x : F) (l : list F) :
  @is_nan F ar x = false -> Forall (fun y => @is_nan F ar y = false) l ->
  StronglySorted (fun a b => @leb F ar a b = true) l ->
  StronglySorted (fun a b => @leb F ar a b = true) (@insert_sorted F ar x l).
Proof using laws.
  intros Hx Hnan Hs. induction Hs as [|y l Hl IH Hy]; cbn [insert_sorted].
  - constructor; constructor.
  - apply Forall_cons_iff in Hnan. destruct Hnan as [Hyn Hnan].
    destruct (@leb F ar x y) eqn:E.
    + constructor.
      * constructor; assumption.
      * constructor; [exact E|].
        eapply List.Forall_impl; [|exact Hy]. intros z Hz. cbn beta in *.
        exact (leb_trans ar laws x y z E Hz).
    + assert (Hyx : @leb F ar y x = true).
      { destruct (leb_total ar laws x y Hx Hyn) as [Hc|Hc]; [congruence|exact Hc]. }
      constructor; [apply IH; exact Hnan|].
      rewrite (insert_sorted_perm x l). constructor; assumption.
Qed.

Lemma sort_sorted (l : list F) :
  Forall (fun y => @is_nan F ar y = false) l ->
  StronglySorted (fun a b => @leb F ar a b = true) (@sort F ar l).
Proof using laws.
  induction l as [|x l IH]; cbn [sort fold_right]; intros Hnan; [constructor|].
  apply Forall_cons_iff in Hnan. destruct Hnan as [Hx Hnan].
  fold (@sort F ar l). apply insert_sorted_sorted.
  - exact Hx.
  - rewrite (sort_perm l). exact Hnan.
  - apply IH. exact Hnan.
Qed.

Lemma np_median_is_median (l : list F) : is_median ar l (@np_median F ar l).
Proof using laws.
  unfold is_median, np_median.
  destruct (existsb (@is_nan F ar) l) eqn:E; [reflexivity|].
  exists (@sort F ar l). split.
  - split; [apply sort_perm|apply sort_sorted, no_nan_Forall, E].
  - unfold middle. rewrite length_sort. reflexivity.
Qed.

(** In a sorted list, the numbers above a bound of the [k]-th one come
    after it. *)
Lemma count_above_sorted (s : list F) (k : nat) (a : F) :
  StronglySorted (fun x y => @leb F ar x y = true) s -> k < length s ->
  @leb F ar (nth k s (@zero F ar)) a = true ->
  length (List.filter (fun x => @ltb F ar a x) s) <= length s - S k.
Proof using laws.
  intros Hs. revert k. induction Hs as [|x l Hl IH Hx]; intros k Hk Ha.
  - simpl in Hk. lia.
  - assert (Hxa : @leb F ar x a = true).
    { destruct k as [|k]; [exact Ha|].
      cbn [nth] in Ha. cbn [length] in Hk.
      pose proof (proj1 (List.Forall_nth (fun y => @leb F ar x y = true) l) Hx k
                    (@zero F ar) ltac:(lia)) as Hxk.
      exact (leb_trans ar laws _ _ _ Hxk Ha). }
    cbn [List.filter].
    destruct (@ltb F ar a x) eqn:E.
    { apply (ltb_not_leb ar laws) in E. congruence. }
    destruct k as [|k].
    + cbn [length]. pose proof (filter_length_le (fun y => @ltb F ar a y) l). lia.
    + cbn [nth] in Ha. cbn [length] in Hk |- *.
      specialize (IH k ltac:(lia) Ha). lia.
Qed.

(** At most half of the numbers strictly exceed a bound of their lower
    median. *)
Lemma count_above_lower_median (l : list F) (a : F) :
  l <> [] -> Forall (fun y => @is_nan F ar y = false) l ->
  @leb F ar (lower_median ar l) a = true ->
  length (List.filter (fun x => @ltb F ar a x) l) <= length l / 2.
Proof using laws.
  intros Hne Hnan Ha.
  assert (Hn : 1 <= length l) by (destruct l; [congruence|simpl; lia]).
  destruct (lower_position (length l) Hn) as [Hlt Hhalf].
  rewrite <- (filter_length_perm _ _ _ (sort_perm l)).
  pose proof (count_above_sorted (@sort F ar l) ((length l - 1) / 2) a
                (sort_sorted l Hnan)
                ltac:(rewrite length_sort; exact Hlt) Ha) as Hc.
  rewrite length_sort in Hc. lia.
Qed.

End Generic.
End SortFacts.

Import Np ClipSpec.

(** C1, amended.  [clipped_vector_mean v_samp clip_threshold rounds] starts
    from the plain mean over the samples, which it returns for
    [rounds <= 0], and applies the refinement round [rounds] times; round
    [k] computes in the arithmetic of the dtype of the mean it starts from.
    In a round that starts from a mean [v_mean]: (1) the array [dv_samp]
    holds, for every sample and point, the root of the sum of the squares of
    the components of the sample vector less those of the mean, a component
    at which the mean is masked counting by itself; (2) the mask [mask_bad]
    is set at a (sample, point) entry, at all its [n_dim] components alike,
    exactly when the distance is strictly above [clip_threshold] times the
    median distance at the point, the median being NaN when a distance is
    and else the middle of the distances in ascending order; (3) the new
    mean at a point is the sum of the samples, a masked one counting as
    zero, over the number of the samples that are not masked, in float64,
    and it is masked when it is not finite, when [abs(sum) * tiny] reaches
    the count, and when no sample is left. *)
Theorem clipped_vector_mean_rounds {F : Type} {N : Numeric F} {P : Promotion F}
    (v_samp : ndarray3 F) (clip_threshold : F) (rounds : Z) :
  ((rounds <= 0)%Z ->
     clipped_vector_mean v_samp clip_threshold rounds
     = plain (@np_mean_axis0 F N v_samp))
  /\ (forall k : nat,
        clipped_vector_mean v_samp clip_threshold (Z.of_nat (S k))
        = clip_round (arithmetic N P k) v_samp clip_threshold
            (clipped_vector_mean v_samp clip_threshold (Z.of_nat k)))
  /\ shape2 (@np_mean_axis0 F N v_samp) = (n_point v_samp, n_dim v_samp)
  /\ (forall p d, p < n_point v_samp -> d < n_dim v_samp ->
        @at2 F N (@np_mean_axis0 F N v_samp) p d = plain_mean N v_samp p d)
  /\ forall (ops : Numeric F) (v_mean : marray2 F),
       (forall s p, s < n_samp v_samp -> p < n_point v_samp ->
          @at2 F ops (@dv_samp_of F ops v_samp v_mean) s p
          = distance ops v_samp v_mean s p)
       /\ (forall s p d, s < n_samp v_samp -> p < n_point v_samp -> d < n_dim v_samp ->
             bat3 (@mask_bad_of F ops v_samp clip_threshold v_mean) s p d
             = @ltb F ops
                 (@mul F ops (@of_scalar F ops clip_threshold)
                    (median_distance ops v_samp v_mean p))
                 (distance ops v_samp v_mean s p))
       /\ (forall p, OrderLaws ops ->
             is_median ops (distances ops v_samp v_mean p)
                       (median_distance ops v_samp v_mean p))
       /\ shape2 (ma_data (@clip_round F N P ops v_samp clip_threshold v_mean))
          = (n_point v_samp, n_dim v_samp)
       /\ (forall p d, p < n_point v_samp -> d < n_dim v_samp ->
             (@at2 F N (ma_data (@clip_round F N P ops v_samp clip_threshold v_mean)) p d,
              masked_at (@clip_round F N P ops v_samp clip_threshold v_mean) p d)
             = refined_mean N P ops v_samp clip_threshold v_mean p d).
Proof.
  split_and!.
  - apply ClipFacts.clipped_vector_mean_nonpos.
  - apply ClipFacts.clipped_vector_mean_succ.
  - apply ClipFacts.shape_plain_mean.
  - apply ClipFacts.plain_mean_at.
  - intros ops v_mean. split_and!.
    + intros s p. apply ClipFacts.dv_samp_at.
    + intros s p d Hs Hp Hd. rewrite ClipFacts.mask_bad_at by assumption. reflexivity.
    + intros p laws. apply SortFacts.np_median_is_median. exact laws.
    + apply ClipFacts.shape_clip_round.
    + intros p d. apply ClipFacts.clip_round_at.
Qed.

(** C1 as stated fails where a mean is not finite: with an infinite sample
    the first round leaves an infinite mean, which [numpy.ma] masks.  The
    second round then measures every sample by itself instead of from the
    mean, clips the infinite one and returns [2.5].  As described, with the
    distances taken to the current mean, nothing is ever clipped and the
    mean stays infinite. *)
Lemma clipped_vector_mean_not_as_described :
  @clipped_vector_mean _ Numeric_float Promotion_float Samples.infinite_sample
     (Samples.num 5) 2
  = MArray2 (NdArray2 (1, 1) [[PrimFloat.div (Samples.num 5) (Samples.num 2)]]) [[false]]
  /\ described_mean Numeric_float Samples.infinite_sample (Samples.num 5) 2
     = MArray2 (NdArray2 (1, 1) [[PrimFloat.infinity]]) [[false]].
Proof. vm_compute. split; reflexivity. Qed.

(** ** [clipped_vector_mean] when nothing is clipped *)

Module NoClip.
Import NpFacts ClipFacts.
Section Generic.
Context {F : Type} {N : Numeric F} {P : Promotion F}.
Variable ops : Numeric F.
Variable v : ndarray3 F.
Variable c : F.

Lemma filter_all {A} (f : A -> bool) (l : list A) :
  (forall x, In x l -> f x = true) -> List.filter f l = l.
Proof.
  induction l as [|a l IH]; intros Hall; simpl; [reflexivity|].
  rewrite Hall by (left; reflexivity).
  rewrite IH; [reflexivity|]. intros x Hx. apply Hall. right. exact Hx.
Qed.

Lemma unclipped_all m p :
  p < n_point v -> nothing_clipped ops v c m -> unclipped ops v c m p = seq 0 (n_samp v).
Proof.
  intros Hp Hno. unfold unclipped. apply filter_all.
  intros s Hs. apply in_seq in Hs. rewrite Hno by (assumption || lia). reflexivity.
Qed.

Lemma kept_sum_no_clip m p d :
  p < n_point v -> nothing_clipped ops v c m ->
  kept_sum N ops v c m p d = sample_sum N v p d.
Proof.
  intros Hp Hno. unfold kept_sum, sample_sum. f_equal.
  apply tab_ext. intros s Hs. rewrite Hno by assumption. reflexivity.
Qed.

Lemma refined_mean_no_clip m p d :
  1 <= n_samp v -> p < n_point v -> nothing_clipped ops v c m ->
  within_domain N P v p d = true ->
  refined_mean N P ops v c m p d = (promoted_mean N P v p d, false).
Proof.
  intros Hn Hp Hno Hdom.
  unfold within_domain in Hdom. apply andb_true_iff in Hdom.
  destruct Hdom as [Hfin Hin]. apply negb_true_iff in Hin.
  unfold refined_mean, refined_masked, outside_domain, quotient.
  rewrite kept_sum_no_clip, unclipped_all, length_seq by assumption.
  fold (promoted_mean N P v p d). rewrite Hfin, Hin.
  destruct (Nat.eqb_spec (n_samp v) 0) as [E|_]; [lia|]. reflexivity.
Qed.

(** A round in which nothing is clipped gives the promoted mean. *)
Lemma clip_round_no_clip m :
  1 <= n_samp v -> nothing_clipped ops v c m ->
  (forall p d, p < n_point v -> d < n_dim v -> within_domain N P v p d = true) ->
  @clip_round F N P ops v c m
  = MArray2 (NdArray2 (n_point v, n_dim v)
               (tab2 (n_point v) (n_dim v) (promoted_mean N P v)))
            (tab2 (n_point v) (n_dim v) (fun _ _ => false)).
Proof.
  intros Hn Hno Hdom. rewrite clip_round_eq.
  f_equal; [f_equal|]; apply tab2_ext; intros p d Hp Hd;
    rewrite refined_mean_no_clip by auto; reflexivity.
Qed.

Lemma plain_mean_eq :
  plain (@np_mean_axis0 F N v)
  = MArray2 (NdArray2 (n_point v, n_dim v)
               (tab2 (n_point v) (n_dim v) (plain_mean N v)))
            (tab2 (n_point v) (n_dim v) (fun _ _ => false)).
Proof.
  unfold plain, np_mean_axis0. rewrite (shape3_eq v). cbn [shape2].
  f_equal. f_equal. apply tab2_ext. intros p d Hp Hd.
  unfold np_mean, plain_mean, sample_sum. rewrite length_tab, total_sum. reflexivity.
Qed.

End Generic.
End NoClip.

(** C7, amended.  Let [v_samp] have at least one sample, let no entry be
    clipped in any round, and let the mean of the samples, their sum over
    their number in float64, be finite at every entry with
    [abs(sum) * tiny] below the number of samples.  Then, after one round or
    more, [clipped_vector_mean] holds this promoted mean at every entry,
    with no entry masked; and when the dtype of [v_samp] is float64 it
    equals the plain mean [np.mean(v_samp, axis=0)], for every number of
    rounds. *)
Theorem clipped_vector_mean_without_clipping {F : Type} {N : Numeric F} {P : Promotion F}
    (v_samp : ndarray3 F) (clip_threshold : F) (rounds : Z) :
  1 <= n_samp v_samp ->
  (forall k : nat, (Z.of_nat k < rounds)%Z ->
     nothing_clipped (arithmetic N P k) v_samp clip_threshold
       (clipped_vector_mean v_samp clip_threshold (Z.of_nat k))) ->
  (forall p d, p < n_point v_samp -> d < n_dim v_samp ->
     within_domain N P v_samp p d = true) ->
  ((1 <= rounds)%Z ->
     clipped_vector_mean v_samp clip_threshold rounds
     = MArray2 (NdArray2 (n_point v_samp, n_dim v_samp)
                  (tab2 (n_point v_samp) (n_dim v_samp) (promoted_mean N P v_samp)))
               (tab2 (n_point v_samp) (n_dim v_samp) (fun _ _ => false)))
  /\ (@float64 F P = N ->
      clipped_vector_mean v_samp clip_threshold rounds
      = plain (@np_mean_axis0 F N v_samp)).
Proof.
  intros Hn Hno Hdom.
  assert (Hround : (1 <= rounds)%Z ->
            clipped_vector_mean v_samp clip_threshold rounds
            = MArray2 (NdArray2 (n_point v_samp, n_dim v_samp)
                         (tab2 (n_point v_samp) (n_dim v_samp) (promoted_mean N P v_samp)))
                      (tab2 (n_point v_samp) (n_dim v_samp) (fun _ _ => false))).
  { intros Hr.
    replace rounds with (Z.of_nat (S (Z.to_nat (rounds - 1)))) by lia.
    rewrite ClipFacts.clipped_vector_mean_succ.
    apply NoClip.clip_round_no_clip; [exact Hn| |exact Hdom].
    apply Hno. lia. }
  split; [exact Hround|].
  intros Hdtype.
  destruct (Z.le_gt_cases rounds 0) as [Hr|Hr].
  - apply ClipFacts.clipped_vector_mean_nonpos. exact Hr.
  - rewrite Hround by lia. rewrite NoClip.plain_mean_eq.
    f_equal. f_equal. apply ClipFacts.tab2_ext. intros p d _ _.
    unfold promoted_mean, plain_mean. rewrite Hdtype. reflexivity.
Qed.

(** An instance: two equal samples of two points, in float64. *)
Lemma clipped_vector_mean_without_clipping_twin_samples :
  @clipped_vector_mean _ Numeric_float Promotion_float Samples.twin_samples
     (Samples.num 5) 5
  = plain (@np_mean_axis0 _ Numeric_float Samples.twin_samples).
Proof.
  apply (@clipped_vector_mean_without_clipping _ Numeric_float Promotion_float
           Samples.twin_samples (Samples.num 5) 5).
  - unfold n_samp. simpl. lia.
  - intros k Hk s p Hs Hp. unfold n_samp, n_point in Hs, Hp. cbn in Hs, Hp.
    destruct k as [|[|[|[|[|k]]]]]; [| | | | |lia];
      (destruct s as [|[|s]]; [| |lia]); (destruct p as [|[|p]]; [| |lia]);
      vm_compute; reflexivity.
  - intros p d Hp Hd. unfold n_point, n_dim in Hp, Hd. cbn in Hp, Hd.
    destruct p as [|[|p]]; [| |lia]; (destruct d as [|d]; [|lia]);
      vm_compute; reflexivity.
  - reflexivity.
Defined.

(** C7 as stated fails for an array of float32: three samples of
    [np.float32(0.1)], of which none is clipped.  [np.mean] divides their
    sum in float32 and returns [np.float32(0.1)]; [clipped_vector_mean]
    divides it in float64 and returns a larger number. *)
Lemma clipped_vector_mean_single_precision :
  (forall s p, s < 3 -> p < 1 ->
     outlier Numeric_single Samples.tenth_samples (Samples.num 5)
       (plain (@np_mean_axis0 _ Numeric_single Samples.tenth_samples)) s p = false)
  /\ @np_mean_axis0 _ Numeric_single Samples.tenth_samples
     = NdArray2 (1, 1) [[Samples.tenth]]
  /\ @clipped_vector_mean _ Numeric_single Promotion_float Samples.tenth_samples
       (Samples.num 5) 1
     = MArray2 (NdArray2 (1, 1)
                  [[promoted_mean Numeric_single Promotion_float Samples.tenth_samples 0 0]])
               [[false]]
  /\ PrimFloat.ltb Samples.tenth
       (promoted_mean Numeric_single Promotion_float Samples.tenth_samples 0 0) = true.
Proof.
  split_and!.
  - intros s p Hs Hp.
    destruct s as [|[|[|s]]]; [| | |lia]; (destruct p as [|p]; [|lia]);
      vm_compute; reflexivity.
  - vm_compute. reflexivity.
  - vm_compute. reflexivity.
  - vm_compute. reflexivity.
Qed.

(** With no sample at all nothing is clipped either, and every entry is
    masked, where [np.mean] has a NaN. *)
Lemma clipped_vector_mean_no_samples :
  ma_mask (@clipped_vector_mean _ Numeric_float Promotion_float Samples.no_samples
             (Samples.num 5) 1) = [[true]]
  /\ plain (@np_mean_axis0 _ Numeric_float Samples.no_samples)
     = MArray2 (NdArray2 (1, 1) [[PrimFloat.nan]]) [[false]].
Proof. vm_compute. split; reflexivity. Qed.

(** Identical samples can be clipped: three samples [0.1] in float64 and a
    threshold of one half.  The mean of the three is not [0.1], so every
    sample is at the same distance from it, above half that distance: all
    are clipped, and the result is masked. *)
Lemma clipped_vector_mean_identical_binary64 :
  let tenth := PrimFloat.div (Samples.num 1) (Samples.num 10) in
  let half := PrimFloat.div (Samples.num 1) (Samples.num 2) in
  let v := NdArray3 (3, 1, 1) [ [[tenth]]; [[tenth]]; [[tenth]] ] in
  ma_mask (@clipped_vector_mean _ Numeric_float Promotion_float v half 1) = [[true]].
Proof. vm_compute. reflexivity. Qed.

(** ** [clipped_vector_mean]: how many samples a round masks *)

Module HalfFacts.
Import NpFacts ClipFacts.

Lemma filter_map_length {A B} (f : A -> B) (g : B -> bool) (l : list A) :
  length (List.filter g (map f l)) = length (List.filter (fun x => g (f x)) l).
Proof.
  induction l as [|x l IH]; cbn; [reflexivity|].
  destruct (g (f x)); cbn; rewrite IH; reflexivity.
Qed.

Section Generic.
Context {F : Type} {N : Numeric F} {P : Promotion F}.
Variable ops : Numeric F.
Variable v : ndarray3 F.
Variable c : F.
Hypothesis laws : OrderLaws ops.

Lemma n_clipped_le_half m p :
  1 <= n_samp v ->
  Forall (fun x => @is_nan F ops x = false) (distances ops v m p) ->
  @leb F ops (lower_median ops (distances ops v m p)) (threshold ops v c m p) = true ->
  n_clipped ops v c m p <= n_samp v / 2.
Proof using laws.
  intros Hn Hnan Hthr.
  assert (Hlen : length (distances ops v m p) = n_samp v)
    by (unfold distances; apply length_tab).
  assert (Hcount : length (List.filter (fun x => @ltb F ops (threshold ops v c m p) x)
                                       (distances ops v m p))
                   = n_clipped ops v c m p).
  { unfold n_clipped.
    apply (filter_map_length (fun s => distance ops v m s p)
             (fun x => @ltb F ops (threshold ops v c m p) x) (seq 0 (n_samp v))). }
  rewrite <- Hcount, <- Hlen.
  apply (SortFacts.count_above_lower_median ops laws); [|exact Hnan|exact Hthr].
  intros E. rewrite E in Hlen. cbn in Hlen. lia.
Qed.

Lemma clipped_plus_unclipped m p :
  n_clipped ops v c m p + length (unclipped ops v c m p) = n_samp v.
Proof.
  unfold n_clipped, unclipped.
  rewrite (filter_length (fun s => outlier ops v c m s p)), length_seq. reflexivity.
Qed.

End Generic.
End HalfFacts.




(** ** Batches of a dataset *)

Module BatchFacts.
Import Flows.

Lemma batch_rows_concat {A} (fuel n : nat) (rows : list A) :
  1 <= n -> length rows <= fuel -> concat (batch_rows fuel n rows) = rows.
Proof.
  intros Hn. revert rows. induction fuel as [|fuel IH]; intros rows Hlen.
  - destruct rows; [reflexivity|simpl in Hlen; lia].
  - destruct rows as [|r rows]; [reflexivity|].
    cbn [batch_rows concat]. rewrite IH.
    + apply take_drop.
    + rewrite length_drop. cbn [length] in *. lia.
Qed.

Lemma batch_rows_single {A} (fuel n : nat) (rows : list A) :
  length rows <= n -> length (batch_rows fuel n rows) <= 1.
Proof.
  intros Hlen. destruct fuel as [|fuel]; [simpl; lia|].
  destruct rows as [|r rows]; [simpl; lia|].
  cbn [batch_rows length].
  rewrite drop_ge by exact Hlen.
  destruct fuel; simpl; lia.
Qed.

Lemma batch_rows_several {A} (fuel n : nat) (rows : list A) :
  1 <= n -> n < length rows -> length rows <= fuel ->
  2 <= length (batch_rows fuel n rows).
Proof.
  intros Hn Hlt Hfuel.
  destruct fuel as [|fuel]; [lia|].
  destruct rows as [|r rows]; [simpl in Hlt; lia|].
  cbn [batch_rows length].
  assert (Hd : 1 <= length (drop n (r :: rows))) by (rewrite length_drop; lia).
  assert (Hf : length (drop n (r :: rows)) <= fuel).
  { rewrite length_drop. cbn [length] in *. lia. }
  destruct fuel as [|fuel]; [lia|].
  destruct (drop n (r :: rows)); [simpl in Hd; lia|].
  simpl. lia.
Qed.

Lemma dataset_batch_concat {A} (batch_size : positive) (rows : list A) :
  concat (dataset_batch batch_size rows) = rows.
Proof. apply batch_rows_concat; lia. Qed.

(** One batch at most when the rows fit in a batch, two at least when they
    do not. *)
Lemma dataset_batch_count {A} (batch_size : positive) (rows : list A) :
  2 <= length (dataset_batch batch_size rows) <-> Pos.to_nat batch_size < length rows.
Proof.
  split.
  - intros H2. destruct (Nat.lt_ge_cases (Pos.to_nat batch_size) (length rows)) as [Hlt|Hge];
      [exact Hlt|].
    pose proof (batch_rows_single (length rows) (Pos.to_nat batch_size) rows Hge).
    unfold dataset_batch in H2. lia.
  - intros Hlt. apply batch_rows_several; lia.
Qed.

End BatchFacts.

(** ** [batch_calc_df_deta] *)

Module GradFacts.
Import Flows BatchFacts.
Section Generic.
Context {F : Type} `{Numeric F} `{FlowOps F}.
Variable flow : Flow.
Variables n_data n_col : nat.

Lemma grad_loop_body_first acc bar gen b :
  grad_loop_body flow n_data n_col (acc, bar, gen) (0, b)
  = Ok (acc ++ [calc_grads flow n_col b], bar, gen + length b).
Proof. reflexivity. Qed.

Lemma grad_loop_body_later acc bar gen k b :
  1 <= k ->
  grad_loop_body flow n_data n_col (acc, bar, gen) (k, b)
  = Ok (acc ++ [calc_grads flow n_col b],
        Some {| max_value := match bar with
                             | Some pb => max_value pb
                             | None => n_data
                             end;
                value := gen |},
        gen + length b).
Proof.
  intros Hk. unfold grad_loop_body.
  destruct (Nat.eqb_spec k 0) as [E|_]; [lia|].
  destruct bar; reflexivity.
Qed.

(** From the second batch on the bar is bound, and stays so. *)
Lemma grad_loop_tail (bs : list (list (list F))) :
  forall k acc bar gen, 1 <= k ->
  exists bar' gen',
    for_each (grad_loop_body flow n_data n_col) (combine (seq k (length bs)) bs)
             (acc, bar, gen)
    = Ok (acc ++ map (calc_grads flow n_col) bs, bar', gen')
    /\ (bs = [] -> bar' = bar)
    /\ (bs <> [] -> bar' <> None).
Proof.
  induction bs as [|b bs IH]; intros k acc bar gen Hk.
  - exists bar, gen. cbn. rewrite app_nil_r. repeat split; congruence.
  - cbn [length seq combine for_each].
    rewrite grad_loop_body_later by exact Hk.
    match goal with
    | |- context [Ok (?a, ?b0, ?g)] =>
        destruct (IH (S k) a b0 g ltac:(lia)) as (bar' & gen' & Hrun & Hnil & Hcons)
    end.
    exists bar', gen'. cbn [mbind result_bind]. rewrite Hrun.
    rewrite <- app_assoc. cbn [app map].
    repeat split; [congruence|].
    intros _. destruct bs as [|b' bs]; [rewrite Hnil by reflexivity|apply Hcons];
      congruence.
Qed.

Lemma grad_loop (bs : list (list (list F))) :
  exists bar gen,
    for_each (grad_loop_body flow n_data n_col) (enumerate bs) ([], None, 0)
    = Ok (map (calc_grads flow n_col) bs, bar, gen)
    /\ (bar <> None <-> 2 <= length bs).
Proof.
  unfold enumerate. destruct bs as [|b bs].
  - exists None, 0. cbn. split; [reflexivity|]. split; [congruence|lia].
  - cbn [length seq combine for_each]. rewrite grad_loop_body_first.
    cbn [mbind result_bind app].
    destruct (grad_loop_tail bs 1 [calc_grads flow n_col b] None (0 + length b)
                ltac:(lia))
      as (bar' & gen' & Hrun & Hnil & Hcons).
    exists bar', gen'. split; [exact Hrun|].
    destruct bs as [|b' bs].
    + rewrite Hnil by reflexivity. split; [congruence|simpl; lia].
    + split; [simpl; lia|]. intros _. apply Hcons. congruence.
Qed.

End Generic.

Section Calc.
Context {F : Type} `{Numeric F} `{FlowOps F}.

Lemma np_concatenate_grads (flow : Flow) (n_col : nat) (bs : list (list (list F))) :
  bs <> [] ->
  np_concatenate (map (calc_grads flow n_col) bs)
  = Ok (NdArray2 (sum_list (map (fun b => length (prob_gradient flow b)) bs), n_col)
                 (concat (map (prob_gradient flow) bs))).
Proof.
  intros Hne. destruct bs as [|b bs]; [congruence|].
  unfold np_concatenate. cbn [map].
  assert (Hall : forallb (fun b0 : ndarray2 F =>
                   Nat.eqb (snd (shape2 b0)) (snd (shape2 (calc_grads flow n_col b))))
                   (map (calc_grads flow n_col) bs) = true).
  { apply forallb_forall. intros a Ha. apply in_map_iff in Ha.
    destruct Ha as (b0 & <- & _). cbn. apply Nat.eqb_refl. }
  rewrite Hall. cbn [calc_grads shape2 fst snd data2].
  f_equal. f_equal.
  - f_equal. f_equal. rewrite map_map. reflexivity.
  - rewrite map_map. reflexivity.
Qed.

(** What [batch_calc_df_deta] computes. *)
Lemma batch_calc_df_deta_eq (flow : Flow) (eta : ndarray2 F) (batch_size : positive) :
  batch_calc_df_deta flow eta batch_size
  = let bs := dataset_batch batch_size (data2 eta) in
    if decide (2 <= length bs)
    then Ok (NdArray2 (sum_list (map (fun b => length (prob_gradient flow b)) bs),
                       snd (shape2 eta))
                      (concat (map (prob_gradient flow) bs)))
    else Raise AttributeError.
Proof.
  unfold batch_calc_df_deta. cbv zeta.
  set (bs := dataset_batch batch_size (data2 eta)).
  destruct (grad_loop flow (fst (shape2 eta)) (snd (shape2 eta)) bs)
    as (bar & gen & Hrun & Hbar).
  rewrite Hrun. cbn.
  destruct (decide (2 <= length bs)) as [H2|H2].
  - destruct bar as [pb|]; [|exfalso; apply (proj2 Hbar H2); reflexivity].
    cbn. apply np_concatenate_grads. destruct bs; [simpl in H2; lia|congruence].
  - destruct bar as [pb|]; [|reflexivity].
    exfalso. apply H2, Hbar. congruence.
Qed.

End Calc.
End GradFacts.

(** ** [sample_from_flows] *)

Module SampleFacts.
Import Flows Contracts BatchFacts GradFacts.
Section Generic.
Context {F : Type} `{Numeric F} `{FlowOps F}.

Lemma rows_of_app (bs bs' : list (ndarray2 F)) :
  rows_of (bs ++ bs') = rows_of bs + rows_of bs'.
Proof.
  unfold rows_of. induction bs as [|b bs IH]; [reflexivity|].
  cbn [app map sum_list]. rewrite IH. lia.
Qed.

Lemma rows_of_batches n (bs : list (ndarray2 F)) :
  Forall (batch_ok n) bs -> rows_of bs = length bs * n.
Proof.
  induction 1 as [|b bs [Hb _] Hbs IH]; [reflexivity|].
  unfold rows_of in *. cbn [map sum_list length Nat.mul]. rewrite Hb, IH. reflexivity.
Qed.

Lemma data_rows_of_batches n (bs : list (ndarray2 F)) :
  Forall (batch_ok n) bs -> length (concat (map data2 bs)) = length bs * n.
Proof.
  induction 1 as [|b bs [_ Hb] Hbs IH]; [reflexivity|].
  cbn [map concat length Nat.mul]. rewrite length_app, Hb, IH. reflexivity.
Qed.

(** *** The sampling loops *)

Lemma sample_loop (flow : Flow) (sbs : nat) (ks : list nat) :
  sample_contract ->
  forall acc g, exists new g',
    fold_left (sample_loop_body flow sbs) ks (acc, g) = (acc ++ new, g')
    /\ length new = length ks /\ Forall (batch_ok sbs) new.
Proof.
  intros Hc. induction ks as [|k ks IH]; intros acc g.
  - exists [], g. cbn. rewrite app_nil_r. auto.
  - cbn [fold_left]. unfold sample_loop_body at 2.
    destruct (flow_sample flow sbs g) as [b g1] eqn:Eb.
    destruct (IH (acc ++ [b]) g1) as (new & g' & Hrun & Hlen & Hall).
    exists (b :: new), g'. rewrite Hrun, <- app_assoc. cbn [app length].
    repeat split; [congruence|].
    constructor; [|exact Hall].
    pose proof (Hc flow sbs g) as Hb. rewrite Eb in Hb. exact Hb.
Qed.

(** Each flow appends [n_batches] batches of [sample_batch_size] rows. *)
Lemma sample_flow_block (n_batches sbs : nat) (flow : Flow) :
  sample_contract ->
  forall acc g, exists new g',
    sample_flow n_batches sbs (acc, g) flow = (acc ++ new, g')
    /\ length new = n_batches /\ Forall (batch_ok sbs) new.
Proof.
  intros Hc acc g. unfold sample_flow.
  destruct (sample_loop flow sbs (seq 0 n_batches) Hc acc g)
    as (new & g' & Hrun & Hlen & Hall).
  exists new, g'. rewrite length_seq in Hlen. auto.
Qed.

Lemma sample_all_blocks (n_batches sbs : nat) (flows : list Flow) :
  sample_contract ->
  forall acc g, exists blocks g',
    fold_left (sample_flow n_batches sbs) flows (acc, g) = (acc ++ concat blocks, g')
    /\ Forall2 (block_of n_batches sbs) flows blocks.
Proof.
  intros Hc. induction flows as [|flow flows IH]; intros acc g.
  - exists [], g. cbn. rewrite app_nil_r. split; [reflexivity|constructor].
  - cbn [fold_left].
    destruct (sample_flow_block n_batches sbs flow Hc acc g)
      as (new & g1 & Hrun & Hlen & Hall).
    rewrite Hrun.
    destruct (IH (acc ++ new) g1) as (blocks & g' & Hrest & Hblocks).
    exists (new :: blocks), g'. rewrite Hrest, <- app_assoc. cbn [concat].
    split; [reflexivity|].
    constructor; [|exact Hblocks].
    split; [|auto]. exists acc, g. rewrite Hrun. reflexivity.
Qed.

Lemma blocks_batches (n_batches sbs : nat) flows (blocks : list (list (ndarray2 F))) :
  Forall2 (block_of n_batches sbs) flows blocks ->
  length (concat blocks) = length flows * n_batches
  /\ Forall (batch_ok sbs) (concat blocks).
Proof.
  induction 1 as [|flow blk flows blocks (_ & Hlen & Hall) Hrest [IHlen IHall]].
  - split; [reflexivity|constructor].
  - cbn [concat length]. rewrite length_app, Hlen, IHlen. split; [lia|].
    apply Forall_app. auto.
Qed.

Lemma blocks_rows (n_batches sbs : nat) flows (blocks : list (list (ndarray2 F))) :
  Forall2 (block_of n_batches sbs) flows blocks ->
  Forall (fun block => rows_of block = n_batches * sbs) blocks.
Proof.
  induction 1 as [|flow blk flows blocks (_ & Hl & Ha) Hrest IH];
    constructor; [|exact IH].
  rewrite (rows_of_batches sbs) by exact Ha. rewrite Hl. reflexivity.
Qed.

Lemma np_concatenate_ok (bs : list (ndarray2 F)) (a : ndarray2 F) :
  np_concatenate bs = Ok a ->
  bs <> [] /\ fst (shape2 a) = rows_of bs /\ data2 a = concat (map data2 bs).
Proof.
  unfold np_concatenate. destruct bs as [|b bs]; [discriminate|].
  destruct (forallb _ bs); [|discriminate].
  intros [= <-]. cbn. repeat split. congruence.
Qed.

End Generic.
End SampleFacts.

Module EnsembleFacts.
Import Flows Contracts BatchFacts GradFacts SampleFacts.
Section Generic.
Context {F : Type} `{Numeric F} `{FlowOps F}.
Variable eta0 : ndarray2 F.
Variable grad_batch_size : positive.

(** *** The gradient loop *)

Lemma indiv_loop_body_bound (a : ndarray3 F) (i : nat) (flow : Flow) res :
  indiv_loop_body eta0 grad_batch_size (Some a) (i, flow) = Ok res ->
  exists g,
    batch_calc_df_deta flow eta0 grad_batch_size = Ok g
    /\ shape2 g = (snd (fst (shape3 a)), snd (shape3 a))
    /\ res = Some (NdArray3 (shape3 a) (<[i := data2 g]> (data3 a))).
Proof.
  unfold indiv_loop_body.
  destruct (batch_calc_df_deta flow eta0 grad_batch_size) as [g|e]; [|discriminate].
  cbn [mbind result_bind]. unfold store_axis0.
  destruct (shape3 a) as [[n0 n1] n2] eqn:Es.
  destruct (decide (shape2 g = (n1, n2))) as [Hg|_]; [|discriminate].
  cbn. intros [= <-]. exists g. auto.
Qed.

Lemma indiv_loop_body_unbound (i : nat) (flow : Flow) :
  indiv_loop_body eta0 grad_batch_size None (i, flow)
  = (_ ← batch_calc_df_deta flow eta0 grad_batch_size; Raise UnboundLocalError).
Proof. reflexivity. Qed.

(** The loop writes the gradient of flow [k + i] at position [k + i], and
    leaves what is below [k]. *)
Lemma indiv_loop_bound (flows : list Flow) :
  forall (k : nat) (a : ndarray3 F) res,
    for_each (indiv_loop_body eta0 grad_batch_size)
             (combine (seq k (length flows)) flows) (Some a) = Ok res ->
    exists a',
      res = Some a'
      /\ shape3 a' = shape3 a
      /\ length (data3 a') = length (data3 a)
      /\ (forall j, j < k -> data3 a' !! j = data3 a !! j)
      /\ (forall i flow, flows !! i = Some flow -> k + i < length (data3 a) ->
            exists g,
              batch_calc_df_deta flow eta0 grad_batch_size = Ok g
              /\ data3 a' !! (k + i) = Some (data2 g)).
Proof.
  induction flows as [|flow flows IH]; intros k a res Hrun.
  - cbn in Hrun. injection Hrun as <-. exists a. repeat split; try reflexivity.
    intros i flow Hi. rewrite lookup_nil in Hi. discriminate.
  - cbn [length seq combine for_each] in Hrun.
    destruct (indiv_loop_body eta0 grad_batch_size (Some a) (k, flow)) as [r1|e] eqn:E1;
      [|discriminate].
    cbn [mbind result_bind] in Hrun.
    apply indiv_loop_body_bound in E1. destruct E1 as (g & Hg & Hshape & ->).
    apply IH in Hrun.
    destruct Hrun as (a' & -> & Hs & Hlen & Hbelow & Hat).
    cbn [shape3 data3] in *. rewrite length_insert in Hlen.
    exists a'. repeat split; try assumption.
    + intros j Hj. rewrite Hbelow by lia. apply list_lookup_insert_ne. lia.
    + intros i flow' Hi Hlt. destruct i as [|i].
      * cbn in Hi. injection Hi as <-. exists g. split; [exact Hg|].
        rewrite Nat.add_0_r, Hbelow by lia.
        apply list_lookup_insert_eq. lia.
      * cbn in Hi. replace (k + S i) with (S k + i) by lia.
        apply Hat; [exact Hi|]. rewrite length_insert. lia.
Qed.

(** Without [df_deta_indiv] bound the loop raises at the first flow. *)
Lemma indiv_loop_unbound (flow : Flow) (flows : list Flow) :
  for_each (indiv_loop_body eta0 grad_batch_size) (enumerate (flow :: flows)) None
  = (_ ← batch_calc_df_deta flow eta0 grad_batch_size; Raise UnboundLocalError).
Proof.
  unfold enumerate. cbn [length seq combine for_each].
  rewrite indiv_loop_body_unbound.
  destruct (batch_calc_df_deta flow eta0 grad_batch_size); reflexivity.
Qed.

End Generic.

Section Inversion.
Context {F : Type} `{Numeric F} `{FlowOps F}.

(** The stages of a call that returns. *)
Lemma sample_from_flows_ok flows n_samples return_indiv grad_batch_size
    sample_batch_size f_reduce rng r rng' :
  sample_from_flows flows n_samples return_indiv grad_batch_size sample_batch_size
                    f_reduce rng = Ok (r, rng') ->
  exists n_batches batches eta0 a,
    py_floordiv n_samples (length flows * sample_batch_size) = Ok n_batches
    /\ fold_left (sample_flow n_batches sample_batch_size) flows ([], rng)
       = (batches, rng')
    /\ np_concatenate batches = Ok eta0
    /\ for_each (indiv_loop_body eta0 grad_batch_size) (enumerate flows)
         (if return_indiv
          then Some (np_zeros3 (length flows) (fst (shape2 eta0)) (snd (shape2 eta0)))
          else None) = Ok (Some a)
    /\ r = {| eta := eta0; df_deta := f_reduce a;
              df_deta_indiv := if return_indiv then Some a else None |}.
Proof.
  unfold sample_from_flows.
  destruct (py_floordiv n_samples (length flows * sample_batch_size))
    as [n_batches|e]; [|discriminate].
  cbn [mbind result_bind].
  destruct (fold_left (sample_flow n_batches sample_batch_size) flows ([], rng))
    as [batches g1] eqn:Ef.
  destruct (np_concatenate batches) as [eta0|e] eqn:Ec; [|discriminate].
  cbn [mbind result_bind].
  destruct (for_each (indiv_loop_body eta0 grad_batch_size) (enumerate flows) _)
    as [[a|]|e] eqn:El; cbn [mbind result_bind]; try discriminate.
  intros [= <- <-]. exists n_batches, batches, eta0, a. auto.
Qed.

Lemma py_floordiv_ok a b q : py_floordiv a b = Ok q -> b <> 0 /\ q = a / b.
Proof.
  unfold py_floordiv. destruct (Nat.eqb_spec b 0); [discriminate|].
  intros [= <-]. auto.
Qed.

(** With [return_indiv=False] the call raises, and what it raises is
    decided stage by stage. *)
Lemma sample_from_flows_unbound flows n_samples grad_batch_size sample_batch_size
    f_reduce rng :
  sample_from_flows flows n_samples false grad_batch_size sample_batch_size f_reduce rng
  = (n_batches ← py_floordiv n_samples (length flows * sample_batch_size);
     eta0 ← np_concatenate
              (fst (fold_left (sample_flow n_batches sample_batch_size) flows ([], rng)));
     match flows with
     | [] => Raise UnboundLocalError
     | flow :: _ =>
         _ ← batch_calc_df_deta flow eta0 grad_batch_size; Raise UnboundLocalError
     end).
Proof.
  unfold sample_from_flows.
  destruct (py_floordiv n_samples (length flows * sample_batch_size))
    as [n_batches|e]; [|reflexivity].
  cbn [mbind result_bind].
  destruct (fold_left (sample_flow n_batches sample_batch_size) flows ([], rng))
    as [batches g1].
  cbn [fst]. destruct (np_concatenate batches) as [eta0|e]; [|reflexivity].
  cbn [mbind result_bind].
  destruct flows as [|flow flows]; [reflexivity|].
  rewrite indiv_loop_unbound.
  destruct (batch_calc_df_deta flow eta0 grad_batch_size); reflexivity.
Qed.

End Inversion.
End EnsembleFacts.

Import Flows Contracts Toy.

(** C9.  For a well-shaped [eta] with at most [batch_size] rows, the dataset
    has at most one batch and [batch_calc_df_deta] raises [AttributeError]
    (the bar is still [None] at the final [bar.update(n_data)]); a call
    returns only when the dataset has at least two batches, and then it
    does. *)
Theorem batch_calc_df_deta_needs_two_batches {F : Type} `{FlowOps F}
    (flow : Flow) (eta : ndarray2 F) (batch_size : positive) :
  length (data2 eta) = fst (shape2 eta) ->
  (fst (shape2 eta) <= Pos.to_nat batch_size ->
     length (dataset_batch batch_size (data2 eta)) <= 1
     /\ batch_calc_df_deta flow eta batch_size = Raise AttributeError)
  /\ (forall g, batch_calc_df_deta flow eta batch_size = Ok g ->
        2 <= length (dataset_batch batch_size (data2 eta))
        /\ Pos.to_nat batch_size < fst (shape2 eta))
  /\ (2 <= length (dataset_batch batch_size (data2 eta)) ->
        exists g, batch_calc_df_deta flow eta batch_size = Ok g).
Proof.
  intros Hrows.
  pose proof (BatchFacts.dataset_batch_count batch_size (data2 eta)) as Hcount.
  rewrite Hrows in Hcount.
  rewrite GradFacts.batch_calc_df_deta_eq. cbv zeta.
  destruct (decide (2 <= length (dataset_batch batch_size (data2 eta)))) as [H2|H2].
  - split; [|split].
    + intros Hle. apply Hcount in H2. lia.
    + intros g _. split; [exact H2|apply Hcount; exact H2].
    + intros _. eexists. reflexivity.
  - split; [|split].
    + intros _. split; [lia|reflexivity].
    + intros g Hg. discriminate Hg.
    + intros H2'. contradiction.
Qed.

(** C9 at two rows and a batch size of two. *)
Lemma batch_calc_df_deta_needs_two_batches_two_rows :
  @batch_calc_df_deta _ float_flows 3 two_rows 2 = Raise AttributeError.
Proof.
  apply (@batch_calc_df_deta_needs_two_batches _ float_flows 3 two_rows 2).
  - reflexivity.
  - vm_compute. lia.
Defined.

(** C3, where the code departs from it: on two rows, a batch size of one
    returns the gradients and a batch size of two raises. *)
Lemma batch_calc_df_deta_depends_on_batch_size :
  (exists g, @batch_calc_df_deta _ float_flows 3 two_rows 1 = Ok g
             /\ shape2 g = shape2 two_rows)
  /\ @batch_calc_df_deta _ float_flows 3 two_rows 2 = Raise AttributeError.
Proof.
  split.
  - eexists. split; vm_compute; reflexivity.
  - vm_compute. reflexivity.
Qed.

(** Batch sizes below the number of rows: for a flow whose density is
    evaluated row by row and an [eta] with as many rows as its shape says,
    every batch size smaller than the number of rows returns the same array,
    in the shape of [eta]: the gradient at each row of [eta]. *)
Lemma batch_calc_df_deta_batch_size_free {F : Type} `{FlowOps F}
    (flow : Flow) (grad : list F -> list F) (eta : ndarray2 F) (batch_size : positive) :
  gradient_by_row flow grad ->
  length (data2 eta) = fst (shape2 eta) ->
  Pos.to_nat batch_size < fst (shape2 eta) ->
  batch_calc_df_deta flow eta batch_size
  = Ok (NdArray2 (shape2 eta) (map grad (data2 eta))).
Proof.
  intros Hrow Hrows Hlt.
  rewrite GradFacts.batch_calc_df_deta_eq. cbv zeta.
  destruct (decide _) as [_|H2].
  - f_equal. f_equal.
    + assert (Hsum : sum_list (map (fun b0 => length (prob_gradient flow b0))
                                   (dataset_batch batch_size (data2 eta)))
                     = length (concat (dataset_batch batch_size (data2 eta)))).
      { induction (dataset_batch batch_size (data2 eta)) as [|x l IH]; [reflexivity|].
        cbn [map sum_list concat]. rewrite length_app, IH, Hrow, length_map.
        reflexivity. }
      rewrite Hsum, BatchFacts.dataset_batch_concat, Hrows.
      destruct (shape2 eta); reflexivity.
    + rewrite <- (BatchFacts.dataset_batch_concat batch_size (data2 eta)) at 2.
      induction (dataset_batch batch_size (data2 eta)) as [|x l IH]; [reflexivity|].
      cbn [map concat]. rewrite map_app, IH, Hrow. reflexivity.
  - exfalso. apply H2. apply BatchFacts.dataset_batch_count. rewrite Hrows. exact Hlt.
Qed.

(** C4.  When [sample_from_flows] returns, ['df_deta_indiv'] is in the
    result, of shape [(n_flows,) + eta.shape]; its entry [i] is what
    [batch_calc_df_deta] returns for flow [i] on ['eta']; and ['df_deta'] is
    [f_reduce] of it.  In [main], [f_reduce] is the median along the flow
    axis with [--flow-median], and [clipped_vector_mean] with its defaults
    otherwise. *)
Theorem sample_from_flows_reduces {F : Type} `{Numeric F} `{Promotion F} `{FlowOps F}
    (flow_list : list Flow) (n_samples : nat) (return_indiv : bool)
    (grad_batch_size : positive) (sample_batch_size : nat)
    (f_reduce : ndarray3 F -> marray2 F) (rng rng' : Rng) (r : flow_samples F) :
  sample_from_flows flow_list n_samples return_indiv grad_batch_size sample_batch_size
                    f_reduce rng = Ok (r, rng') ->
  (exists a,
     df_deta_indiv r = Some a
     /\ df_deta r = f_reduce a
     /\ shape3 a = (length flow_list, fst (shape2 (eta r)), snd (shape2 (eta r)))
     /\ length (data3 a) = length flow_list
     /\ (forall i flow, flow_list !! i = Some flow ->
           exists g, batch_calc_df_deta flow (eta r) grad_batch_size = Ok g
                     /\ data3 a !! i = Some (data2 g)))
  /\ (forall flow_median : bool,
        main_sample flow_list flow_median n_samples grad_batch_size sample_batch_size rng
        = sample_from_flows flow_list n_samples true grad_batch_size sample_batch_size
            (if flow_median then (fun a => plain (np_median_axis0 a))
             else (fun a => clipped_vector_mean a (of_nat 5) 5))
            rng).
Proof.
  intros Hrun. split.
  - apply EnsembleFacts.sample_from_flows_ok in Hrun.
    destruct Hrun as (n_batches & batches & eta0 & a & Hdiv & Hfold & Hcat & Hloop & ->).
    destruct return_indiv.
    + unfold enumerate in Hloop.
      apply EnsembleFacts.indiv_loop_bound in Hloop.
      destruct Hloop as (a' & Ha & Hshape & Hlen & _ & Hat).
      injection Ha as <-. cbn [np_zeros3 shape3 data3] in Hshape, Hlen, Hat.
      unfold tab3 in Hlen, Hat. rewrite length_tab in Hlen, Hat.
      exists a. cbn [eta df_deta df_deta_indiv]. repeat split; try assumption.
      intros i flow Hi. apply (Hat i flow Hi).
      apply lookup_lt_Some in Hi. lia.
    + destruct flow_list as [|flow flows].
      * cbn in Hloop. discriminate Hloop.
      * rewrite EnsembleFacts.indiv_loop_unbound in Hloop.
        destruct (batch_calc_df_deta flow eta0 grad_batch_size); discriminate Hloop.
  - intros [|]; reflexivity.
Qed.

(** C4 at two toy flows, four samples in batches of two, gradients row by
    row, reduced by [clipped_vector_mean]. *)
Lemma sample_from_flows_reduces_two_flows :
  exists r rng',
    @sample_from_flows _ Numeric_float float_flows [1; 2] 4 true 1 2
      (@main_f_reduce _ Numeric_float Promotion_float false) 0 = Ok (r, rng')
    /\ exists a,
         df_deta_indiv r = Some a
         /\ df_deta r = @clipped_vector_mean _ Numeric_float Promotion_float a (@of_nat _ Numeric_float 5) 5.
Proof.
  destruct (@sample_from_flows _ Numeric_float float_flows [1; 2] 4 true 1 2
              (@main_f_reduce _ Numeric_float Promotion_float false) 0) as [[r g]|e] eqn:E;
    [|vm_compute in E; discriminate E].
  exists r, g. split; [reflexivity|].
  destruct (proj1 (@sample_from_flows_reduces _ Numeric_float Promotion_float float_flows _ _ _ _ _ _ _ _ _ E))
    as (a & Ha & Hd & _).
  exists a. auto.
Defined.

(** C2.  Under the contract of the sampler, when [sample_from_flows]
    returns for a list of [n_flows >= 1] flows, ['eta'] has
    [n_flows * (n_samples // (n_flows * sample_batch_size)) * sample_batch_size]
    rows: [n_samples] of them when [n_flows * sample_batch_size] divides
    [n_samples], fewer otherwise.  It is the concatenation of one block per
    flow, in the order of the list, each of
    [n_samples // (n_flows * sample_batch_size)] batches of
    [sample_batch_size] rows drawn from that flow. *)
Theorem sample_from_flows_rows {F : Type} `{Numeric F} `{FlowOps F}
    (flow_list : list Flow) (n_samples : nat) (return_indiv : bool)
    (grad_batch_size : positive) (sample_batch_size : nat)
    (f_reduce : ndarray3 F -> marray2 F) (rng rng' : Rng) (r : flow_samples F) :
  sample_contract ->
  1 <= length flow_list ->
  sample_from_flows flow_list n_samples return_indiv grad_batch_size sample_batch_size
                    f_reduce rng = Ok (r, rng') ->
  let n_flows := length flow_list in
  let n_batches := n_samples / (n_flows * sample_batch_size) in
  let rows := fst (shape2 (eta r)) in
  rows = n_flows * n_batches * sample_batch_size
  /\ length (data2 (eta r)) = rows
  /\ (Nat.divide (n_flows * sample_batch_size) n_samples -> rows = n_samples)
  /\ (~ Nat.divide (n_flows * sample_batch_size) n_samples -> rows < n_samples)
  /\ exists blocks : list (list (ndarray2 F)),
       data2 (eta r) = concat (map data2 (concat blocks))
       /\ Forall2 (block_of n_batches sample_batch_size) flow_list blocks
       /\ Forall (fun block => rows_of block = n_batches * sample_batch_size) blocks.
Proof.
  intros Hc Hflows Hrun n_flows n_batches rows.
  apply EnsembleFacts.sample_from_flows_ok in Hrun.
  destruct Hrun as (nb & batches & eta0 & a & Hdiv & Hfold & Hcat & _ & ->).
  apply EnsembleFacts.py_floordiv_ok in Hdiv. destruct Hdiv as [Hq Hnb].
  fold n_flows in Hq, Hnb. fold n_batches in Hnb. subst nb.
  destruct (SampleFacts.sample_all_blocks n_batches sample_batch_size flow_list Hc [] rng)
    as (blocks & g' & Hfold' & Hblocks).
  rewrite Hfold in Hfold'. injection Hfold' as -> ->.
  apply SampleFacts.np_concatenate_ok in Hcat. destruct Hcat as (_ & Hrows & Hdata).
  cbn [app] in Hrows, Hdata.
  destruct (SampleFacts.blocks_batches _ _ _ _ Hblocks) as [Hlen Hall].
  subst rows. cbn [eta].
  assert (Hr : fst (shape2 eta0) = n_flows * n_batches * sample_batch_size).
  { rewrite Hrows, (SampleFacts.rows_of_batches sample_batch_size) by exact Hall.
    rewrite Hlen. reflexivity. }
  pose proof (Nat.div_mod_eq n_samples (n_flows * sample_batch_size)) as Hdm.
  fold n_batches in Hdm.
  pose proof (Nat.mod_upper_bound n_samples (n_flows * sample_batch_size) Hq) as Hmod.
  split; [exact Hr|]. split; [|split; [|split]].
  - rewrite Hdata, (SampleFacts.data_rows_of_batches sample_batch_size) by exact Hall.
    rewrite Hr, Hlen. reflexivity.
  - intros Hdivides. apply Nat.Lcm0.mod_divide in Hdivides. rewrite Hr. nia.
  - intros Hnot. rewrite Hr.
    assert (n_samples mod (n_flows * sample_batch_size) <> 0).
    { intros E. apply Hnot. apply Nat.Lcm0.mod_divide. exact E. }
    nia.
  - exists blocks. split; [exact Hdata|]. split; [exact Hblocks|].
    exact (SampleFacts.blocks_rows _ _ _ _ Hblocks).
Qed.

Lemma toy_sample_contract (F : Type) (N : Numeric F) : @sample_contract F (toy_flows F).
Proof.
  intros flow n g. cbn. split; [reflexivity|apply length_tab].
Defined.

(** C2 at two toy flows and five samples asked for in batches of two: one
    batch per flow, four rows. *)
Lemma sample_from_flows_rows_two_flows :
  exists r rng',
    @sample_from_flows _ Numeric_float float_flows [1; 2] 5 true 1 2
      (@main_f_reduce _ Numeric_float Promotion_float false) 0 = Ok (r, rng')
    /\ fst (shape2 (eta r)) = 4.
Proof.
  destruct (@sample_from_flows _ Numeric_float float_flows [1; 2] 5 true 1 2
              (@main_f_reduce _ Numeric_float Promotion_float false) 0) as [[r g]|e] eqn:E;
    [|vm_compute in E; discriminate E].
  exists r, g. split; [reflexivity|].
  assert (Hflows : 1 <= length [1; 2]) by (simpl; lia).
  destruct (@sample_from_flows_rows _ Numeric_float float_flows [1; 2] 5 true 1 2 _ 0 g r
              (toy_sample_contract _ _) Hflows E) as [Hrows _].
  exact Hrows.
Defined.

(** C8, amended.  With [return_indiv=False], [sample_from_flows] never
    returns.  What it raises is decided in order: the division for
    [n_batches], the concatenation of the sampled batches, the call of
    [batch_calc_df_deta] for the first flow, and only then the store into the
    unbound [df_deta_indiv].  So, for a non-empty list of flows whose sampling
    succeeded with ['eta'] well shaped: the unbound-variable error when
    ['eta'] has more than [grad_batch_size] rows, and the [AttributeError] of
    [batch_calc_df_deta] when it has not. *)
Theorem sample_from_flows_without_indiv {F : Type} `{Numeric F} `{FlowOps F}
    (flow_list : list Flow) (n_samples : nat) (grad_batch_size : positive)
    (sample_batch_size : nat) (f_reduce : ndarray3 F -> marray2 F) (rng : Rng) :
  let result :=
    sample_from_flows flow_list n_samples false grad_batch_size sample_batch_size
                      f_reduce rng in
  (forall out, result <> Ok out)
  /\ result
     = (n_batches ← py_floordiv n_samples (length flow_list * sample_batch_size);
        eta0 ← np_concatenate
                 (fst (fold_left (sample_flow n_batches sample_batch_size) flow_list
                         ([], rng)));
        match flow_list with
        | [] => Raise UnboundLocalError
        | flow :: _ =>
            _ ← batch_calc_df_deta flow eta0 grad_batch_size; Raise UnboundLocalError
        end)
  /\ (forall n_batches eta0,
        flow_list <> [] ->
        py_floordiv n_samples (length flow_list * sample_batch_size) = Ok n_batches ->
        np_concatenate
          (fst (fold_left (sample_flow n_batches sample_batch_size) flow_list ([], rng)))
        = Ok eta0 ->
        length (data2 eta0) = fst (shape2 eta0) ->
        (Pos.to_nat grad_batch_size < fst (shape2 eta0) -> result = Raise UnboundLocalError)
        /\ (fst (shape2 eta0) <= Pos.to_nat grad_batch_size ->
            result = Raise AttributeError)).
Proof.
  intros result.
  assert (Heq := EnsembleFacts.sample_from_flows_unbound flow_list n_samples
                   grad_batch_size sample_batch_size f_reduce rng).
  fold result in Heq.
  split; [|split; [exact Heq|]].
  - intros out. rewrite Heq.
    destruct (py_floordiv _ _) as [nb|e]; [|discriminate]. cbn [mbind result_bind].
    destruct (np_concatenate _) as [eta0|e]; [|discriminate]. cbn [mbind result_bind].
    destruct flow_list as [|flow flows]; [discriminate|].
    destruct (batch_calc_df_deta flow eta0 grad_batch_size); discriminate.
  - intros nb eta0 Hne Hdiv Hcat Hrows. rewrite Heq, Hdiv. cbn [mbind result_bind].
    rewrite Hcat. cbn [mbind result_bind].
    destruct flow_list as [|flow flows]; [congruence|].
    rewrite GradFacts.batch_calc_df_deta_eq. cbv zeta.
    pose proof (BatchFacts.dataset_batch_count grad_batch_size (data2 eta0)) as Hcount.
    rewrite Hrows in Hcount.
    destruct (decide _) as [H2|H2]; cbn [mbind result_bind].
    + split; [reflexivity|]. intros Hle. apply Hcount in H2. lia.
    + split; [|reflexivity]. intros Hlt. apply Hcount in Hlt. contradiction.
Qed.

(** C8 as stated fails: with one flow and [n_samples = sample_batch_size =
    grad_batch_size], the call raises the [AttributeError] of
    [batch_calc_df_deta], which is evaluated before the store; and with
    [sample_batch_size = 0] it raises [ZeroDivisionError]. *)
Lemma sample_from_flows_without_indiv_other_errors :
  let call n_samples grad_batch_size sample_batch_size :=
    @sample_from_flows _ Numeric_float float_flows [1] n_samples false grad_batch_size
      sample_batch_size (@main_f_reduce _ Numeric_float Promotion_float false) 0 in
  call 4 4%positive 4 = Raise AttributeError
  /\ call 4 4%positive 4 <> Raise UnboundLocalError
  /\ call 4 4%positive 0 = Raise ZeroDivisionError
  /\ call 4 4%positive 0 <> Raise UnboundLocalError.
Proof.
  cbv zeta. repeat split; try (vm_compute; reflexivity);
    intros E; vm_compute in E; discriminate E.
Qed.

(** ** The mean and the deviation of the columns of an array *)

Module ColumnFacts.
Import ClipSpec ColumnSpec.
Section Generic.
Context {F : Type} {N : Numeric F}.

Lemma np_mean_average (l : list F) : np_mean l = average N l.
Proof. unfold np_mean, average. rewrite ClipFacts.total_sum. reflexivity. Qed.

Lemma np_std_deviation (l : list F) : np_std l = deviation N l.
Proof.
  unfold np_std, deviation. rewrite np_mean_average. f_equal.
  f_equal. apply map_ext. intros x. rewrite np_mean_average. reflexivity.
Qed.

Lemma np_mean2_axis0_columns (a : ndarray2 F) :
  np_mean2_axis0 a = tab (snd (shape2 a)) (fun j => average N (column N a j)).
Proof.
  unfold np_mean2_axis0, column. destruct (shape2 a) as [n0 n1]. cbn [fst snd].
  apply tab_ext. intros j _. apply np_mean_average.
Qed.

Lemma np_std2_axis0_columns (a : ndarray2 F) :
  np_std2_axis0 a = tab (snd (shape2 a)) (fun j => deviation N (column N a j)).
Proof.
  unfold np_std2_axis0, column. destruct (shape2 a) as [n0 n1]. cbn [fst snd].
  apply tab_ext. intros j _. apply np_std_deviation.
Qed.

End Generic.
End ColumnFacts.

(** ** The training drivers *)

Module TrainFacts.
Import Train TrainTrace.

Section Monad.
Context {F : Type} `{Numeric F} `{OsOps}.

Lemma formats_formatted (pattern : string) (i : nat) :
  formats pattern i = true -> str_format pattern i = Ok (formatted pattern i).
Proof.
  unfold formats, formatted. destruct (str_format pattern i); [reflexivity|discriminate].
Qed.

Lemma formats_raise (pattern : string) (i : nat) (e : exn) :
  str_format pattern i = Raise e -> formats pattern i = false.
Proof. unfold formats. intros ->. reflexivity. Qed.

Lemma formats_cases (pattern : string) (i : nat) :
  formats pattern i = true \/ exists e, str_format pattern i = Raise e.
Proof.
  unfold formats. destruct (str_format pattern i) as [s|e]; [left|right; exists e];
    reflexivity.
Qed.

(** The first index at which a pattern does not format, if there is one. *)
Lemma first_failure (fname_pattern plot_fname_pattern : string) (n : nat) :
  format_below fname_pattern plot_fname_pattern n
  \/ exists i, i < n /\ format_below fname_pattern plot_fname_pattern i
       /\ (formats fname_pattern i = false
           \/ (formats fname_pattern i = true /\ formats plot_fname_pattern i = false)).
Proof.
  induction n as [|n IH].
  - left. intros i Hi. lia.
  - destruct IH as [Hall|(i & Hi & Hbelow & Hfail)].
    + destruct (formats fname_pattern n) eqn:E1.
      * destruct (formats plot_fname_pattern n) eqn:E2.
        -- left. intros i Hi. destruct (Nat.eq_dec i n) as [->|Hne]; [split; assumption|].
           apply Hall. lia.
        -- right. exists n. split_and!; [lia|exact Hall|right; split; assumption].
      * right. exists n. split_and!; [lia|exact Hall|left; exact E1].
    + right. exists i. split_and!; [lia|exact Hbelow|exact Hfail].
Qed.

Lemma for_eachM_app {A S : Type} (body : S -> A -> M S) (l1 l2 : list A) :
  forall (s : S) (w : world F),
  for_eachM body (l1 ++ l2) s w
  = match for_eachM body l1 s w with
    | (Ok s', w') => for_eachM body l2 s' w'
    | (Raise e, w') => (Raise e, w')
    end.
Proof.
  induction l1 as [|a l1 IH]; intros s w.
  - reflexivity.
  - cbn [app for_eachM]. unfold mbind, M_bind.
    destruct (body s a w) as [[s'|e] w1]; [apply IH|reflexivity].
Qed.

End Monad.

Section Generic.
Context {F : Type} `{Numeric F} `{OsOps}.

Variable data : ndarray2 F.
Variables fname_pattern plot_fname_pattern : string.
Variable p : flow_params F.
Variables data_mean data_std : list F.

(** One iteration with both names formatted: a new flow at a fresh
    reference, trained once. *)
Lemma train_flows_body_ok (acc : list ref) (i : nat) (w : world F) :
  formats fname_pattern i = true -> formats plot_fname_pattern i = true ->
  train_flows_body data fname_pattern plot_fname_pattern p data_mean data_std acc i w
  = (Ok (acc ++ [fresh (dom (heap w))]),
     {| heap := <[fresh (dom (heap w)) :=
                    flow_after_training p data_mean data_std
                      (flow_call data p (formatted fname_pattern i))]> (heap w);
        events := events w
                  ++ flow_events (formatted fname_pattern i)
                       (formatted plot_fname_pattern i) (fresh (dom (heap w))) |}).
Proof.
  intros Hf Hg. apply formats_formatted in Hf, Hg.
  unfold train_flows_body, flow_call, flow_events, flow_events_trained, lr_kw_of.
  unfold mbind, M_bind, alloc, lift. rewrite Hf.
  destruct (path_split (formatted fname_pattern i)) as [dir name] eqn:Es.
  unfold emit, train_flow, mret, M_ret. cbn [heap events fst snd]. rewrite Hg.
  rewrite alter_insert_eq. cbn [flow_add_call app flow_trained].
  rewrite <- !app_assoc. reflexivity.
Qed.

(** One iteration whose file name does not format: the flow is built and
    nothing else is done. *)
Lemma train_flows_body_raise_name (acc : list ref) (i : nat) (w : world F) (e : exn) :
  str_format fname_pattern i = Raise e ->
  train_flows_body data fname_pattern plot_fname_pattern p data_mean data_std acc i w
  = (Raise e,
     {| heap := <[fresh (dom (heap w)) := flow_untrained p data_mean data_std]> (heap w);
        events := events w |}).
Proof.
  intros Hf. unfold train_flows_body, mbind, M_bind, alloc, lift. rewrite Hf. reflexivity.
Qed.

(** One iteration whose plot name does not format: the flow is built and
    trained and its loss history saved, but no figure. *)
Lemma train_flows_body_raise_plot (acc : list ref) (i : nat) (w : world F) (e : exn) :
  formats fname_pattern i = true -> str_format plot_fname_pattern i = Raise e ->
  train_flows_body data fname_pattern plot_fname_pattern p data_mean data_std acc i w
  = (Raise e,
     {| heap := <[fresh (dom (heap w)) :=
                    flow_after_training p data_mean data_std
                      (flow_call data p (formatted fname_pattern i))]> (heap w);
        events := events w
                  ++ flow_events_trained (formatted fname_pattern i)
                       (fresh (dom (heap w))) |}).
Proof.
  intros Hf Hg. apply formats_formatted in Hf.
  unfold train_flows_body, flow_call, flow_events_trained, lr_kw_of.
  unfold mbind, M_bind, alloc, lift. rewrite Hf.
  destruct (path_split (formatted fname_pattern i)) as [dir name] eqn:Es.
  unfold emit, train_flow, mret, M_ret. cbn [heap events fst snd]. rewrite Hg.
  rewrite alter_insert_eq. cbn [flow_add_call app flow_trained].
  rewrite <- !app_assoc. reflexivity.
Qed.

Lemma trained_flows_loop_events (idxs : list nat) :
  forall new : list ref,
  length new = length idxs ->
  trained_flows (loop_events fname_pattern plot_fname_pattern idxs new) = new.
Proof.
  unfold loop_events, trained_flows.
  induction idxs as [|i idxs IH]; intros [|r new] Hlen; try discriminate Hlen.
  - reflexivity.
  - cbn [zip_with concat]. rewrite flat_map_app. cbn in Hlen.
    rewrite IH by congruence. reflexivity.
Qed.

(** The loop over indices that all format: one new trained flow per index,
    in order; what was in the heap stays. *)
Lemma train_flows_loop (idxs : list nat) :
  Forall (fun i => formats fname_pattern i = true /\ formats plot_fname_pattern i = true)
         idxs ->
  forall (acc : list ref) (w : world F),
  exists new w',
    for_eachM (train_flows_body data fname_pattern plot_fname_pattern p data_mean data_std)
              idxs acc w = (Ok (acc ++ new), w')
    /\ length new = length idxs
    /\ NoDup new
    /\ (forall r, r ∈ new -> heap w !! r = None)
    /\ dom (heap w') = dom (heap w) ∪ list_to_set new
    /\ (forall r o, heap w !! r = Some o -> heap w' !! r = Some o)
    /\ events w' = events w ++ loop_events fname_pattern plot_fname_pattern idxs new
    /\ (forall k i r, idxs !! k = Some i -> new !! k = Some r ->
          heap w' !! r
          = Some (flow_after_training p data_mean data_std
                    (flow_call data p (formatted fname_pattern i)))).
Proof.
  induction idxs as [|i idxs IH]; intros Hall acc w.
  - exists [], w. cbn. rewrite !app_nil_r.
    split_and!; try reflexivity; try constructor.
    + intros r Hr. apply elem_of_nil in Hr. contradiction.
    + symmetry. apply (right_id_L ∅ (∪)).
    + auto.
    + intros k i r Hk. rewrite lookup_nil in Hk. discriminate.
  - apply Forall_cons in Hall. destruct Hall as [[Hf Hg] Hall].
    cbn [for_eachM]. unfold mbind at 1, M_bind at 1.
    rewrite (train_flows_body_ok acc i w Hf Hg).
    set (r := fresh (dom (heap w))) in *.
    assert (Hfresh : heap w !! r = None).
    { apply not_elem_of_dom. apply is_fresh. }
    match goal with
    | |- context [for_eachM _ idxs ?a ?w1] =>
        destruct (IH Hall a w1) as (new & w' & Hrest & Hlen & Hnd & Hnew & Hdom
                                    & Hold & Hev & Hat)
    end.
    cbn [heap events] in *.
    exists (r :: new), w'.
    rewrite Hrest, <- app_assoc. cbn [app length].
    assert (Hrnew : r ∉ new).
    { intros Hin. apply Hnew in Hin. rewrite lookup_insert_eq in Hin. discriminate. }
    split_and!.
    + reflexivity.
    + congruence.
    + constructor; assumption.
    + intros r' Hr. apply elem_of_cons in Hr. destruct Hr as [->|Hr]; [exact Hfresh|].
      specialize (Hnew r' Hr).
      destruct (decide (r = r')) as [<-|Hne]; [exact Hfresh|].
      rewrite lookup_insert_ne in Hnew by exact Hne. exact Hnew.
    + rewrite Hdom, dom_insert_L, list_to_set_cons.
      rewrite (comm_L (∪) {[r]} (dom (heap w))). symmetry. apply (assoc_L (∪)).
    + intros r' o Ho. apply Hold.
      rewrite lookup_insert_ne; [exact Ho|]. intros <-. congruence.
    + rewrite Hev, <- app_assoc. reflexivity.
    + intros k i' r' Hk Hr. destruct k as [|k].
      * cbn in Hk, Hr. injection Hk as <-. injection Hr as <-.
        apply Hold. apply lookup_insert_eq.
      * cbn in Hk, Hr. exact (Hat k i' r' Hk Hr).
Qed.

(** The loop up to an index that does not format. *)
Lemma train_flows_loop_raise (pre : list nat) (i : nat) (post : list nat) (e : exn) :
  Forall (fun i => formats fname_pattern i = true /\ formats plot_fname_pattern i = true)
         pre ->
  str_format fname_pattern i = Raise e
  \/ (formats fname_pattern i = true /\ str_format plot_fname_pattern i = Raise e) ->
  forall w : world F,
  exists new r w',
    for_eachM (train_flows_body data fname_pattern plot_fname_pattern p data_mean data_std)
              (pre ++ i :: post) [] w = (Raise e, w')
    /\ length new = length pre
    /\ NoDup (r :: new)
    /\ (forall x, x ∈ r :: new -> heap w !! x = None)
    /\ dom (heap w') = dom (heap w) ∪ list_to_set (r :: new)
    /\ (forall x o, heap w !! x = Some o -> heap w' !! x = Some o)
    /\ (forall k j x, pre !! k = Some j -> new !! k = Some x ->
          heap w' !! x
          = Some (flow_after_training p data_mean data_std
                    (flow_call data p (formatted fname_pattern j))))
    /\ ((str_format fname_pattern i = Raise e
         /\ events w' = events w ++ loop_events fname_pattern plot_fname_pattern pre new
         /\ heap w' !! r = Some (flow_untrained p data_mean data_std))
        \/ (formats fname_pattern i = true
            /\ events w'
               = events w ++ loop_events fname_pattern plot_fname_pattern pre new
                 ++ flow_events_trained (formatted fname_pattern i) r
            /\ heap w' !! r
               = Some (flow_after_training p data_mean data_std
                         (flow_call data p (formatted fname_pattern i))))).
Proof.
  intros Hall Hfail w.
  destruct (train_flows_loop pre Hall [] w)
    as (new & w1 & Hrun & Hlen & Hnd & Hnew & Hdom & Hold & Hev & Hat).
  rewrite for_eachM_app, Hrun. cbn [for_eachM app].
  unfold mbind at 1, M_bind at 1.
  set (r := fresh (dom (heap w1))).
  assert (Hfresh : heap w1 !! r = None) by (apply not_elem_of_dom, is_fresh).
  assert (Hr0 : heap w !! r = None).
  { destruct (heap w !! r) as [o|] eqn:E; [|reflexivity].
    apply Hold in E. congruence. }
  assert (Hrnew : r ∉ new).
  { intros Hin. apply (elem_of_list_to_set (C := gset ref)) in Hin.
    assert (Hd : r ∈ dom (heap w1)) by (rewrite Hdom; apply elem_of_union_r, Hin).
    apply elem_of_dom in Hd. destruct Hd as [o Ho]. congruence. }
  assert (Hfront : forall x, x ∈ r :: new -> heap w !! x = None).
  { intros x Hx. apply elem_of_cons in Hx. destruct Hx as [->|Hx]; [exact Hr0|auto]. }
  assert (Hkeep : forall (o : obj F) x o',
             heap w !! x = Some o' -> <[r := o]> (heap w1) !! x = Some o').
  { intros o x o' Hx. rewrite lookup_insert_ne; [apply Hold; exact Hx|].
    intros <-. congruence. }
  assert (Hflows : forall (o : obj F) k j x, pre !! k = Some j -> new !! k = Some x ->
             <[r := o]> (heap w1) !! x
             = Some (flow_after_training p data_mean data_std
                       (flow_call data p (formatted fname_pattern j)))).
  { intros o k j x Hk Hx. rewrite lookup_insert_ne; [exact (Hat k j x Hk Hx)|].
    intros <-. apply Hrnew. apply list_elem_of_lookup. exists k. exact Hx. }
  assert (Hdom' : forall o : obj F,
             dom (<[r := o]> (heap w1)) = dom (heap w) ∪ list_to_set (r :: new)).
  { intros o. rewrite dom_insert_L, Hdom, list_to_set_cons.
    apply set_eq. intros x. rewrite !elem_of_union, !elem_of_singleton. tauto. }
  destruct Hfail as [Hf|[Hf Hg]].
  - rewrite (train_flows_body_raise_name new i w1 e Hf).
    exists new, r. eexists. split; [reflexivity|]. cbn [heap events].
    split_and!; try assumption.
    + constructor; assumption.
    + apply Hdom'.
    + apply Hkeep.
    + apply Hflows.
    + left. split_and!; [exact Hf|exact Hev|apply lookup_insert_eq].
  - rewrite (train_flows_body_raise_plot new i w1 e Hf Hg).
    exists new, r. eexists. split; [reflexivity|]. cbn [heap events].
    split_and!; try assumption.
    + constructor; assumption.
    + apply Hdom'.
    + apply Hkeep.
    + apply Hflows.
    + right. split_and!; [exact Hf| |apply lookup_insert_eq].
      rewrite Hev, <- app_assoc. reflexivity.
Qed.

End Generic.

Section Unfold.
Context {F : Type} `{Numeric F} `{OsOps}.

Lemma train_flows_zero (data : ndarray2 F) (fp pfp lf : string) (p : flow_params F)
    (w : world F) :
  batch_size p = 0%Z -> train_flows data fp pfp lf p w = (Raise ZeroDivisionError, w).
Proof.
  intros E. unfold train_flows. unfold mbind at 1, M_bind at 1, lift, py_floordiv_Z.
  rewrite E. reflexivity.
Qed.

Lemma train_flows_nonzero (data : ndarray2 F) (fp pfp lf : string) (p : flow_params F)
    (w : world F) :
  batch_size p <> 0%Z ->
  train_flows data fp pfp lf p w
  = for_eachM (train_flows_body data fp pfp p (np_mean2_axis0 data) (np_std2_axis0 data))
              (py_range (n_flows p)) [] w.
Proof.
  intros E. unfold train_flows. unfold mbind at 1, M_bind at 1, lift, py_floordiv_Z.
  destruct (Z.eqb_spec (batch_size p) 0) as [E'|_]; [contradiction|]. reflexivity.
Qed.

Lemma format_below_Forall (fp pfp : string) (n : nat) :
  format_below fp pfp n ->
  Forall (fun i => formats fp i = true /\ formats pfp i = true) (seq 0 n).
Proof.
  intros Hall. apply List.Forall_forall. intros i Hi. apply in_seq in Hi.
  apply Hall. lia.
Qed.

Lemma py_range_split (n : Z) (i : nat) :
  (Z.of_nat i < n)%Z ->
  py_range n = seq 0 i ++ i :: seq (S i) (Z.to_nat n - S i).
Proof.
  intros Hi. unfold py_range.
  replace (Z.to_nat n) with (i + S (Z.to_nat n - S i)) at 1 by lia.
  rewrite seq_app. cbn [seq Nat.add]. reflexivity.
Qed.

(** A call that returns has formatted every name. *)
Lemma train_flows_ok_formats (data : ndarray2 F) (fp pfp lf : string) (p : flow_params F)
    (w w' : world F) (flow_list : list ref) :
  train_flows data fp pfp lf p w = (Ok flow_list, w') ->
  batch_size p <> 0%Z /\ format_below fp pfp (Z.to_nat (n_flows p)).
Proof.
  intros Hrun.
  assert (E : batch_size p <> 0%Z).
  { intros E. rewrite train_flows_zero in Hrun by exact E. discriminate. }
  split; [exact E|].
  destruct (first_failure fp pfp (Z.to_nat (n_flows p)))
    as [Hall|(i & Hi & Hbelow & Hfail)]; [exact Hall|].
  exfalso. rewrite train_flows_nonzero in Hrun by exact E.
  rewrite (py_range_split (n_flows p) i) in Hrun by lia.
  assert (Hcause : exists e,
             str_format fp i = Raise e
             \/ (formats fp i = true /\ str_format pfp i = Raise e)).
  { destruct Hfail as [Hf|[Hf Hg]].
    - destruct (formats_cases fp i) as [Ht|[e He]]; [congruence|]. exists e. auto.
    - destruct (formats_cases pfp i) as [Ht|[e He]]; [congruence|]. exists e. auto. }
  destruct Hcause as [e Hcause].
  destruct (train_flows_loop_raise data fp pfp p (np_mean2_axis0 data) (np_std2_axis0 data)
              (seq 0 i) i (seq (S i) (Z.to_nat (n_flows p) - S i)) e
              (format_below_Forall fp pfp i Hbelow) Hcause w)
    as (new & r & w1 & Hraise & _).
  rewrite Hraise in Hrun. discriminate Hrun.
Qed.

End Unfold.
End TrainFacts.

Import Train.

(** C6, amended.  For [n_flows >= 0], a batch size other than zero and
    patterns that [str.format] accepts at every index below [n_flows],
    [train_flows] returns a list of [n_flows] references to flow objects that
    were not there before, all different, and constructs no other object;
    each is an [FFJORDFlow] over six dimensions with base mean
    [np.mean(data, axis=0)] and base deviation [np.std(data, axis=0)], trained
    once, on the full [data]; the list is in the order of training.  The base
    mean holds, for every column of [data], the sum of the column over the
    number of rows, and the base deviation the root of the mean of the
    squared differences from it. *)
Theorem train_flows_trains_each {F : Type} {N : Numeric F} `{OsOps}
    (data : ndarray2 F) (fname_pattern plot_fname_pattern loss_fname : string)
    (p : flow_params F) (w : world F) :
  (0 <= n_flows p)%Z -> batch_size p <> 0%Z ->
  TrainTrace.format_below fname_pattern plot_fname_pattern (Z.to_nat (n_flows p)) ->
  exists flow_list w' evs,
    train_flows data fname_pattern plot_fname_pattern loss_fname p w = (Ok flow_list, w')
    /\ Z.of_nat (length flow_list) = n_flows p
    /\ NoDup flow_list
    /\ (forall r, r ∈ flow_list -> heap w !! r = None)
    /\ dom (heap w') = dom (heap w) ∪ list_to_set flow_list
    /\ (forall r o, heap w !! r = Some o -> heap w' !! r = Some o)
    /\ Forall (fun r => exists call,
                 heap w' !! r
                 = Some (flow_after_training p (np_mean2_axis0 data) (np_std2_axis0 data)
                           call)
                 /\ ft_data call = data) flow_list
    /\ events w' = events w ++ evs
    /\ trained_flows evs = flow_list
    /\ np_mean2_axis0 data
       = tab (snd (shape2 data))
             (fun j => ColumnSpec.average N (ColumnSpec.column N data j))
    /\ np_std2_axis0 data
       = tab (snd (shape2 data))
             (fun j => ColumnSpec.deviation N (ColumnSpec.column N data j)).
Proof.
  intros Hn Hb Hfmt. rewrite TrainFacts.train_flows_nonzero by exact Hb.
  destruct (TrainFacts.train_flows_loop data fname_pattern plot_fname_pattern p
              (np_mean2_axis0 data) (np_std2_axis0 data) (py_range (n_flows p))
              (TrainFacts.format_below_Forall _ _ _ Hfmt) [] w)
    as (new & w' & Hrun & Hlen & Hnd & Hnew & Hdom & Hold & Hev & Hat).
  exists new, w', (TrainTrace.loop_events fname_pattern plot_fname_pattern
                     (py_range (n_flows p)) new).
  split_and!; try assumption.
  - rewrite Hlen, length_py_range. lia.
  - apply List.Forall_forall. intros r Hr.
    apply list_elem_of_In, list_elem_of_lookup in Hr. destruct Hr as [k Hk].
    assert (Hi : exists i, py_range (n_flows p) !! k = Some i).
    { apply lookup_lt_is_Some. rewrite <- Hlen. apply lookup_lt_Some in Hk. exact Hk. }
    destruct Hi as [i Hi]. eexists. split; [exact (Hat k i r Hi Hk)|reflexivity].
  - apply TrainFacts.trained_flows_loop_events. exact Hlen.
  - apply ColumnFacts.np_mean2_axis0_columns.
  - apply ColumnFacts.np_std2_axis0_columns.
Qed.

(** C6 at two flows and a batch size of one, with the index in both
    names. *)
Lemma train_flows_trains_each_two_flows :
  exists flow_list w',
    @train_flows _ Numeric_float toy_os two_rows "ckpt/flow{}/flow" "plots/loss{}.png"
                 "history" (toy_flow_params 2 1) empty_world = (Ok flow_list, w')
    /\ length flow_list = 2.
Proof.
  destruct (@train_flows_trains_each _ Numeric_float toy_os two_rows
              "ckpt/flow{}/flow" "plots/loss{}.png" "history"
              (toy_flow_params 2 1) empty_world)
    as (flow_list & w' & evs & Hrun & Hlen & _).
  - cbn. lia.
  - cbn. lia.
  - intros i Hi. cbn in Hi.
    destruct i as [|[|i]]; [split; reflexivity|split; reflexivity|lia].
  - exists flow_list, w'. split; [exact Hrun|]. cbn in Hlen. lia.
Defined.

(** C6 as stated fails for a batch size of zero: the step count
    [n_samples * n_epochs // batch_size] raises before any flow is built. *)
Lemma train_flows_zero_batch_size :
  @train_flows _ Numeric_float toy_os two_rows "ckpt/flow{}/flow" "plots/loss{}.png"
               "history" (toy_flow_params 1 0) empty_world
  = (Raise ZeroDivisionError, empty_world).
Proof. reflexivity. Qed.

(** It fails as well for a pattern with two fields, a batch size of one and
    one flow: [fname_pattern.format(0)] raises [IndexError] when the flow has
    been built and before it is trained. *)
Lemma train_flows_two_fields :
  let run := @train_flows _ Numeric_float toy_os two_rows "f{}{}" "plots/loss{}.png"
                          "history" (toy_flow_params 1 1) empty_world in
  fst run = Raise IndexError
  /\ events (snd run) = []
  /\ size (dom (heap (snd run))) = 1.
Proof. cbv zeta. split_and!; vm_compute; reflexivity. Qed.

Module PotentialFacts.
Section Generic.
Context {F : Type} {N : Numeric F}.

Lemma at2_first_columns (n : nat) (a : ndarray2 F) (i j : nat) :
  j < n -> at2 (first_columns n a) i j = at2 a i j.
Proof.
  intros Hj. unfold first_columns, at2. destruct (shape2 a) as [n0 n1].
  cbn [data2].
  destruct (Nat.lt_ge_cases i (length (data2 a))) as [Hi|Hi].
  - rewrite (nth_indep _ [] (take n [])) by (rewrite length_map; exact Hi).
    rewrite (map_nth (take n)), nth_firstn.
    destruct (Nat.ltb_spec j n); [reflexivity|lia].
  - rewrite (nth_overflow (map _ _)) by (rewrite length_map; exact Hi).
    rewrite (nth_overflow (data2 a)) by exact Hi. reflexivity.
Qed.

(** The deviation along axis 0 of the first [n] columns: one entry for each
    of these columns that the array has, the deviation of that column. *)
Lemma std_first_columns (n : nat) (a : ndarray2 F) :
  np_std2_axis0 (first_columns n a)
  = tab (Nat.min n (snd (shape2 a)))
        (fun j => ColumnSpec.deviation N (ColumnSpec.column N a j)).
Proof.
  unfold np_std2_axis0, ColumnSpec.column.
  assert (Hs : shape2 (first_columns n a) = (fst (shape2 a), Nat.min n (snd (shape2 a)))).
  { unfold first_columns. destruct (shape2 a). reflexivity. }
  rewrite Hs. cbn [fst snd]. apply tab_ext. intros j Hj.
  rewrite ColumnFacts.np_std_deviation. f_equal.
  apply tab_ext. intros i _. apply at2_first_columns. lia.
Qed.

End Generic.
End PotentialFacts.


(** * Properties of the rest of the script *)

(** ** [batch_calc_df_deta] below the number of rows *)

Import MoreContracts.

Lemma toy_gradient_by_row (F : Type) (N : Numeric F) (flow : nat) :
  @gradient_by_row F (toy_flows F) flow (map (mul (of_nat flow))).
Proof. intros batch. reflexivity. Defined.

(** An instance: two rows, one at a time. *)
Lemma batch_calc_df_deta_batch_size_free_two_rows :
  @batch_calc_df_deta _ float_flows 3 two_rows 1
  = Ok (NdArray2 (shape2 two_rows)
                 (map (map (@mul _ Numeric_float (@of_nat _ Numeric_float 3)))
                      (data2 two_rows))).
Proof.
  apply (@batch_calc_df_deta_batch_size_free _ float_flows 3 _ two_rows 1
           (toy_gradient_by_row _ Numeric_float 3)).
  - reflexivity.
  - vm_compute. lia.
Defined.

(** ** What [sample_from_flows] does with [return_indiv=True] *)

Module OutcomeFacts.
Import BatchFacts GradFacts SampleFacts EnsembleFacts.
Section Generic.
Context {F : Type} `{Numeric F} `{FlowOps F}.

(** Whatever holds of every array the sampler returns holds of every
    batch the two sampling loops collect. *)
Lemma sample_loop_Forall (P : ndarray2 F -> Prop) (flow : Flow) (sbs : nat) (ks : list nat) :
  (forall flow n g, P (fst (flow_sample flow n g))) ->
  forall acc g, Forall P acc ->
    Forall P (fst (fold_left (sample_loop_body flow sbs) ks (acc, g))).
Proof.
  intros HP. induction ks as [|k ks IH]; intros acc g Hacc; [exact Hacc|].
  cbn [fold_left]. unfold sample_loop_body at 2.
  destruct (flow_sample flow sbs g) as [b g1] eqn:Eb.
  apply IH. apply Forall_app. split; [exact Hacc|].
  constructor; [|constructor].
  pose proof (HP flow sbs g) as Hb. rewrite Eb in Hb. exact Hb.
Qed.

Lemma sample_all_Forall (P : ndarray2 F -> Prop) (n_batches sbs : nat) (flows : list Flow) :
  (forall flow n g, P (fst (flow_sample flow n g))) ->
  forall acc g, Forall P acc ->
    Forall P (fst (fold_left (sample_flow n_batches sbs) flows (acc, g))).
Proof.
  intros HP. induction flows as [|flow flows IH]; intros acc g Hacc; [exact Hacc|].
  cbn [fold_left]. unfold sample_flow at 2.
  pose proof (sample_loop_Forall P flow sbs (seq 0 n_batches) HP acc g Hacc) as Hstep.
  destruct (fold_left (sample_loop_body flow sbs) (seq 0 n_batches) (acc, g)) as [acc1 g1].
  apply IH. exact Hstep.
Qed.

Lemma np_concatenate_columns (n_col : nat) (bs : list (ndarray2 F)) :
  bs <> [] -> Forall (fun b => snd (shape2 b) = n_col) bs ->
  np_concatenate bs = Ok (NdArray2 (rows_of bs, n_col) (concat (map data2 bs))).
Proof.
  intros Hne Hall. destruct bs as [|b bs]; [congruence|].
  unfold np_concatenate.
  apply Forall_cons in Hall. destruct Hall as [Hb Hbs].
  assert (Hf : forallb (fun b0 : ndarray2 F => Nat.eqb (snd (shape2 b0)) (snd (shape2 b))) bs
               = true).
  { apply forallb_forall. intros b0 Hin.
    rewrite Forall_forall in Hbs. rewrite Hb, (Hbs b0).
    - apply Nat.eqb_refl.
    - apply list_elem_of_In. exact Hin. }
  rewrite Hf, Hb. reflexivity.
Qed.

(** With more rows than a batch holds, the gradients come back in the
    shape of [eta]. *)
Lemma batch_calc_df_deta_shape (flow : Flow) (eta0 : ndarray2 F) (batch_size : positive) :
  gradient_rows_contract ->
  length (data2 eta0) = fst (shape2 eta0) ->
  Pos.to_nat batch_size < fst (shape2 eta0) ->
  exists g, batch_calc_df_deta flow eta0 batch_size = Ok g /\ shape2 g = shape2 eta0.
Proof.
  intros Hg Hrows Hlt. rewrite batch_calc_df_deta_eq. cbv zeta.
  destruct (decide _) as [_|H2].
  - eexists. split; [reflexivity|]. cbn [shape2].
    assert (Hsum : sum_list (map (fun b0 => length (prob_gradient flow b0))
                                 (dataset_batch batch_size (data2 eta0)))
                   = length (concat (dataset_batch batch_size (data2 eta0)))).
    { induction (dataset_batch batch_size (data2 eta0)) as [|x l IH]; [reflexivity|].
      cbn [map sum_list concat]. rewrite length_app, IH, Hg. reflexivity. }
    rewrite Hsum, dataset_batch_concat, Hrows. destruct (shape2 eta0); reflexivity.
  - exfalso. apply H2. apply dataset_batch_count. rewrite Hrows. exact Hlt.
Qed.

Lemma indiv_loop_body_some (eta0 : ndarray2 F) (grad_batch_size : positive)
    (a : ndarray3 F) (i : nat) (flow : Flow) :
  indiv_loop_body eta0 grad_batch_size (Some a) (i, flow)
  = (g ← batch_calc_df_deta flow eta0 grad_batch_size;
     a' ← store_axis0 a i g; Ok (Some a')).
Proof. reflexivity. Qed.

(** The gradient loop goes through when every call of
    [batch_calc_df_deta] does. *)
Lemma indiv_loop_returns (eta0 : ndarray2 F) (grad_batch_size : positive)
    (flows : list Flow) :
  (forall flow, exists g,
     batch_calc_df_deta flow eta0 grad_batch_size = Ok g /\ shape2 g = shape2 eta0) ->
  forall (k : nat) (a : ndarray3 F),
    (snd (fst (shape3 a)), snd (shape3 a)) = shape2 eta0 ->
    exists a',
      for_each (indiv_loop_body eta0 grad_batch_size)
               (combine (seq k (length flows)) flows) (Some a) = Ok (Some a').
Proof.
  intros Hcalc. induction flows as [|flow flows IH]; intros k a Hshape.
  - exists a. reflexivity.
  - cbn [length seq combine for_each]. rewrite indiv_loop_body_some.
    destruct (Hcalc flow) as (g & Hg & Hgs). rewrite Hg. cbn [mbind result_bind].
    unfold store_axis0. destruct (shape3 a) as [[n0 n1] n2] eqn:Es.
    cbn [fst snd] in Hshape.
    destruct (decide (shape2 g = (n1, n2))) as [_|Hne]; [|congruence].
    cbn [mbind result_bind].
    apply IH. cbn [shape3 fst snd]. exact Hshape.
Qed.

End Generic.
End OutcomeFacts.

(** With [return_indiv=True], under the contracts of the sampler and of
    the gradient, what [sample_from_flows] does is decided by its counts:
    [ZeroDivisionError] when [n_flows * sample_batch_size] is zero,
    [ValueError] when [n_samples] is below that product (no batch is
    sampled), [AttributeError] when the sampled rows fit in one gradient
    batch, and a result otherwise. *)
Theorem sample_from_flows_outcomes {F : Type} `{Numeric F} `{FlowOps F}
    (flow_list : list Flow) (n_samples : nat) (grad_batch_size : positive)
    (sample_batch_size n_col : nat) (f_reduce : ndarray3 F -> marray2 F) (rng : Rng) :
  sample_contract -> columns_contract n_col -> gradient_rows_contract ->
  let q := length flow_list * sample_batch_size in
  let rows := q * (n_samples / q) in
  let result :=
    sample_from_flows flow_list n_samples true grad_batch_size sample_batch_size
                      f_reduce rng in
  (q = 0 -> result = Raise ZeroDivisionError)
  /\ (q <> 0 -> n_samples < q -> result = Raise ValueError)
  /\ (q <> 0 -> q <= n_samples -> rows <= Pos.to_nat grad_batch_size ->
      result = Raise AttributeError)
  /\ (q <> 0 -> q <= n_samples -> Pos.to_nat grad_batch_size < rows ->
      exists r rng', result = Ok (r, rng') /\ fst (shape2 (eta r)) = rows).
Proof.
  intros Hc Hcol Hgrad q rows result.
  assert (Hzero : q = 0 -> result = Raise ZeroDivisionError).
  { intros Hq. unfold result, sample_from_flows, py_floordiv. fold q. rewrite Hq.
    reflexivity. }
  split; [exact Hzero|].
  assert (Hstage : q <> 0 ->
            exists batches rng',
              fold_left (sample_flow (n_samples / q) sample_batch_size) flow_list ([], rng)
              = (batches, rng')
              /\ length batches = length flow_list * (n_samples / q)
              /\ Forall (batch_ok sample_batch_size) batches
              /\ Forall (fun b => snd (shape2 b) = n_col) batches
              /\ result
                 = (eta0 ← np_concatenate batches;
                    df_deta_indiv ←
                      for_each (indiv_loop_body eta0 grad_batch_size) (enumerate flow_list)
                        (Some (np_zeros3 (length flow_list) (fst (shape2 eta0))
                                         (snd (shape2 eta0))));
                    match df_deta_indiv with
                    | None => Raise UnboundLocalError
                    | Some a =>
                        Ok ({| eta := eta0; df_deta := f_reduce a;
                               df_deta_indiv := Some a |}, rng')
                    end)).
  { intros Hq.
    destruct (SampleFacts.sample_all_blocks (n_samples / q) sample_batch_size flow_list
                Hc [] rng) as (blocks & g' & Hfold & Hblocks).
    destruct (SampleFacts.blocks_batches _ _ _ _ Hblocks) as [Hlen Hall].
    pose proof (OutcomeFacts.sample_all_Forall (fun b => snd (shape2 b) = n_col)
                  (n_samples / q) sample_batch_size flow_list
                  (fun flow n g => Hcol flow n g) [] rng (Forall_nil_2 _)) as Hcols.
    rewrite Hfold in Hcols. cbn [app fst] in Hfold, Hcols.
    exists (concat blocks), g'. split_and!; try assumption.
    unfold result, sample_from_flows, py_floordiv. fold q.
    destruct (Nat.eqb_spec q 0) as [E|_]; [contradiction|].
    cbn [mbind result_bind]. rewrite Hfold. reflexivity. }
  split; [|split].
  - intros Hq Hlt. destruct (Hstage Hq) as (batches & rng' & _ & Hlen & _ & _ & ->).
    rewrite Nat.div_small in Hlen by exact Hlt. rewrite Nat.mul_0_r in Hlen.
    destruct batches; [reflexivity|discriminate Hlen].
  - intros Hq Hle Hfit.
    destruct (Hstage Hq) as (batches & rng' & _ & Hlen & Hall & Hcols & ->).
    clear Hstage Hzero.
    assert (Hnb : 1 <= n_samples / q) by (apply Nat.div_str_pos; lia).
    assert (Hne : batches <> []).
    { intros ->. cbn in Hlen. nia. }
    assert (Hrows : length batches * sample_batch_size = rows).
    { rewrite Hlen. unfold rows, q. nia. }
    assert (Hflows : flow_list <> []).
    { intros ->. apply Hq. reflexivity. }
    rewrite (OutcomeFacts.np_concatenate_columns n_col) by assumption.
    cbn [mbind result_bind shape2 fst snd].
    destruct flow_list as [|flow flows]; [congruence|].
    unfold enumerate. cbn [length seq combine for_each].
    rewrite OutcomeFacts.indiv_loop_body_some.
    rewrite GradFacts.batch_calc_df_deta_eq. cbv zeta. cbn [data2].
    destruct (decide _) as [H2|_]; [|reflexivity].
    exfalso. apply BatchFacts.dataset_batch_count in H2.
    rewrite (SampleFacts.data_rows_of_batches sample_batch_size) in H2 by exact Hall.
    rewrite Hrows in H2. lia.
  - intros Hq Hle Hmore.
    destruct (Hstage Hq) as (batches & rng' & _ & Hlen & Hall & Hcols & ->).
    clear Hstage Hzero.
    assert (Hnb : 1 <= n_samples / q) by (apply Nat.div_str_pos; lia).
    assert (Hne : batches <> []).
    { intros ->. cbn in Hlen. nia. }
    assert (Hrows : rows_of batches = rows).
    { rewrite (SampleFacts.rows_of_batches sample_batch_size) by exact Hall.
      rewrite Hlen. unfold rows, q. nia. }
    rewrite (OutcomeFacts.np_concatenate_columns n_col) by assumption.
    cbn [mbind result_bind shape2 fst snd].
    set (eta0 := NdArray2 (rows_of batches, n_col) (concat (map data2 batches))).
    assert (Hdata : length (data2 eta0) = fst (shape2 eta0)).
    { cbn. rewrite (SampleFacts.data_rows_of_batches sample_batch_size) by exact Hall.
      rewrite (SampleFacts.rows_of_batches sample_batch_size) by exact Hall. reflexivity. }
    assert (Hbig : Pos.to_nat grad_batch_size < fst (shape2 eta0)).
    { cbn. rewrite Hrows. exact Hmore. }
    destruct (OutcomeFacts.indiv_loop_returns eta0 grad_batch_size flow_list
                (fun flow => OutcomeFacts.batch_calc_df_deta_shape flow eta0 grad_batch_size
                               Hgrad Hdata Hbig)
                0 (np_zeros3 (length flow_list) (rows_of batches) n_col) eq_refl)
      as (a' & Hloop).
    unfold enumerate. rewrite Hloop. cbn [mbind result_bind].
    eexists _, _. split; [reflexivity|]. cbn. exact Hrows.
Qed.

Lemma toy_columns_contract (F : Type) (N : Numeric F) : @columns_contract F (toy_flows F) 6.
Proof. intros flow n g. reflexivity. Defined.

Lemma toy_gradient_rows_contract (F : Type) (N : Numeric F) :
  @gradient_rows_contract F (toy_flows F).
Proof. intros flow batch. cbn. apply length_map. Defined.

(** An instance: two toy flows, five samples asked for in batches of two,
    gradients one row at a time. *)
Lemma sample_from_flows_outcomes_two_flows :
  exists r rng',
    @sample_from_flows _ Numeric_float float_flows [1; 2] 5 true 1 2
      (@main_f_reduce _ Numeric_float Promotion_float true) 0 = Ok (r, rng')
    /\ fst (shape2 (eta r)) = 4.
Proof.
  destruct (@sample_from_flows_outcomes _ Numeric_float float_flows [1; 2] 5 1 2 6
              (@main_f_reduce _ Numeric_float Promotion_float true) 0
              (toy_sample_contract _ _) (toy_columns_contract _ _)
              (toy_gradient_rows_contract _ _)) as (_ & _ & _ & Hok).
  destruct Hok as (r & rng' & Hrun & Hrows).
  - cbn. lia.
  - cbn. lia.
  - vm_compute. lia.
  - exists r, rng'. split; [exact Hrun|]. rewrite Hrows. reflexivity.
Defined.

(** ** [train_flows]: when it raises, what it writes *)

Import TrainTrace.

(** [train_flows] raises in three ways.  With a batch size of zero it raises
    [ZeroDivisionError] and leaves the objects and the events as they were:
    no flow is built.  With another batch size, at the first index below
    [n_flows] whose file name does not format it raises the exception of
    [str.format], after as many flows have been built, trained and saved as
    there are indices before it, and after the flow of that index has been
    built, which stays untrained; at the first index whose plot name does not
    format it raises likewise, after the flow of that index has been trained
    and its loss history saved, and before any figure is saved for it.  A
    call that raises does so in one of these ways.  With a batch size other
    than zero and [n_flows <= 0] the call returns the empty list and leaves
    the objects and the events as they were. *)
Theorem train_flows_edges {F : Type} `{Numeric F} `{OsOps}
    (data : ndarray2 F) (fname_pattern plot_fname_pattern loss_fname : string)
    (p : flow_params F) (w : world F) :
  (batch_size p = 0%Z ->
     train_flows data fname_pattern plot_fname_pattern loss_fname p w
     = (Raise ZeroDivisionError, w))
  /\ (batch_size p <> 0%Z -> (n_flows p <= 0)%Z ->
        train_flows data fname_pattern plot_fname_pattern loss_fname p w = (Ok [], w))
  /\ (forall i e,
        batch_size p <> 0%Z -> (Z.of_nat i < n_flows p)%Z ->
        format_below fname_pattern plot_fname_pattern i ->
        str_format fname_pattern i = Raise e ->
        exists flows r w',
          train_flows data fname_pattern plot_fname_pattern loss_fname p w = (Raise e, w')
          /\ length flows = i
          /\ NoDup (r :: flows)
          /\ dom (heap w') = dom (heap w) ∪ list_to_set (r :: flows)
          /\ events w' = events w ++ flows_events fname_pattern plot_fname_pattern flows
          /\ trained_flows (flows_events fname_pattern plot_fname_pattern flows) = flows
          /\ heap w' !! r
             = Some (flow_untrained p (np_mean2_axis0 data) (np_std2_axis0 data)))
  /\ (forall i e,
        batch_size p <> 0%Z -> (Z.of_nat i < n_flows p)%Z ->
        format_below fname_pattern plot_fname_pattern i ->
        formats fname_pattern i = true ->
        str_format plot_fname_pattern i = Raise e ->
        exists flows r w',
          train_flows data fname_pattern plot_fname_pattern loss_fname p w = (Raise e, w')
          /\ length flows = i
          /\ NoDup (r :: flows)
          /\ dom (heap w') = dom (heap w) ∪ list_to_set (r :: flows)
          /\ events w'
             = events w ++ flows_events fname_pattern plot_fname_pattern flows
               ++ flow_events_trained (formatted fname_pattern i) r
          /\ heap w' !! r
             = Some (flow_after_training p (np_mean2_axis0 data) (np_std2_axis0 data)
                       (flow_call data p (formatted fname_pattern i))))
  /\ (forall e w',
        train_flows data fname_pattern plot_fname_pattern loss_fname p w = (Raise e, w') ->
        (batch_size p = 0%Z /\ e = ZeroDivisionError /\ w' = w)
        \/ (batch_size p <> 0%Z
            /\ exists i,
                 (Z.of_nat i < n_flows p)%Z
                 /\ format_below fname_pattern plot_fname_pattern i
                 /\ (str_format fname_pattern i = Raise e
                     \/ (formats fname_pattern i = true
                         /\ str_format plot_fname_pattern i = Raise e)))).
Proof.
  assert (Hraise : forall i e,
            batch_size p <> 0%Z -> (Z.of_nat i < n_flows p)%Z ->
            format_below fname_pattern plot_fname_pattern i ->
            str_format fname_pattern i = Raise e
            \/ (formats fname_pattern i = true
                /\ str_format plot_fname_pattern i = Raise e) ->
            exists flows r w',
              train_flows data fname_pattern plot_fname_pattern loss_fname p w
              = (Raise e, w')
              /\ length flows = i
              /\ NoDup (r :: flows)
              /\ dom (heap w') = dom (heap w) ∪ list_to_set (r :: flows)
              /\ ((str_format fname_pattern i = Raise e
                   /\ events w'
                      = events w ++ flows_events fname_pattern plot_fname_pattern flows
                   /\ heap w' !! r
                      = Some (flow_untrained p (np_mean2_axis0 data)
                                (np_std2_axis0 data)))
                  \/ (formats fname_pattern i = true
                      /\ events w'
                         = events w
                           ++ flows_events fname_pattern plot_fname_pattern flows
                           ++ flow_events_trained (formatted fname_pattern i) r
                      /\ heap w' !! r
                         = Some (flow_after_training p (np_mean2_axis0 data)
                                   (np_std2_axis0 data)
                                   (flow_call data p (formatted fname_pattern i)))))).
  { intros i e Hb Hi Hbelow Hcause.
    rewrite TrainFacts.train_flows_nonzero by exact Hb.
    rewrite (TrainFacts.py_range_split (n_flows p) i) by exact Hi.
    destruct (TrainFacts.train_flows_loop_raise data fname_pattern plot_fname_pattern p
                (np_mean2_axis0 data) (np_std2_axis0 data)
                (seq 0 i) i (seq (S i) (Z.to_nat (n_flows p) - S i)) e
                (TrainFacts.format_below_Forall _ _ i Hbelow) Hcause w)
      as (new & r & w1 & Hrun & Hlen & Hnd & _ & Hdom & _ & _ & Hend).
    rewrite length_seq in Hlen.
    exists new, r, w1. unfold flows_events. rewrite Hlen.
    split_and!; [exact Hrun|reflexivity|exact Hnd|exact Hdom|exact Hend]. }
  split_and!.
  - apply TrainFacts.train_flows_zero.
  - intros E Hn. rewrite TrainFacts.train_flows_nonzero by exact E.
    unfold py_range. replace (Z.to_nat (n_flows p)) with 0 by lia. reflexivity.
  - intros i e Hb Hi Hbelow Hf.
    destruct (Hraise i e Hb Hi Hbelow (or_introl Hf))
      as (flows & r & w' & Hrun & Hlen & Hnd & Hdom & Hend).
    exists flows, r, w'.
    destruct Hend as [(_ & Hev & Hr)|(Hg & _)].
    + split_and!; try assumption.
      apply TrainFacts.trained_flows_loop_events. rewrite length_seq. reflexivity.
    + apply TrainFacts.formats_raise in Hf. congruence.
  - intros i e Hb Hi Hbelow Hf Hg.
    destruct (Hraise i e Hb Hi Hbelow (or_intror (conj Hf Hg)))
      as (flows & r & w' & Hrun & Hlen & Hnd & Hdom & Hend).
    exists flows, r, w'.
    destruct Hend as [(Hf' & _)|(_ & Hev & Hr)].
    + apply TrainFacts.formats_raise in Hf'. congruence.
    + split_and!; assumption.
  - intros e w' Hrun. destruct (Z.eq_dec (batch_size p) 0%Z) as [E|E].
    + left. rewrite TrainFacts.train_flows_zero in Hrun by exact E.
      injection Hrun as <- <-. auto.
    + right. split; [exact E|].
      destruct (TrainFacts.first_failure fname_pattern plot_fname_pattern
                  (Z.to_nat (n_flows p))) as [Hall|(i & Hi & Hbelow & Hfail)].
      * exfalso. rewrite TrainFacts.train_flows_nonzero in Hrun by exact E.
        destruct (TrainFacts.train_flows_loop data fname_pattern plot_fname_pattern p
                    (np_mean2_axis0 data) (np_std2_axis0 data) (py_range (n_flows p))
                    (TrainFacts.format_below_Forall _ _ _ Hall) [] w)
          as (new & w1 & Hok & _).
        rewrite Hok in Hrun. discriminate Hrun.
      * assert (Hcause : exists e0,
                   str_format fname_pattern i = Raise e0
                   \/ (formats fname_pattern i = true
                       /\ str_format plot_fname_pattern i = Raise e0)).
        { destruct Hfail as [Hf|[Hf Hg]].
          - destruct (TrainFacts.formats_cases fname_pattern i) as [Ht|[e0 He]];
              [congruence|]. exists e0. auto.
          - destruct (TrainFacts.formats_cases plot_fname_pattern i) as [Ht|[e0 He]];
              [congruence|]. exists e0. auto. }
        destruct Hcause as [e0 Hcause].
        assert (Hi' : (Z.of_nat i < n_flows p)%Z) by lia.
        destruct (Hraise i e0 E Hi' Hbelow Hcause) as (flows & r & w1 & Hrun1 & _).
        rewrite Hrun1 in Hrun. injection Hrun as <- _.
        exists i. split_and!; assumption.
Qed.

(** When [train_flows] returns, both patterns have formatted at every
    index, and the events it added are, flow by flow in the order of the
    list: the directory of the flow's file name made, the specifications
    saved under that name, the flow trained, the loss history saved under
    that name followed by [_loss.txt], and the figure saved under the
    formatted plot pattern; flow [i] was trained with the checkpoint
    directory and name that [os.path.split] gives for its file name, and with
    the entries of [lr] under keys prefixed by [lr_].  The argument
    [loss_fname] plays no part. *)
Theorem train_flows_trace {F : Type} `{Numeric F} `{OsOps}
    (data : ndarray2 F) (fname_pattern plot_fname_pattern loss_fname : string)
    (p : flow_params F) (w w' : world F) (flow_list : list ref) :
  train_flows data fname_pattern plot_fname_pattern loss_fname p w = (Ok flow_list, w') ->
  length flow_list = Z.to_nat (n_flows p)
  /\ (forall i, i < length flow_list ->
        str_format fname_pattern i = Ok (formatted fname_pattern i)
        /\ str_format plot_fname_pattern i = Ok (formatted plot_fname_pattern i))
  /\ events w'
     = events w
       ++ concat (zip_with
                    (fun i r =>
                       [ EvMkdir (fst (path_split (formatted fname_pattern i)));
                         EvSaveSpecs r (formatted fname_pattern i);
                         EvTrainFlow r;
                         EvSaveLossHistory
                           (String.append (formatted fname_pattern i) "_loss.txt");
                         EvSaveFig (formatted plot_fname_pattern i) ])
                    (seq 0 (length flow_list)) flow_list)
  /\ (forall i r, flow_list !! i = Some r ->
        exists call,
          heap w' !! r
          = Some (flow_after_training p (np_mean2_axis0 data) (np_std2_axis0 data) call)
          /\ call = flow_call data p (formatted fname_pattern i)
          /\ ft_data call = data
          /\ ft_checkpoint_dir call = fst (path_split (formatted fname_pattern i))
          /\ ft_checkpoint_name call = snd (path_split (formatted fname_pattern i))
          /\ ft_lr_kw call
             = map (fun kv => (String.append "lr_" (fst kv), snd kv)) (lr p))
  /\ (forall other : string,
        train_flows data fname_pattern plot_fname_pattern other p w = (Ok flow_list, w')).
Proof.
  intros Hrun.
  destruct (TrainFacts.train_flows_ok_formats _ _ _ _ _ _ _ _ Hrun) as [E Hfmt].
  pose proof Hrun as Hrun0.
  rewrite TrainFacts.train_flows_nonzero in Hrun by exact E.
  destruct (TrainFacts.train_flows_loop data fname_pattern plot_fname_pattern p
              (np_mean2_axis0 data) (np_std2_axis0 data) (py_range (n_flows p))
              (TrainFacts.format_below_Forall _ _ _ Hfmt) [] w)
    as (new & w1 & Hloop & Hlen & _ & _ & _ & _ & Hev & Hat).
  rewrite Hloop in Hrun. injection Hrun as <- <-. cbn [app].
  rewrite length_py_range in Hlen.
  split_and!.
  - exact Hlen.
  - intros i Hi. rewrite Hlen in Hi. destruct (Hfmt i Hi) as [Hf Hg].
    split; apply TrainFacts.formats_formatted; assumption.
  - rewrite Hev, Hlen. reflexivity.
  - intros i r Hi. eexists. split; [|split_and!; reflexivity].
    apply (Hat i i r); [|exact Hi].
    apply lookup_lt_Some in Hi. rewrite Hlen in Hi.
    unfold py_range. apply lookup_seq. split; [reflexivity|exact Hi].
  - intros other. rewrite TrainFacts.train_flows_nonzero by exact E. exact Hloop.
Qed.

(** An instance: two flows, a batch size of one, the index in both names,
    and two entries in [lr]. *)
Lemma train_flows_trace_two_flows :
  exists flow_list w',
    @train_flows _ Numeric_float toy_os two_rows "ckpt/flow{}/flow" "plots/loss{}.png"
                 "history" (toy_flow_params 2 1) empty_world = (Ok flow_list, w')
    /\ length flow_list = 2
    /\ events w'
       = [ EvMkdir "ckpt/flow0"; EvSaveSpecs 0 "ckpt/flow0/flow"; EvTrainFlow 0;
           EvSaveLossHistory "ckpt/flow0/flow_loss.txt"; EvSaveFig "plots/loss0.png";
           EvMkdir "ckpt/flow1"; EvSaveSpecs 1 "ckpt/flow1/flow"; EvTrainFlow 1;
           EvSaveLossHistory "ckpt/flow1/flow_loss.txt"; EvSaveFig "plots/loss1.png" ]
    /\ (forall r call, r ∈ flow_list ->
          heap w' !! r
          = Some (flow_after_training (toy_flow_params 2 1)
                    (@np_mean2_axis0 _ Numeric_float two_rows)
                    (@np_std2_axis0 _ Numeric_float two_rows) call) ->
          (ft_lr_kw call : list (string * pyval PrimFloat.float))
          = [("lr_type"%string, PStr "step"); ("lr_patience"%string, PInt 32)]).
Proof.
  destruct (@train_flows _ Numeric_float toy_os two_rows "ckpt/flow{}/flow"
              "plots/loss{}.png" "history" (toy_flow_params 2 1) empty_world)
    as [[flow_list|e] w'] eqn:E; [|vm_compute in E; discriminate E].
  exists flow_list, w'. split; [reflexivity|].
  destruct (@train_flows_trace _ Numeric_float toy_os _ _ _ _ _ _ _ _ E)
    as (Hlen & _ & Hev & Hat & _).
  assert (Hfl : flow_list = [0; 1]).
  { vm_compute in E. injection E as <- _. reflexivity. }
  subst flow_list. split_and!.
  - reflexivity.
  - rewrite Hev. reflexivity.
  - intros r call Hr Hheap.
    apply list_elem_of_lookup in Hr. destruct Hr as [i Hi].
    destruct (Hat i r Hi) as (call' & Hheap' & _ & _ & _ & _ & Hlr).
    rewrite Hheap' in Hheap. injection Hheap as <-. rewrite Hlr. reflexivity.
Defined.

(** ** [train_potential]: what it leaves alone *)


(** ** [load_flows]: which checkpoints it loads *)

Module LoadFacts.
Import Flows Train Checkpoints.

Lemma map_snd_enumerate {A} (l : list A) : map snd (enumerate l) = l.
Proof.
  unfold enumerate. generalize 0. induction l as [|a l IH]; intros k.
  - reflexivity.
  - cbn. rewrite IH. reflexivity.
Qed.

Lemma length_filter_below (f : nat -> bool) (n m : nat) :
  (forall i, i < n -> i < m -> f i = true) ->
  Nat.min n m <= length (List.filter f (seq 0 m)).
Proof.
  intros Hf. induction m as [|m IH].
  - rewrite Nat.min_0_r. apply Nat.le_0_l.
  - rewrite seq_S, List.filter_app, length_app. cbn [Nat.add List.filter].
    assert (IH' : Nat.min n m <= length (List.filter f (seq 0 m))).
    { apply IH. intros i Hi Him. apply Hf; lia. }
    destruct (Nat.lt_ge_cases m n) as [Hm|Hm].
    + rewrite (Hf m Hm) by lia. cbn [length]. lia.
    + destruct (f m); cbn [length]; lia.
Qed.

Section Generic.
Context {F : Type} `{FlowOps F} `{OsOps} `{!CheckpointOps F}.

Lemma collect_dirs (isdir : string -> bool) (fname_patterns : string) (l : list nat) :
  Forall (fun i => formats fname_patterns i = true) l ->
  forall acc : list string,
    for_each (fun checkpoint_dirs i =>
                flow_fname ← str_format fname_patterns i;
                let flow_dir := fst (path_split flow_fname) in
                Ok (if isdir flow_dir then checkpoint_dirs ++ [flow_dir]
                    else checkpoint_dirs)) l acc
    = Ok (acc ++ List.filter isdir (map (flow_dir_of fname_patterns) l)).
Proof.
  induction l as [|i l IH]; intros Hall acc.
  - cbn. rewrite app_nil_r. reflexivity.
  - apply Forall_cons in Hall. destruct Hall as [Hi Hall].
    cbn [for_each map List.filter]. unfold flow_dir_of.
    rewrite (TrainFacts.formats_formatted fname_patterns i Hi).
    cbn [mbind result_bind]. rewrite (IH Hall). unfold flow_dir_of.
    destruct (isdir (fst (path_split (formatted fname_patterns i)))).
    + rewrite <- app_assoc. reflexivity.
    + reflexivity.
Qed.

Lemma collect_dirs_raise (isdir : string -> bool) (fname_patterns : string)
    (pre : list nat) (i : nat) (post : list nat) (e : exn) :
  Forall (fun i => formats fname_patterns i = true) pre ->
  str_format fname_patterns i = Raise e ->
  forall acc : list string,
    for_each (fun checkpoint_dirs i =>
                flow_fname ← str_format fname_patterns i;
                let flow_dir := fst (path_split flow_fname) in
                Ok (if isdir flow_dir then checkpoint_dirs ++ [flow_dir]
                    else checkpoint_dirs)) (pre ++ i :: post) acc
    = Raise e.
Proof.
  intros Hall Hi. induction pre as [|j pre IH]; intros acc.
  - cbn [app for_each]. rewrite Hi. reflexivity.
  - apply Forall_cons in Hall. destruct Hall as [Hj Hall].
    cbn [app for_each].
    rewrite (TrainFacts.formats_formatted fname_patterns j Hj).
    cbn [mbind result_bind]. apply (IH Hall).
Qed.

Lemma load_dirs (l : list (nat * string)) :
  forall acc : list Flow,
    fold_left (fun flow_list (ic : nat * string) =>
                 let '(i, checkpoint_dir) := ic in
                 flow_list ++ [load_latest checkpoint_dir]) l acc
    = acc ++ map load_latest (map snd l).
Proof.
  induction l as [|[i d] l IH]; intros acc.
  - cbn. rewrite app_nil_r. reflexivity.
  - cbn [fold_left map snd]. rewrite IH, <- app_assoc. reflexivity.
Qed.

Lemma formats_all_Forall (fname_patterns : string) :
  formats_all fname_patterns ->
  Forall (fun i => formats fname_patterns i = true) (py_range n_max).
Proof.
  intros Hall. apply List.Forall_forall. intros i Hi. unfold py_range in Hi.
  apply in_seq in Hi. apply Hall. unfold n_max in *. lia.
Qed.

Lemma load_flows_eq (isdir : string -> bool) (fname_patterns : string) :
  formats_all fname_patterns ->
  load_flows isdir fname_patterns
  = Ok (map load_latest
          (List.filter isdir (map (flow_dir_of fname_patterns) (py_range n_max)))).
Proof.
  intros Hall. unfold load_flows.
  rewrite (collect_dirs isdir fname_patterns _ (formats_all_Forall _ Hall)).
  cbn [mbind result_bind app]. rewrite load_dirs, map_snd_enumerate. reflexivity.
Qed.

Lemma load_flows_raise (isdir : string -> bool) (fname_patterns : string)
    (i : nat) (e : exn) :
  (Z.of_nat i < n_max)%Z ->
  (forall j, j < i -> formats fname_patterns j = true) ->
  str_format fname_patterns i = Raise e ->
  load_flows isdir fname_patterns = Raise e.
Proof.
  intros Hi Hbelow Hraise. unfold load_flows.
  rewrite (TrainFacts.py_range_split n_max i Hi).
  rewrite (collect_dirs_raise isdir fname_patterns (seq 0 i) i _ e); [reflexivity| |exact Hraise].
  apply List.Forall_forall. intros j Hj. apply in_seq in Hj. apply Hbelow. lia.
Qed.

Lemma filter_const (b : bool) (n : nat) (d : string) (isdir : string -> bool) :
  isdir d = b ->
  forall k, List.filter isdir (map (fun _ : nat => d) (seq k n))
            = if b then repeat d n else [].
Proof.
  intros Hd. induction n as [|n IH]; intros k.
  - destruct b; reflexivity.
  - cbn [seq map List.filter]. rewrite Hd, IH. destruct b; reflexivity.
Qed.

End Generic.
End LoadFacts.

(** [load_flows] goes through the indices below 9999.  Where the pattern
    formats at each of them, it loads, in order, the latest checkpoint of
    every directory [os.path.split(fname_patterns.format(i))[0]] that
    exists: so it returns at most 9999 flows, each of them from such a
    directory, and none where no such directory exists.  Where the pattern
    does not format at some index below 9999, it raises the exception of the
    first such index and returns nothing. *)
Theorem load_flows_lists_directories {F : Type} `{Flows.FlowOps F} `{Train.OsOps}
    `{!Checkpoints.CheckpointOps F} (isdir : string -> bool) (fname_patterns : string) :
  ((forall i, (Z.of_nat i < Checkpoints.n_max)%Z ->
      Train.formats fname_patterns i = true) ->
   exists flow_list,
     Checkpoints.load_flows isdir fname_patterns = Ok flow_list
     /\ flow_list
        = map Checkpoints.load_latest
            (List.filter isdir
               (map (Checkpoints.flow_dir_of fname_patterns)
                    (py_range Checkpoints.n_max)))
     /\ (Z.of_nat (length flow_list) <= Checkpoints.n_max)%Z
     /\ (forall flow,
           flow ∈ flow_list
           <-> exists i, (Z.of_nat i < Checkpoints.n_max)%Z
                         /\ isdir (Checkpoints.flow_dir_of fname_patterns i) = true
                         /\ flow = Checkpoints.load_latest
                                     (Checkpoints.flow_dir_of fname_patterns i))
     /\ ((forall i, (Z.of_nat i < Checkpoints.n_max)%Z ->
            isdir (Checkpoints.flow_dir_of fname_patterns i) = false) ->
         flow_list = []))
  /\ (forall i e,
        (Z.of_nat i < Checkpoints.n_max)%Z ->
        (forall j, j < i -> Train.formats fname_patterns j = true) ->
        Train.str_format fname_patterns i = Raise e ->
        Checkpoints.load_flows isdir fname_patterns = Raise e).
Proof.
  split; [|intros i e; apply LoadFacts.load_flows_raise].
  intros Hfmt.
  assert (Hmax : (Z.of_nat (Z.to_nat Checkpoints.n_max) = Checkpoints.n_max)%Z).
  { apply Z2Nat.id. unfold Checkpoints.n_max. lia. }
  eexists. split; [apply LoadFacts.load_flows_eq; exact Hfmt|].
  set (flow_list := map Checkpoints.load_latest _).
  assert (Hmem : forall flow,
            flow ∈ flow_list
            <-> exists i, (Z.of_nat i < Checkpoints.n_max)%Z
                          /\ isdir (Checkpoints.flow_dir_of fname_patterns i) = true
                          /\ flow = Checkpoints.load_latest
                                      (Checkpoints.flow_dir_of fname_patterns i)).
  { intros flow. unfold flow_list. rewrite list_elem_of_In, in_map_iff.
    unfold py_range. split.
    - intros (d & <- & Hd). apply filter_In in Hd. destruct Hd as [Hd Hdir].
      apply in_map_iff in Hd. destruct Hd as (i & <- & Hi). apply in_seq in Hi.
      exists i. split_and!; [lia|exact Hdir|reflexivity].
    - intros (i & Hi & Hdir & ->). exists (Checkpoints.flow_dir_of fname_patterns i).
      split; [reflexivity|]. apply filter_In. split; [|exact Hdir].
      apply in_map. apply in_seq. lia. }
  split_and!.
  - reflexivity.
  - unfold flow_list. rewrite length_map.
    etransitivity; [apply inj_le, filter_length_le|].
    rewrite length_map, length_py_range, Hmax. reflexivity.
  - exact Hmem.
  - intros Hnone.
    destruct flow_list as [|flow l] eqn:E; [reflexivity|].
    destruct (proj1 (Hmem flow) (list_elem_of_here _ _)) as (i & Hi & Hdir & _).
    rewrite (Hnone i Hi) in Hdir. discriminate Hdir.
Qed.

(** When the pattern formats at every index below 9999 and puts every flow
    in one directory, [load_flows] does not tell the flows apart: if the
    directory exists it loads its latest checkpoint 9999 times, and
    otherwise nothing. *)
Theorem load_flows_shared_directory {F : Type} `{Flows.FlowOps F} `{Train.OsOps}
    `{!Checkpoints.CheckpointOps F} (isdir : string -> bool)
    (fname_patterns d : string) :
  (forall i, (Z.of_nat i < Checkpoints.n_max)%Z ->
     Train.formats fname_patterns i = true) ->
  (forall i, Checkpoints.flow_dir_of fname_patterns i = d) ->
  Checkpoints.load_flows isdir fname_patterns
  = Ok (if isdir d
        then repeat (Checkpoints.load_latest d) (Z.to_nat Checkpoints.n_max)
        else []).
Proof.
  intros Hfmt Hd. rewrite LoadFacts.load_flows_eq by exact Hfmt. f_equal.
  assert (Hmap : map (Checkpoints.flow_dir_of fname_patterns) (py_range Checkpoints.n_max)
                 = map (fun _ : nat => d) (seq 0 (Z.to_nat Checkpoints.n_max))).
  { unfold py_range. apply map_ext. exact Hd. }
  rewrite Hmap, (LoadFacts.filter_const (isdir d)) by reflexivity.
  destruct (isdir d); [|reflexivity].
  generalize (Z.to_nat Checkpoints.n_max). intros n.
  induction n as [|n IH]; [reflexivity|]. cbn [repeat map]. rewrite IH. reflexivity.
Qed.

(** An instance: a pattern without a field, which names the same file
    [models/flow] at every index. *)
Lemma load_flows_shared_directory_models :
  (forall i, @Checkpoints.flow_dir_of Toy.toy_os "models/flow" i = "models"%string)
  /\ @Checkpoints.load_flows _ Toy.float_flows Toy.toy_os ToyFiles.toy_checkpoints
       (String.eqb "models") "models/flow"
     = Ok (repeat 6 (Z.to_nat Checkpoints.n_max)).
Proof.
  split; [intros i; reflexivity|].
  apply (@load_flows_shared_directory _ Toy.float_flows Toy.toy_os ToyFiles.toy_checkpoints
           (String.eqb "models") "models/flow" "models").
  - intros i _. reflexivity.
  - intros i. reflexivity.
Defined.

(** ** [train_flows], then [load_flows] *)

Module DirFacts.
Import Flows Train Checkpoints TrainTrace.
Section Generic.
Context `{DirOps}.

Lemma dirs_after_app (evs evs' : list event) (fs : string -> bool) :
  dirs_after (evs ++ evs') fs = dirs_after evs' (dirs_after evs fs).
Proof. unfold dirs_after. apply fold_left_app. Qed.

Lemma dirs_after_keeps (contract : mkdir_contract) (evs : list event) :
  forall (fs : string -> bool) (x : string),
    fs x = true -> dirs_after evs fs x = true.
Proof.
  induction evs as [|e evs IH]; intros fs x Hx.
  - exact Hx.
  - cbn [dirs_after fold_left]. apply IH.
    destruct e as [d| | | | |]; try exact Hx. apply (proj2 (contract d fs)). exact Hx.
Qed.

Lemma dirs_after_makes (contract : mkdir_contract) (evs : list event) (d : string) :
  d <> EmptyString -> EvMkdir d ∈ evs ->
  forall fs : string -> bool, dirs_after evs fs d = true.
Proof.
  intros Hd. induction evs as [|e evs IH]; intros Hin fs.
  - apply elem_of_nil in Hin. contradiction.
  - apply elem_of_cons in Hin. destruct Hin as [<-|Hin].
    + cbn [dirs_after fold_left]. apply (dirs_after_keeps contract).
      apply (proj1 (contract d fs)). exact Hd.
    + cbn [dirs_after fold_left]. apply IH. exact Hin.
Qed.

End Generic.

Section Events.
Context `{OsOps}.

Lemma mkdir_among_events (fname_pattern plot_fname_pattern : string) (idxs : list nat) :
  forall (new : list ref) (k i : nat),
    length new = length idxs -> idxs !! k = Some i ->
    EvMkdir (flow_dir_of fname_pattern i)
    ∈ loop_events fname_pattern plot_fname_pattern idxs new.
Proof.
  unfold loop_events.
  induction idxs as [|j idxs IH]; intros new k i Hlen Hk.
  - rewrite lookup_nil in Hk. discriminate.
  - destruct new as [|r new]; [discriminate Hlen|].
    cbn [zip_with concat]. apply elem_of_app. destruct k as [|k].
    + left. cbn in Hk. injection Hk as ->. apply list_elem_of_here.
    + right. apply (IH new k i); [|exact Hk]. cbn in Hlen. lia.
Qed.

End Events.
End DirFacts.

(** After [train_flows] has returned, [load_flows] on the same pattern, where
    it formats at every index below 9999, finds the directory of every flow
    that was trained, provided the pattern gives a directory name: the
    checkpoint of flow [i] is among the flows loaded for each [i] below
    9999, and at least as many flows are loaded as were trained, up to 9999.
    More can be loaded: [load_flows] takes every directory of the pattern
    that exists, whatever made it. *)
Theorem load_flows_after_training {F : Type} `{Numeric F} `{Flows.FlowOps F}
    `{Train.OsOps} `{!Checkpoints.CheckpointOps F} `{Checkpoints.DirOps}
    (data : Np.ndarray2 F) (fname_pattern plot_fname_pattern loss_fname : string)
    (p : Train.flow_params F) (w w' : Train.world F) (flow_list : list Train.ref)
    (isdir : string -> bool) :
  Checkpoints.mkdir_contract ->
  Train.train_flows data fname_pattern plot_fname_pattern loss_fname p w
  = (Ok flow_list, w') ->
  (forall i, (Z.of_nat i < Checkpoints.n_max)%Z ->
     Train.formats fname_pattern i = true) ->
  (forall i, i < length flow_list ->
     Checkpoints.flow_dir_of fname_pattern i <> EmptyString) ->
  let now := Checkpoints.dirs_after (Train.events w') isdir in
  exists loaded,
    Checkpoints.load_flows now fname_pattern = Ok loaded
    /\ (forall i, i < length flow_list ->
          now (Checkpoints.flow_dir_of fname_pattern i) = true)
    /\ (forall i, i < length flow_list -> (Z.of_nat i < Checkpoints.n_max)%Z ->
          Checkpoints.load_latest (Checkpoints.flow_dir_of fname_pattern i) ∈ loaded)
    /\ Nat.min (length flow_list) (Z.to_nat Checkpoints.n_max) <= length loaded.
Proof.
  intros contract Hrun Hall Hname now.
  destruct (TrainFacts.train_flows_ok_formats _ _ _ _ _ _ _ _ Hrun) as [E Hfmt].
  rewrite TrainFacts.train_flows_nonzero in Hrun by exact E.
  destruct (TrainFacts.train_flows_loop data fname_pattern plot_fname_pattern p
              (Np.np_mean2_axis0 data) (Np.np_std2_axis0 data)
              (py_range (Train.n_flows p))
              (TrainFacts.format_below_Forall _ _ _ Hfmt) [] w)
    as (new & w1 & Hloop & Hlen & _ & _ & _ & _ & Hev & _).
  rewrite Hloop in Hrun. injection Hrun as <- <-. cbn [app] in *.
  assert (Hnow : forall i, i < length new ->
            now (Checkpoints.flow_dir_of fname_pattern i) = true).
  { intros i Hi. unfold now. rewrite Hev, DirFacts.dirs_after_app.
    apply (DirFacts.dirs_after_makes contract); [apply Hname; exact Hi|].
    apply (DirFacts.mkdir_among_events fname_pattern plot_fname_pattern
             (py_range (Train.n_flows p)) new i i Hlen).
    unfold py_range. apply lookup_seq. split; [reflexivity|].
    rewrite Hlen, length_py_range in Hi. exact Hi. }
  eexists. split; [apply LoadFacts.load_flows_eq; exact Hall|].
  split_and!.
  - exact Hnow.
  - intros i Hi Hmax. rewrite list_elem_of_In.
    apply in_map. apply filter_In. split; [|apply Hnow; exact Hi].
    apply in_map. unfold py_range. apply in_seq. lia.
  - rewrite length_map. unfold py_range.
    generalize (Z.to_nat Checkpoints.n_max). intros m.
    assert (Hfilter : List.filter now (map (Checkpoints.flow_dir_of fname_pattern) (seq 0 m))
                      = map (Checkpoints.flow_dir_of fname_pattern)
                            (List.filter (fun i => now (Checkpoints.flow_dir_of fname_pattern i))
                                         (seq 0 m))).
    { induction (seq 0 m) as [|i l IH]; [reflexivity|].
      cbn [map List.filter]. rewrite IH.
      destruct (now (Checkpoints.flow_dir_of fname_pattern i)); reflexivity. }
    rewrite Hfilter, length_map.
    apply LoadFacts.length_filter_below. intros i Hi _. apply Hnow. exact Hi.
Qed.

Lemma toy_mkdir_contract : @Checkpoints.mkdir_contract ToyFiles.toy_dirs.
Proof.
  intros d fs. split.
  - intros Hd.
    change (Checkpoints.mkdir_p d fs d)
      with ((negb (String.eqb d EmptyString) && String.eqb d d) || fs d).
    rewrite String.eqb_refl. destruct d as [|c d]; [contradiction|]. reflexivity.
  - intros x Hx.
    change (Checkpoints.mkdir_p d fs x)
      with ((negb (String.eqb d EmptyString) && String.eqb x d) || fs x).
    rewrite Hx. apply orb_true_r.
Qed.

(** An instance: two flows trained where another directory of the pattern
    was there already. *)
Lemma load_flows_after_training_two_flows :
  exists flow_list w' loaded,
    @Train.train_flows _ Numeric_float Toy.toy_os Toy.two_rows "ckpt/flow{}/flow"
       "plots/loss{}.png" "history" (Toy.toy_flow_params 2 1) Train.empty_world
    = (Ok flow_list, w')
    /\ @Checkpoints.load_flows _ Toy.float_flows Toy.toy_os ToyFiles.toy_checkpoints
         (@Checkpoints.dirs_after ToyFiles.toy_dirs (Train.events w')
            (String.eqb "ckpt/flow4"))
         "ckpt/flow{}/flow" = Ok loaded
    /\ 2 <= length loaded.
Proof.
  destruct (@Train.train_flows _ Numeric_float Toy.toy_os Toy.two_rows "ckpt/flow{}/flow"
              "plots/loss{}.png" "history" (Toy.toy_flow_params 2 1) Train.empty_world)
    as [[flow_list|e] w'] eqn:E; [|vm_compute in E; discriminate E].
  assert (Hlen : length flow_list = 2).
  { vm_compute in E. injection E as <- _. reflexivity. }
  destruct (@load_flows_after_training _ Numeric_float Toy.float_flows Toy.toy_os
              ToyFiles.toy_checkpoints ToyFiles.toy_dirs _ _ _ _ _ _ _ _
              (String.eqb "ckpt/flow4") toy_mkdir_contract E)
    as (loaded & Hload & _ & _ & Hmin).
  - intros i _. reflexivity.
  - intros i Hi. rewrite Hlen in Hi.
    destruct i as [|[|i]]; [discriminate|discriminate|lia].
  - exists flow_list, w', loaded. split; [reflexivity|]. split; [exact Hload|].
    rewrite Hlen in Hmin.
    assert (Hmax : 2 <= Z.to_nat Checkpoints.n_max) by (unfold Checkpoints.n_max; lia).
    rewrite Nat.min_l in Hmin by exact Hmax. exact Hmin.
Defined.

(** ** [save_df_data] and [load_df_data] *)

Module DfFacts.
Import Np Flows Checkpoints DfData.
Section Generic.
Context {F : Type} `{Numeric F} `{Promotion F} `{CastOps F} `{Train.OsOps} `{DirOps}.

Lemma lookup_datasets_eta (df_data : flow_samples F) :
  datasets_of df_data !! "eta"%string = Some (Data2 (eta df_data)).
Proof.
  unfold datasets_of. destruct (df_deta_indiv df_data).
  - rewrite !lookup_insert_ne by discriminate. apply lookup_insert_eq.
  - rewrite lookup_insert_ne by discriminate. apply lookup_insert_eq.
Qed.

Lemma lookup_datasets_df_deta (df_data : flow_samples F) :
  datasets_of df_data !! "df_deta"%string = Some (Data2 (ma_data (df_deta df_data))).
Proof.
  unfold datasets_of. destruct (df_deta_indiv df_data).
  - rewrite lookup_insert_ne by discriminate. apply lookup_insert_eq.
  - apply lookup_insert_eq.
Qed.

Lemma lookup_datasets_indiv (df_data : flow_samples F) :
  datasets_of df_data !! "df_deta_indiv"%string = Data3 <$> df_deta_indiv df_data.
Proof.
  unfold datasets_of. destruct (df_deta_indiv df_data).
  - apply lookup_insert_eq.
  - rewrite !lookup_insert_ne by discriminate. apply lookup_empty.
Qed.

Lemma lookup_datasets_other (df_data : flow_samples F) (key : string) :
  key <> "eta"%string -> key <> "df_deta"%string -> key <> "df_deta_indiv"%string ->
  datasets_of df_data !! key = None.
Proof.
  intros Ha Hb Hc. unfold datasets_of. destruct (df_deta_indiv df_data).
  - rewrite !lookup_insert_ne by congruence. apply lookup_empty.
  - rewrite !lookup_insert_ne by congruence. apply lookup_empty.
Qed.

Lemma load_saved_plain (df_data : flow_samples F) (fname : string) (st : store F) :
  load_df_data fname None (save_df_data df_data fname st) = Done (read_back df_data).
Proof.
  unfold load_df_data, save_df_data. cbn [h5_files]. rewrite lookup_insert_eq.
  reflexivity.
Qed.

Lemma load_saved_other (df_data : flow_samples F) (fname other : string)
    (recalc_avg : option string) (st : store F) :
  other <> fname ->
  load_df_data other recalc_avg (save_df_data df_data fname st)
  = load_df_data other recalc_avg st.
Proof.
  intros Hne. unfold load_df_data, save_df_data. cbn [h5_files].
  rewrite lookup_insert_ne by congruence. reflexivity.
Qed.

Lemma load_saved_mean (df_data : flow_samples F) (fname : string) (st : store F) :
  load_df_data fname (Some "mean"%string) (save_df_data df_data fname st)
  = match df_deta_indiv df_data with
    | Some a =>
        Done (<["df_deta"%string :=
                  VM2 (clipped_vector_mean (cast3 a) default_clip_threshold default_rounds)]>
                (read_back df_data))
    | None => Failed (KeyError "df_deta_indiv")
    end.
Proof.
  unfold load_df_data, save_df_data. cbn [h5_files]. rewrite lookup_insert_eq.
  rewrite bool_decide_eq_true_2 by reflexivity.
  unfold getitem. rewrite lookup_fmap, lookup_datasets_indiv.
  destruct (df_deta_indiv df_data); reflexivity.
Qed.

Lemma load_saved_median (df_data : flow_samples F) (fname : string) (st : store F) :
  load_df_data fname (Some "median"%string) (save_df_data df_data fname st)
  = match df_deta_indiv df_data with
    | Some a =>
        Done (<["df_deta"%string := V2 (np_median_axis0 (cast3 a))]> (read_back df_data))
    | None => Failed (KeyError "df_deta_indiv")
    end.
Proof.
  unfold load_df_data, save_df_data. cbn [h5_files]. rewrite lookup_insert_eq.
  rewrite bool_decide_eq_false_2 by discriminate.
  rewrite bool_decide_eq_true_2 by reflexivity.
  unfold getitem. rewrite lookup_fmap, lookup_datasets_indiv.
  destruct (df_deta_indiv df_data); reflexivity.
Qed.

Lemma load_other_mode (fname recalc_avg : string) (st : store F) :
  recalc_avg <> "mean"%string -> recalc_avg <> "median"%string ->
  load_df_data fname (Some recalc_avg) st = load_df_data fname None st.
Proof.
  intros Hmean Hmedian. unfold load_df_data.
  destruct (h5_files st !! fname); [|reflexivity].
  rewrite !bool_decide_eq_false_2 by congruence. reflexivity.
Qed.

Lemma read_back_eta (df_data : flow_samples F) :
  read_back df_data !! "eta"%string = Some (V2 (cast2 (eta df_data))).
Proof. unfold read_back. rewrite !lookup_fmap, lookup_datasets_eta. reflexivity. Qed.

Lemma read_back_df_deta (df_data : flow_samples F) :
  read_back df_data !! "df_deta"%string
  = Some (V2 (cast2 (ma_data (df_deta df_data)))).
Proof. unfold read_back. rewrite !lookup_fmap, lookup_datasets_df_deta. reflexivity. Qed.

Lemma read_back_indiv (df_data : flow_samples F) :
  read_back df_data !! "df_deta_indiv"%string
  = (fun a => V3 (cast3 a)) <$> df_deta_indiv df_data.
Proof.
  unfold read_back. rewrite !lookup_fmap, lookup_datasets_indiv.
  destruct (df_deta_indiv df_data); reflexivity.
Qed.

Lemma read_back_other (df_data : flow_samples F) (key : string) :
  key <> "eta"%string -> key <> "df_deta"%string -> key <> "df_deta_indiv"%string ->
  read_back df_data !! key = None.
Proof.
  intros Ha Hb Hc. unfold read_back.
  rewrite !lookup_fmap, lookup_datasets_other by assumption. reflexivity.
Qed.

End Generic.
End DfFacts.

(** What [save_df_data] writes, [load_df_data] reads back under the same
    keys and no others, every number cast to single precision: ['eta'];
    ['df_deta'], of which only the data comes back, not the mask; and
    ['df_deta_indiv'] when it was there.  The directories that existed are
    not touched by the load, and the other files read as before the save. *)
Theorem save_df_data_round_trip {F : Type} `{Numeric F} `{Promotion F} `{DfData.CastOps F}
    `{Train.OsOps} `{Checkpoints.DirOps}
    (df_data : Flows.flow_samples F) (fname : string) (st : DfData.store F) :
  exists d,
    DfData.load_df_data fname None (DfData.save_df_data df_data fname st) = DfData.Done d
    /\ d !! "eta"%string = Some (DfData.V2 (DfData.cast2 (Flows.eta df_data)))
    /\ d !! "df_deta"%string
       = Some (DfData.V2 (DfData.cast2 (Np.ma_data (Flows.df_deta df_data))))
    /\ d !! "df_deta_indiv"%string
       = (fun a => DfData.V3 (DfData.cast3 a)) <$> Flows.df_deta_indiv df_data
    /\ (forall key : string,
          key <> "eta"%string -> key <> "df_deta"%string ->
          key <> "df_deta_indiv"%string -> d !! key = None)
    /\ (forall (other : string) (recalc_avg : option string),
          other <> fname ->
          DfData.load_df_data other recalc_avg (DfData.save_df_data df_data fname st)
          = DfData.load_df_data other recalc_avg st).
Proof.
  exists (DfData.read_back df_data). split_and!.
  - apply DfFacts.load_saved_plain.
  - apply DfFacts.read_back_eta.
  - apply DfFacts.read_back_df_deta.
  - apply DfFacts.read_back_indiv.
  - apply DfFacts.read_back_other.
  - intros other recalc_avg Hne. apply DfFacts.load_saved_other. exact Hne.
Qed.

(** Loading with [recalc_avg] what [save_df_data] wrote.  Without
    ['df_deta_indiv'] in the data, ['mean'] and ['median'] raise a
    [KeyError].  With it, the load is the plain one but for ['df_deta'],
    which is recalculated from the samples as they were read, after the
    cast: the clipped mean, masked array and all, or the median.  Any other
    value of [recalc_avg] is ignored. *)
Theorem load_df_data_recalculates {F : Type} `{Numeric F} `{Promotion F} `{DfData.CastOps F}
    `{Train.OsOps} `{Checkpoints.DirOps}
    (df_data : Flows.flow_samples F) (fname : string) (st : DfData.store F) :
  let saved := DfData.save_df_data df_data fname st in
  match Flows.df_deta_indiv df_data with
  | None =>
      DfData.load_df_data fname (Some "mean"%string) saved
      = DfData.Failed (DfData.KeyError "df_deta_indiv")
      /\ DfData.load_df_data fname (Some "median"%string) saved
         = DfData.Failed (DfData.KeyError "df_deta_indiv")
  | Some a =>
      exists d,
        DfData.load_df_data fname None saved = DfData.Done d
        /\ DfData.load_df_data fname (Some "mean"%string) saved
           = DfData.Done
               (<["df_deta"%string :=
                    DfData.VM2 (Np.clipped_vector_mean (DfData.cast3 a)
                                  Np.default_clip_threshold Np.default_rounds)]> d)
        /\ DfData.load_df_data fname (Some "median"%string) saved
           = DfData.Done
               (<["df_deta"%string := DfData.V2 (Np.np_median_axis0 (DfData.cast3 a))]> d)
  end
  /\ (forall recalc_avg : string,
        recalc_avg <> "mean"%string -> recalc_avg <> "median"%string ->
        DfData.load_df_data fname (Some recalc_avg) saved
        = DfData.load_df_data fname None saved).
Proof.
  cbv zeta. split.
  - pose proof (DfFacts.load_saved_mean df_data fname st) as Hmean.
    pose proof (DfFacts.load_saved_median df_data fname st) as Hmedian.
    destruct (Flows.df_deta_indiv df_data) as [a|].
    + exists (DfData.read_back df_data). split_and!.
      * apply DfFacts.load_saved_plain.
      * exact Hmean.
      * exact Hmedian.
    + split; assumption.
  - intros recalc_avg Hmean Hmedian. apply DfFacts.load_other_mode; assumption.
Qed.

(** The sampling stage of [main], saved and loaded again with
    [recalc_avg='mean']: the samples of every flow are in the file, so the
    load returns, and its ['df_deta'] is the clipped mean of the samples
    after the cast, whichever of the median and the clipped mean [main] had
    saved. *)
Theorem main_sample_reloads {F : Type} `{Numeric F} `{Promotion F} `{Flows.FlowOps F}
    `{DfData.CastOps F} `{Train.OsOps} `{Checkpoints.DirOps}
    (flows : list Flows.Flow) (flow_median : bool) (n_samples : nat)
    (grad_batch_size : positive) (sample_batch_size : nat) (rng rng' : Flows.Rng)
    (df_data : Flows.flow_samples F) (fname : string) (st : DfData.store F) :
  Flows.main_sample flows flow_median n_samples grad_batch_size sample_batch_size rng
  = Ok (df_data, rng') ->
  exists indiv d,
    Flows.df_deta_indiv df_data = Some indiv
    /\ Flows.df_deta df_data = Flows.main_f_reduce flow_median indiv
    /\ DfData.load_df_data fname (Some "mean"%string)
         (DfData.save_df_data df_data fname st) = DfData.Done d
    /\ d !! "df_deta"%string
       = Some (DfData.VM2 (Np.clipped_vector_mean (DfData.cast3 indiv)
                             Np.default_clip_threshold Np.default_rounds))
    /\ d !! "df_deta_indiv"%string = Some (DfData.V3 (DfData.cast3 indiv))
    /\ d !! "eta"%string = Some (DfData.V2 (DfData.cast2 (Flows.eta df_data))).
Proof.
  intros Hrun. unfold Flows.main_sample in Hrun.
  apply EnsembleFacts.sample_from_flows_ok in Hrun.
  destruct Hrun as (n_batches & batches & eta0 & a & _ & _ & _ & _ & ->).
  exists a. eexists. split_and!.
  - reflexivity.
  - reflexivity.
  - rewrite DfFacts.load_saved_mean. reflexivity.
  - apply lookup_insert_eq.
  - rewrite lookup_insert_ne by discriminate.
    rewrite DfFacts.read_back_indiv. reflexivity.
  - rewrite lookup_insert_ne by discriminate. apply DfFacts.read_back_eta.
Qed.

(** An instance: two flows, five samples asked for, in single precision. *)
Lemma main_sample_reloads_two_flows :
  exists df_data rng' d,
    @Flows.main_sample _ Numeric_single Promotion_float Toy.float_flows [1; 2] false 5 1 2 0
    = Ok (df_data, rng')
    /\ @DfData.load_df_data _ Numeric_single Promotion_float ToyFiles.single_cast
         "samples.h5" (Some "mean"%string)
         (@DfData.save_df_data _ Toy.toy_os ToyFiles.toy_dirs df_data "samples.h5"
            ToyFiles.empty_store) = DfData.Done d.
Proof.
  destruct (@Flows.main_sample _ Numeric_single Promotion_float Toy.float_flows
              [1; 2] false 5 1 2 0)
    as [[df_data g]|e] eqn:E; [|vm_compute in E; discriminate E].
  destruct (@main_sample_reloads _ Numeric_single Promotion_float Toy.float_flows
              ToyFiles.single_cast Toy.toy_os ToyFiles.toy_dirs _ _ _ _ _ _ _ _
              "samples.h5" ToyFiles.empty_store E) as (indiv & d & _ & _ & Hload & _).
  exists df_data, g, d. split; [reflexivity|exact Hload].
Defined.

(** ** [load_flows], then the sampling stage of [main] *)

(** Where the pattern formats at every index below 9999 and no directory of
    the pattern exists, [load_flows] returns no flow and the sampling stage
    of [main] raises [ZeroDivisionError], from the division by
    [n_flows * sample_batch_size], whatever the counts asked for. *)
Theorem main_sample_without_checkpoints {F : Type} `{Numeric F} `{Promotion F}
    `{Flows.FlowOps F} `{Train.OsOps} `{!Checkpoints.CheckpointOps F}
    (isdir : string -> bool) (fname_patterns : string) (flow_median : bool)
    (n_samples : nat) (grad_batch_size : positive) (sample_batch_size : nat)
    (rng : Flows.Rng) :
  (forall i, (Z.of_nat i < Checkpoints.n_max)%Z ->
     Train.formats fname_patterns i = true) ->
  (forall i, (Z.of_nat i < Checkpoints.n_max)%Z ->
     isdir (Checkpoints.flow_dir_of fname_patterns i) = false) ->
  Checkpoints.load_flows isdir fname_patterns = Ok []
  /\ (flows ← Checkpoints.load_flows isdir fname_patterns;
      Flows.main_sample flows flow_median n_samples grad_batch_size sample_batch_size rng)
     = Raise ZeroDivisionError.
Proof.
  intros Hfmt Hnone.
  assert (Hdirs : List.filter isdir
                    (map (Checkpoints.flow_dir_of fname_patterns)
                         (py_range Checkpoints.n_max)) = []).
  { unfold py_range.
    assert (Hbelow : forall i, In i (seq 0 (Z.to_nat Checkpoints.n_max)) ->
              isdir (Checkpoints.flow_dir_of fname_patterns i) = false).
    { intros i Hi. apply in_seq in Hi. apply Hnone.
      unfold Checkpoints.n_max in *. lia. }
    induction (seq 0 (Z.to_nat Checkpoints.n_max)) as [|i l IH]; [reflexivity|].
    cbn [map List.filter]. rewrite (Hbelow i) by (left; reflexivity).
    apply IH. intros j Hj. apply Hbelow. right. exact Hj. }
  rewrite LoadFacts.load_flows_eq, Hdirs by exact Hfmt. split; reflexivity.
Qed.

(** An instance: no directory at all. *)
Lemma main_sample_without_checkpoints_no_directory :
  (flows ← @Checkpoints.load_flows _ Toy.float_flows Toy.toy_os ToyFiles.toy_checkpoints
             (fun _ => false) "ckpt/flow{}/flow";
   @Flows.main_sample _ Numeric_single Promotion_float Toy.float_flows flows
     false 5 1 2 0)
  = Raise ZeroDivisionError.
Proof.
  apply (@main_sample_without_checkpoints _ Numeric_single Promotion_float Toy.float_flows
           Toy.toy_os ToyFiles.toy_checkpoints (fun _ => false) "ckpt/flow{}/flow"
           false 5 1 2 0).
  - intros i _. reflexivity.
  - intros i _. reflexivity.
Defined.
